(** * TripPlan_KD: the trip calendar, its remote store client and its sync loop

    A shallow embedding of [src/utils/api.ts], [src/components/Calendar.tsx]
    and the application component (App), together with the parts of the
    ECMAScript [Date] object and of date-fns that this code calls.

    Conventions of the embedding.
    - A [Date] is a valid JavaScript date, represented by its local time
      value in milliseconds (the quantity ECMAScript calls [LocalTime(tv)]).
      Every accessor the sources use is a local-time accessor, so this is
      exact in a time zone with a constant UTC offset; daylight-saving
      transitions are outside the model.  A constructor or a setter gives
      the time value that the ECMAScript algorithm computes; it is the date
      the code gets as long as [TimeClip] accepts it ([JS.inRange]), and the
      properties of the grid, of month navigation and of the parser are
      stated within that range.  Beyond it the code has an Invalid Date,
      which [Date] does not hold; a date received from the network that is
      invalid is [None].
    - [null] and [undefined] are [None].
    - An [async] function is a function of the outcome of the awaited remote
      call to a [Promise] value that is either [Resolved] or [Rejected].
    - React state is an explicit record; a handler maps the state before the
      event to the state after it. *)

From Stdlib Require Import ZArith List String Ascii Bool Lia.
Import ListNotations.
Local Open Scope Z_scope.

(** ** ECMAScript date algorithms (ECMA-262, "Date Objects") *)

Module ES.

Definition msPerDay : Z := 86400000.

Definition Day (t : Z) : Z := t / msPerDay.
Definition TimeWithinDay (t : Z) : Z := t mod msPerDay.

Definition isLeap (y : Z) : bool :=
  if negb (y mod 4 =? 0) then false
  else if negb (y mod 100 =? 0) then true
  else if negb (y mod 400 =? 0) then false
  else true.

Definition DaysInYear (y : Z) : Z := if isLeap y then 366 else 365.

Definition DayFromYear (y : Z) : Z :=
  365 * (y - 1970) + (y - 1969) / 4 - (y - 1901) / 100 + (y - 1601) / 400.

(** [YearFromTime]: the largest [y] with [DayFromYear y <= d].  It is computed
    from the mean year length, 146097 days in 400 years, which is off by at
    most one year. *)
Definition YearFromDay (d : Z) : Z :=
  let y := 1970 + (400 * d) / 146097 in
  if d <? DayFromYear y then y - 1
  else if DayFromYear (y + 1) <=? d then y + 1
  else y.

Definition DayWithinYear (d : Z) : Z := d - DayFromYear (YearFromDay d).

Definition InLeapYear (d : Z) : Z := if isLeap (YearFromDay d) then 1 else 0.

(** Number of days of the year that precede month [m] (0 = January); the
    boundaries of the table that defines [MonthFromTime]. *)
Definition monthStart (leap m : Z) : Z :=
  match m with
  | 0 => 0
  | 1 => 31
  | 2 => 59 + leap
  | 3 => 90 + leap
  | 4 => 120 + leap
  | 5 => 151 + leap
  | 6 => 181 + leap
  | 7 => 212 + leap
  | 8 => 243 + leap
  | 9 => 273 + leap
  | 10 => 304 + leap
  | 11 => 334 + leap
  | _ => 365 + leap
  end.

Definition monthOfYearDay (leap dwy : Z) : Z :=
  if dwy <? 31 then 0
  else if dwy <? 59 + leap then 1
  else if dwy <? 90 + leap then 2
  else if dwy <? 120 + leap then 3
  else if dwy <? 151 + leap then 4
  else if dwy <? 181 + leap then 5
  else if dwy <? 212 + leap then 6
  else if dwy <? 243 + leap then 7
  else if dwy <? 273 + leap then 8
  else if dwy <? 304 + leap then 9
  else if dwy <? 334 + leap then 10
  else 11.

Definition MonthFromDay (d : Z) : Z :=
  monthOfYearDay (InLeapYear d) (DayWithinYear d).

Definition DateFromDay (d : Z) : Z :=
  DayWithinYear d - monthStart (InLeapYear d) (MonthFromDay d) + 1.

Definition WeekDayOfDay (d : Z) : Z := (d + 4) mod 7.

Definition YearFromTime (t : Z) : Z := YearFromDay (Day t).
Definition MonthFromTime (t : Z) : Z := MonthFromDay (Day t).
Definition DateFromTime (t : Z) : Z := DateFromDay (Day t).
Definition WeekDay (t : Z) : Z := WeekDayOfDay (Day t).

(** [MakeDay (year, month, date)]: months outside 0..11 carry into the year,
    days outside the month carry into the neighbouring months. *)
Definition MakeDay (year month date : Z) : Z :=
  let ym := year + month / 12 in
  let mn := month mod 12 in
  DayFromYear ym + monthStart (if isLeap ym then 1 else 0) mn + date - 1.

Definition MakeTime (hour min sec ms : Z) : Z :=
  hour * 3600000 + min * 60000 + sec * 1000 + ms.

Definition MakeDate (day time : Z) : Z := day * msPerDay + time.

(** [MakeFullYear]: the [Date (year, month, ...)] constructor (and only it)
    reads a year from 0 to 99 as 1900 + year. *)
Definition MakeFullYear (year : Z) : Z :=
  if (0 <=? year) && (year <=? 99) then 1900 + year else year.

(** [TimeClip]: only a time value within 8.64e15 ms of the epoch is that of a
    date; [None] is [NaN], the time value of an Invalid Date. *)
Definition maxTime : Z := 8640000000000000.

Definition TimeClip (time : Z) : option Z :=
  if Z.abs time <=? maxTime then Some time else None.

End ES.

(** ** The [Date] object *)

(** A valid date, as its local time value in milliseconds. *)
Definition Date : Type := Z.

Module JS.
Import ES.

(** [new Date(year, month, day)]: local midnight of the given day. *)
Definition newDate (year month day : Z) : Date :=
  MakeDate (MakeDay (MakeFullYear year) month day) (MakeTime 0 0 0 0).

(** [inRange t]: the local time value [t] is that of a date whatever the
    time zone.  What [TimeClip] bounds is the UTC time value, and local time
    is less than a day away from UTC. *)
Definition inRange (t : Z) : Prop := Z.abs t <= maxTime - msPerDay.

Definition getTime (d : Date) : Z := d.
Definition getFullYear (d : Date) : Z := YearFromTime d.
Definition getMonth (d : Date) : Z := MonthFromTime d.
Definition getDate (d : Date) : Z := DateFromTime d.
Definition getDay (d : Date) : Z := WeekDay d.

Definition setDate (d : Date) (date : Z) : Date :=
  MakeDate (MakeDay (YearFromTime d) (MonthFromTime d) date) (TimeWithinDay d).

Definition setFullYear (d : Date) (year month date : Z) : Date :=
  MakeDate (MakeDay year month date) (TimeWithinDay d).

Definition setHours (d : Date) (hour min sec ms : Z) : Date :=
  MakeDate (Day d) (MakeTime hour min sec ms).

Definition setMonth (d : Date) (month date : Z) : Date :=
  MakeDate (MakeDay (YearFromTime d) month date) (TimeWithinDay d).

Definition getHours (d : Date) : Z := (d / 3600000) mod 24.
Definition getMinutes (d : Date) : Z := (d / 60000) mod 60.
Definition getSeconds (d : Date) : Z := (d / 1000) mod 60.
Definition getMilliseconds (d : Date) : Z := d mod 1000.

(** *** Strings *)

Definition isEmpty (s : string) : bool :=
  match s with EmptyString => true | String _ _ => false end.

(** [s.includes(sub)] *)
Fixpoint includes (s sub : string) : bool :=
  String.prefix sub s
  || match s with
     | EmptyString => false
     | String _ rest => includes rest sub
     end.

(** [s.split(sep)] for a separator given as a predicate on characters (one
    character, or a character class): the pieces between separators; a string
    without separator is returned as the only piece. *)
Fixpoint splitAcc (isSep : ascii -> bool) (s : string) (piece : string) : list string :=
  match s with
  | EmptyString => [piece]
  | String c rest =>
      if isSep c then piece :: splitAcc isSep rest EmptyString
      else splitAcc isSep rest (piece ++ String c EmptyString)
  end.

Definition split (isSep : ascii -> bool) (s : string) : list string :=
  splitAcc isSep s EmptyString.

Definition digitValue (c : ascii) : option Z :=
  let n := Z.of_N (N_of_ascii c) in
  if (48 <=? n) && (n <=? 57) then Some (n - 48) else None.

Fixpoint digitsValue (acc : Z) (s : string) : option Z :=
  match s with
  | EmptyString => Some acc
  | String c rest =>
      match digitValue c with
      | Some v => digitsValue (10 * acc + v) rest
      | None => None
      end
  end.

(** [Number(s)] on the strings the date format uses: a run of decimal digits
    is its value (exactly so below 2^53) and the empty string is 0.  [None]
    stands for every other string: [NaN], and the signed, fractional,
    hexadecimal, exponent and blank-padded literals, which this model does not
    evaluate. *)
Definition Number (s : string) : option Z := digitsValue 0 s.

(** *** Numbers as text *)

Definition digitChar (n : Z) : ascii := ascii_of_N (Z.to_N (48 + n)).

(** The decimal digits of [n >= 0] in front of [acc]; [fuel] bounds the number
    of digits. *)
Fixpoint decimalDigits (fuel : nat) (n : Z) (acc : string) : string :=
  match fuel with
  | O => acc
  | S fuel' =>
      let acc' := String (digitChar (n mod 10)) acc in
      if n <? 10 then acc' else decimalDigits fuel' (n / 10) acc'
  end.

(** [String(n)] for an integer [n] (below 1e21 in magnitude, where JavaScript
    prints all digits).  A number has fewer digits than its value plus one. *)
Definition numberToString (n : Z) : string :=
  if n <? 0 then String "-" (decimalDigits (S (Z.to_nat (- n))) (- n) EmptyString)
  else decimalDigits (S (Z.to_nat n)) n EmptyString.

(** The loop of [s.padStart(targetLength, "0")]. *)
Fixpoint padZeros (missing : nat) (s : string) : string :=
  match missing with
  | O => s
  | S missing' => String "0" (padZeros missing' s)
  end.

Definition padStart (s : string) (targetLength : nat) : string :=
  padZeros (targetLength - String.length s) s.

(** *** [JSON.stringify] of an array of strings *)

Definition hexDigit (n : N) : ascii :=
  ascii_of_N (if (n <? 10)%N then 48 + n else 87 + n)%N.

Definition quoteChar (c : ascii) : string :=
  let n := N_of_ascii c in
  if (n =? 8)%N then "\b"
  else if (n =? 9)%N then "\t"
  else if (n =? 10)%N then "\n"
  else if (n =? 12)%N then "\f"
  else if (n =? 13)%N then "\r"
  else if (n =? 34)%N then String "\" (String c EmptyString)
  else if (n =? 92)%N then "\\"
  else if (n <? 32)%N
       then "\u00" ++ String (hexDigit (n / 16)) (String (hexDigit (n mod 16)) EmptyString)
  else String c EmptyString.

Fixpoint quoteBody (s : string) : string :=
  match s with
  | EmptyString => EmptyString
  | String c rest => quoteChar c ++ quoteBody rest
  end.

Definition dquote : string := String (ascii_of_N 34) EmptyString.

Definition QuoteJSONString (s : string) : string :=
  dquote ++ quoteBody s ++ dquote.

Definition stringifyStrings (l : list string) : string :=
  "[" ++ String.concat "," (map QuoteJSONString l) ++ "]".

(** *** Errors and promises *)

Record Error := mkError { name : string; message : string }.

(** [new Error(msg)] *)
Definition newError (msg : string) : Error := mkError "Error" msg.

(** [Error.prototype.toString] *)
Definition toString (e : Error) : string :=
  if isEmpty (name e) then message e
  else if isEmpty (message e) then name e
  else name e ++ ": " ++ message e.

Inductive Promise (A : Type) : Type :=
| Resolved (value : A)
| Rejected (reason : Error).
Arguments Resolved {A} value.
Arguments Rejected {A} reason.

End JS.

(** ** date-fns

    The functions the sources import, after the sources of date-fns 3 and 4
    (which differ from date-fns 2 on reversed intervals only). *)

Module DateFns.
Import ES JS.

Definition isBefore (date dateToCompare : Date) : bool := date <? dateToCompare.
Definition isAfter (date dateToCompare : Date) : bool := dateToCompare <? date.

Definition startOfDay (date : Date) : Date := setHours date 0 0 0 0.
Definition endOfDay (date : Date) : Date := setHours date 23 59 59 999.

Definition isSameDay (laterDate earlierDate : Date) : bool :=
  startOfDay laterDate =? startOfDay earlierDate.

Definition isSameMonth (laterDate earlierDate : Date) : bool :=
  (getFullYear laterDate =? getFullYear earlierDate)
  && (getMonth laterDate =? getMonth earlierDate).

(** The end points are put in order first (date-fns 3 and later). *)
Definition isWithinInterval (date start end_ : Date) : bool :=
  let startTime := Z.min start end_ in
  let endTime := Z.max start end_ in
  (startTime <=? date) && (date <=? endTime).

Definition addDays (date : Date) (amount : Z) : Date :=
  if amount =? 0 then date else setDate date (getDate date + amount).

Definition endOfMonth (date : Date) : Date :=
  let month := getMonth date in
  setHours (setFullYear date (getFullYear date) (month + 1) 0) 23 59 59 999.

(** [endOfWeek] with the default [weekStartsOn = 0]. *)
Definition endOfWeek (date : Date) : Date :=
  let weekStartsOn := 0 in
  let day := getDay date in
  let diff := (if day <? weekStartsOn then -7 else 0) + 6 - (day - weekStartsOn) in
  setHours (setDate date (getDate date + diff)) 23 59 59 999.

Definition addMonths (date : Date) (amount : Z) : Date :=
  if amount =? 0 then date
  else
    let dayOfMonth := getDate date in
    let endOfDesiredMonth := setMonth date (getMonth date + amount + 1) 0 in
    let daysInMonth := getDate endOfDesiredMonth in
    if daysInMonth <=? dayOfMonth then endOfDesiredMonth
    else setFullYear date (getFullYear endOfDesiredMonth) (getMonth endOfDesiredMonth)
                     dayOfMonth.

(** [addLeadingZeros (number, targetLength)] *)
Definition addLeadingZeros (number : Z) (targetLength : nat) : string :=
  let output := padStart (numberToString (Z.abs number)) targetLength in
  if number <? 0 then String "-" output else output.

(** The tokens of the format strings the sources use, and literal text. *)
Module Token.
Inductive t := yyyy | MM | dd | M | d | Lit (text : string).
End Token.

Definition formatToken (date : Date) (token : Token.t) : string :=
  match token with
  | Token.yyyy =>
      let signedYear := getFullYear date in
      let year := if 0 <? signedYear then signedYear else 1 - signedYear in
      addLeadingZeros year 4
  | Token.MM => addLeadingZeros (getMonth date + 1) 2
  | Token.M => numberToString (getMonth date + 1)
  | Token.dd => addLeadingZeros (getDate date) 2
  | Token.d => addLeadingZeros (getDate date) 1
  | Token.Lit text => text
  end.

(** [format (date, formatStr)], the format string given by its tokens. *)
Definition format (date : Date) (formatStr : list Token.t) : string :=
  String.concat EmptyString (map (formatToken date) formatStr).

(** ['yyyy-MM-dd'] and ['M/d'] *)
Definition isoDate : list Token.t :=
  [Token.yyyy; Token.Lit "-"; Token.MM; Token.Lit "-"; Token.dd].
Definition monthDay : list Token.t := [Token.M; Token.Lit "/"; Token.d].

Definition differenceInCalendarDays (laterDate earlierDate : Date) : Z :=
  (startOfDay laterDate - startOfDay earlierDate) / msPerDay.

(** [a || b] on numbers *)
Definition orElse (a b : Z) : Z := if a =? 0 then b else a.

Definition compareLocalAsc (laterDate earlierDate : Date) : Z :=
  let diff :=
    orElse (getFullYear laterDate - getFullYear earlierDate)
      (orElse (getMonth laterDate - getMonth earlierDate)
         (orElse (getDate laterDate - getDate earlierDate)
            (orElse (getHours laterDate - getHours earlierDate)
               (orElse (getMinutes laterDate - getMinutes earlierDate)
                  (orElse (getSeconds laterDate - getSeconds earlierDate)
                     (getMilliseconds laterDate - getMilliseconds earlierDate)))))) in
  if diff <? 0 then -1 else if 0 <? diff then 1 else diff.

Definition differenceInDays (laterDate earlierDate : Date) : Z :=
  let sign := compareLocalAsc laterDate earlierDate in
  let difference := Z.abs (differenceInCalendarDays laterDate earlierDate) in
  let laterDate' := setDate laterDate (getDate laterDate - sign * difference) in
  let isLastDayNotFull :=
    if compareLocalAsc laterDate' earlierDate =? - sign then 1 else 0 in
  sign * (difference - isLastDayNotFull).

(** The loop of [eachDayOfInterval]; [fuel] bounds the number of turns. *)
Fixpoint eachDayLoop (fuel : nat) (date : Date) (endTime : Z) : list Date :=
  match fuel with
  | O => []
  | S fuel' =>
      if date <=? endTime
      then date :: eachDayLoop fuel' (setHours (setDate date (getDate date + 1)) 0 0 0 0) endTime
      else []
  end.

(** The loop advances by one day each turn, so one turn per day from the first
    day to the day of [endTime] is enough fuel. *)
Definition eachDayFuel (date : Date) (endTime : Z) : nat :=
  Z.to_nat (Day endTime - Day date + 1).

Definition eachDayOfInterval (start end_ : Date) : list Date :=
  let reversed := end_ <? start in
  let endTime := if reversed then start else end_ in
  let date := setHours (if reversed then end_ else start) 0 0 0 0 in
  let dates := eachDayLoop (eachDayFuel date endTime) date endTime in
  if reversed then rev dates else dates.

End DateFns.

(** ** [src/types.ts] *)

Record DateRange := mkRange {
  startDate : option Date;
  endDate : option Date
}.

(** A trip as the client holds it.  A date is [None] when the string received
    for it does not give a valid date (an Invalid Date in JavaScript, on which
    every comparison of date-fns is false). *)
Module Trip.
Record t := mk {
  id : string;
  startDate : option Date;
  endDate : option Date;
  lastUpdated : option string
}.
End Trip.
Abbreviation Trip := Trip.t.

(** ** [src/utils/api.ts] *)

Module Api.
Import JS.

(** [parseDateSafe]; [now] is the value of [new Date()]. *)
Definition parseDateSafe (now : Date) (dateStr : string) : option Date :=
  if isEmpty dateStr then Some now
  else
    let cleanStr := hd EmptyString (split (Ascii.eqb "T") dateStr) in
    match map Number (split (fun c => Ascii.eqb c "-" || Ascii.eqb c "/") cleanStr) with
    | Some year :: Some month :: Some day :: _ => Some (newDate year (month - 1) day)
    | _ => None
    end.

Definition sheetMissing : string :=
  "後端錯誤：找不到試算表。請確認您的 GAS 為「綁定腳本」，或在 GAS 程式碼中手動填入 Sheet ID。".
Definition connectionFailed : string :=
  "連線失敗：請檢查 API_URL 是否正確，或確認網路連線。".

(** [handleApiError] always throws; the result is the error it throws. *)
Definition handleApiError (error : Error) : Error :=
  let msg := toString error in
  if includes msg "Cannot read properties of null (reading 'getActiveSheet')"
  then newError sheetMissing
  else if includes msg "Failed to fetch"
  then newError connectionFailed
  else error.

(** What the remote store answers to a [save] request. *)
Inductive SaveReply :=
| SaveFetchFailed (e : Error)          (* [fetch], [response.text()] or the reading
                                          of a body that is no object throws [e] *)
| SaveBodyUnparsable                   (* [JSON.parse] throws *)
| SaveStatusError (message : string)   (* [{status: "error", message}] *)
| SaveOk (id : string)                 (* [{id}] *)
| SaveNoId.                            (* any other body: [data.id] is no string,
                                          [undefined] when there is none *)

(** What the remote store answers to the [getAll] request. *)
Record TripJson := mkTripJson {
  json_id : string;
  json_startDate : string;
  json_endDate : string;
  json_lastUpdated : option string
}.

Inductive ListReply :=
| ListFetchFailed (e : Error)          (* [fetch], [response.text()] or the reading
                                          of a body that is no object throws [e] *)
| ListBodyUnparsable                   (* [JSON.parse] throws *)
| ListStatusError (message : string)   (* [{status: "error", message}] *)
| ListNoTrips                          (* [data.trips] missing or not an array *)
| ListTrips (trips : list TripJson).   (* [{trips: [...]}] *)

Section Client.

(** The endpoint, which the user of the repository fills in. *)
Variable API_URL : string.

(** The body of the [try] block of [saveTripToCloud].  It returns [data.id]
    unchecked: the result, declared a string, is [None] when the reply has no
    id that is a string. *)
Definition saveTry (reply : SaveReply) : Promise (option string) :=
  match reply with
  | SaveFetchFailed e => Rejected e
  | SaveBodyUnparsable => Rejected (newError "伺服器回應格式錯誤")
  | SaveStatusError message => Rejected (newError message)
  | SaveOk id => Resolved (Some id)
  | SaveNoId => Resolved None
  end.

Definition saveTripToCloud (range : DateRange) (reply : SaveReply)
    : Promise (option string) :=
  if isEmpty API_URL then Rejected (newError "請先設定 utils/api.ts 中的 API_URL")
  else
    match startDate range, endDate range with
    | Some _, Some _ =>
        match saveTry reply with
        | Resolved id => Resolved id
        | Rejected error => Rejected (handleApiError error)
        end
    | _, _ => Rejected (newError "日期不完整")
    end.

(** The body of the save request, for a complete range. *)
Record SavePayload := mkSavePayload {
  payload_action : string;
  payload_id : option string;
  payload_startDate : string;
  payload_endDate : string
}.

Definition savePayload (range : DateRange) (id : option string) : option SavePayload :=
  match startDate range, endDate range with
  | Some start, Some end_ =>
      Some (mkSavePayload "save"
              match id with
              | Some i => if isEmpty i then None else Some i
              | None => None
              end
              (DateFns.format start DateFns.isoDate)
              (DateFns.format end_ DateFns.isoDate))
  | _, _ => None
  end.

(** What the remote store answers to a [delete] request. *)
Inductive DeleteReply :=
| DeleteFetchFailed (e : Error)          (* [fetch] or [response.text()] rejects *)
| DeleteBodyUnparsable (e : Error)       (* [JSON.parse], or reading the body, throws [e] *)
| DeleteStatusError (message : string)   (* [{status: "error", message}] *)
| DeleteOk.                              (* any other body *)

Definition deleteTry (reply : DeleteReply) : Promise unit :=
  match reply with
  | DeleteFetchFailed e => Rejected e
  | DeleteBodyUnparsable e => Rejected e
  | DeleteStatusError message => Rejected (newError message)
  | DeleteOk => Resolved tt
  end.

Definition deleteTripFromCloud (id : string) (reply : DeleteReply) : Promise unit :=
  if isEmpty API_URL then Rejected (newError "請先設定 API URL")
  else
    match deleteTry reply with
    | Resolved _ => Resolved tt
    | Rejected error => Rejected (handleApiError error)
    end.

Definition tripOfJson (now : Date) (t : TripJson) : Trip :=
  Trip.mk (json_id t)
          (parseDateSafe now (json_startDate t))
          (parseDateSafe now (json_endDate t))
          (json_lastUpdated t).

(** The body of the [try] block of [getAllTripsFromCloud]. *)
Definition getAllTry (now : Date) (reply : ListReply) : Promise (list Trip) :=
  match reply with
  | ListFetchFailed e => Rejected e
  | ListBodyUnparsable => Rejected (newError "無法讀取行程資料")
  | ListStatusError message => Rejected (newError message)
  | ListNoTrips => Resolved []
  | ListTrips trips => Resolved (map (tripOfJson now) trips)
  end.

Definition getAllTripsFromCloud (now : Date) (reply : ListReply) : Promise (list Trip) :=
  if isEmpty API_URL then Rejected (newError "請先設定 API URL")
  else
    match getAllTry now reply with
    | Resolved trips => Resolved trips
    | Rejected _ => Resolved []
    end.

End Client.

(** The endpoint the repository ships with. *)
Definition API_URL : string :=
  "https://script.google.com/macros/s/AKfycbwRkKn8gI-7v3yNqn5Lb0DQWj0rFYr9hRluw5-fg49E3KncFuXg-dsU10R5ore8QiDSDg/exec".

End Api.

(** ** [src/utils/holidayData.ts] *)

Module Holiday.

Inductive HolidayType := holiday | makeup.
Inductive Region := TW | CN | BOTH.

Record HolidayInfo := mkInfo {
  name : string;
  type : HolidayType;
  region : Region
}.

(** The object literal [holidayMap], as its properties in source order. *)
Definition holidayMap : list (string * HolidayInfo) :=
  [
    ("2024-09-17", mkInfo "中秋節" holiday BOTH);
    ("2024-10-01", mkInfo "國慶(陸)" holiday CN);
    ("2024-10-02", mkInfo "國慶(陸)" holiday CN);
    ("2024-10-03", mkInfo "國慶(陸)" holiday CN);
    ("2024-10-04", mkInfo "國慶(陸)" holiday CN);
    ("2024-10-05", mkInfo "國慶(陸)" holiday CN);
    ("2024-10-06", mkInfo "國慶(陸)" holiday CN);
    ("2024-10-07", mkInfo "國慶(陸)" holiday CN);
    ("2024-10-10", mkInfo "國慶(台)" holiday TW);
    ("2025-01-01", mkInfo "元旦" holiday BOTH);
    ("2025-01-25", mkInfo "春節(台)" holiday TW);
    ("2025-01-26", mkInfo "春節(台)" holiday TW);
    ("2025-01-27", mkInfo "除夕前" holiday TW);
    ("2025-01-28", mkInfo "除夕" holiday BOTH);
    ("2025-01-29", mkInfo "春節" holiday BOTH);
    ("2025-01-30", mkInfo "春節" holiday BOTH);
    ("2025-01-31", mkInfo "春節" holiday BOTH);
    ("2025-02-01", mkInfo "春節" holiday BOTH);
    ("2025-02-02", mkInfo "春節" holiday BOTH);
    ("2025-02-03", mkInfo "春節(陸)" holiday CN);
    ("2025-02-04", mkInfo "春節(陸)" holiday CN);
    ("2025-02-08", mkInfo "補班(陸)" makeup CN);
    ("2025-02-28", mkInfo "228和平" holiday TW);
    ("2025-03-01", mkInfo "228連假" holiday TW);
    ("2025-03-02", mkInfo "228連假" holiday TW);
    ("2025-04-03", mkInfo "兒童節" holiday TW);
    ("2025-04-04", mkInfo "清明節" holiday BOTH);
    ("2025-04-05", mkInfo "清明連假" holiday BOTH);
    ("2025-04-06", mkInfo "清明連假" holiday BOTH);
    ("2025-04-27", mkInfo "補班(陸)" makeup CN);
    ("2025-05-01", mkInfo "勞動節" holiday BOTH);
    ("2025-05-02", mkInfo "勞動節(陸)" holiday CN);
    ("2025-05-03", mkInfo "勞動節(陸)" holiday CN);
    ("2025-05-04", mkInfo "勞動節(陸)" holiday CN);
    ("2025-05-05", mkInfo "勞動節(陸)" holiday CN);
    ("2025-05-31", mkInfo "端午連假" holiday BOTH);
    ("2025-06-01", mkInfo "端午連假" holiday BOTH);
    ("2025-06-02", mkInfo "端午節" holiday BOTH);
    ("2025-10-06", mkInfo "中秋節" holiday BOTH);
    ("2025-09-28", mkInfo "補班(陸)" makeup CN);
    ("2025-10-01", mkInfo "國慶(陸)" holiday CN);
    ("2025-10-02", mkInfo "國慶(陸)" holiday CN);
    ("2025-10-03", mkInfo "國慶(陸)" holiday CN);
    ("2025-10-04", mkInfo "國慶(陸)" holiday CN);
    ("2025-10-05", mkInfo "國慶(陸)" holiday CN);
    ("2025-10-07", mkInfo "國慶(陸)" holiday CN);
    ("2025-10-10", mkInfo "國慶(台)" holiday TW);
    ("2025-10-11", mkInfo "國慶(台)" holiday TW);
    ("2025-10-12", mkInfo "國慶連假" holiday TW)
  ]%string.

(** [obj[key]] on an object literal: the last property of that name.  The
    properties an object inherits ([constructor], [toString], ...) are left
    out: the keys looked up are formatted dates. *)
Fixpoint lookup (key : string) (properties : list (string * HolidayInfo))
    : option HolidayInfo :=
  match properties with
  | [] => None
  | (k, v) :: rest =>
      match lookup key rest with
      | Some later => Some later
      | None => if String.eqb k key then Some v else None
      end
  end.

Definition getHoliday (dateStr : string) : option HolidayInfo :=
  lookup dateStr holidayMap.

End Holiday.

(** ** [src/components/Calendar.tsx] *)

Module Calendar.
Import JS DateFns.

Section Component.

(** The props of the component. *)
Variable trips : list Trip.
Variable draftRange : DateRange.
Variable readOnly : bool.

(** [trips.find(t => isWithinInterval(date, {start: startOfDay(t.startDate),
    end: endOfDay(t.endDate)}))] *)
Definition tripContains (date : Date) (t : Trip) : bool :=
  match Trip.startDate t, Trip.endDate t with
  | Some s, Some e => isWithinInterval date (startOfDay s) (endOfDay e)
  | _, _ => false
  end.

Definition getTripForDate (date : Date) : option Trip :=
  find (tripContains date) trips.

(** What a click on a day cell calls: [onDayClick (date, clickedTrip)], and
    [onDraftChange range] when [draftChange] is [Some range]. *)
Record ClickEffects := mkEffects {
  dayClick : Date * option Trip;
  draftChange : option DateRange
}.

Definition handleDateClick (date : Date) : ClickEffects :=
  let clickedTrip := find (tripContains date) trips in
  mkEffects (date, clickedTrip)
    (if readOnly then None
     else
       match startDate draftRange, endDate draftRange with
       | None, None => Some (mkRange (Some date) None)
       | Some start, None =>
           if isBefore date start then Some (mkRange (Some date) None)
           else if isSameDay date start then Some (mkRange None None)
           else Some (mkRange (Some start) (Some date))
       | Some _, Some _ => Some (mkRange (Some date) None)
       | None, Some _ => None
       end).

Definition prevMonth (currentMonth : Date) : Date := addMonths currentMonth (-1).
Definition nextMonth (currentMonth : Date) : Date := addMonths currentMonth 1.

Definition calendarDays (currentMonth : Date) : list Date :=
  let monthStart := newDate (getFullYear currentMonth) (getMonth currentMonth) 1 in
  let monthEnd := endOfMonth monthStart in
  let startDate := addDays monthStart (- getDay monthStart) in
  let endDate := endOfWeek monthEnd in
  eachDayOfInterval startDate endDate.

Definition isInDraft (date : Date) : bool :=
  match startDate draftRange, endDate draftRange with
  | Some start, Some end_ => isAfter date start && isBefore date end_
  | _, _ => false
  end.

(** The flags computed for one day cell of the grid. *)
Record DayCell := mkCell {
  isCurrentMonth : bool;
  isDraftStart : bool;
  isDraftEnd : bool;
  isDraftRange : bool;
  existingTrip : option Trip;
  isTripStart : bool;
  isTripEnd : bool;
  isTripRange : bool;
  isStart : bool;
  isEnd : bool;
  isRange : bool;
  isSavedTrip : bool;
  isInteractive : bool
}.

(** [getHoliday (format (day, 'yyyy-MM-dd'))] and the two flags read from it. *)
Definition holidayInfo (day : Date) : option Holiday.HolidayInfo :=
  Holiday.getHoliday (format day isoDate).

Definition isHoliday (day : Date) : bool :=
  match holidayInfo day with
  | Some info => match Holiday.type info with Holiday.holiday => true | _ => false end
  | None => false
  end.

Definition isMakeup (day : Date) : bool :=
  match holidayInfo day with
  | Some info => match Holiday.type info with Holiday.makeup => true | _ => false end
  | None => false
  end.

Definition isSome {A} (o : option A) : bool :=
  match o with Some _ => true | None => false end.

Definition sameDayAs (day : Date) (d : option Date) : bool :=
  match d with Some d' => isSameDay day d' | None => false end.

Definition dayCell (currentMonth day : Date) : DayCell :=
  let isCurrentMonth := isSameMonth day currentMonth in
  let isDraftStart := sameDayAs day (startDate draftRange) in
  let isDraftEnd := sameDayAs day (endDate draftRange) in
  let isDraftRange := isInDraft day in
  let existingTrip := getTripForDate day in
  let isTripStart :=
    match existingTrip with Some t => sameDayAs day (Trip.startDate t) | None => false end in
  let isTripEnd :=
    match existingTrip with Some t => sameDayAs day (Trip.endDate t) | None => false end in
  let isTripRange := isSome existingTrip && negb isTripStart && negb isTripEnd in
  let isStart := isDraftStart || (negb (isSome (startDate draftRange)) && isTripStart) in
  let isEnd := isDraftEnd || (negb (isSome (endDate draftRange)) && isTripEnd) in
  let isRange := isDraftRange || (negb isDraftRange && isTripRange) in
  let isSavedTrip :=
    isSome existingTrip && negb isDraftStart && negb isDraftEnd && negb isDraftRange in
  let isInteractive :=
    negb readOnly || (readOnly && (isTripRange || isTripStart || isTripEnd)) in
  mkCell isCurrentMonth isDraftStart isDraftEnd isDraftRange existingTrip
         isTripStart isTripEnd isTripRange isStart isEnd isRange isSavedTrip isInteractive.

(** The auto-navigation effect; [now] is the value of [new Date()].  The
    result is the argument of [setCurrentMonth], [None] when it is not called;
    the argument is itself [None] when the trip's start is an Invalid Date. *)
Definition upcoming (now : Date) (t : Trip) : bool :=
  match Trip.startDate t with Some s => isAfter s now | None => false end.

Definition autoNavigate (now : Date) : option (option Date) :=
  match startDate draftRange with
  | Some start => Some (Some start)
  | None =>
      if (0 <? Z.of_nat (List.length trips)) then
        let futureTrip :=
          match find (upcoming now) trips with
          | Some t => Some t
          | None => nth_error trips (List.length trips - 1)
          end in
        match futureTrip with
        | Some t => Some (Trip.startDate t)
        | None => None
        end
      else None
  end.

End Component.

End Calendar.

(** ** The application component (App) *)

Module App.
Import JS Api.

Inductive ToastType := success | error | info.

Record Toast := mkToast { msg : string; type : ToastType }.

(** The state of the component: its [useState] cells, the [lastServerHash]
    ref, and the calls of [showToast] so far, the latest first. *)
Record State := mkState {
  trips : list Trip;
  draftRange : DateRange;
  isEditMode : bool;
  isSaving : bool;
  isLoading : bool;
  lastServerHash : string;
  toasts : list Toast
}.

Definition initial : State :=
  mkState [] (mkRange None None) false false false EmptyString [].

Definition setTrips (v : list Trip) (st : State) : State :=
  mkState v (draftRange st) (isEditMode st) (isSaving st) (isLoading st)
          (lastServerHash st) (toasts st).
Definition setDraftRange (v : DateRange) (st : State) : State :=
  mkState (trips st) v (isEditMode st) (isSaving st) (isLoading st)
          (lastServerHash st) (toasts st).
Definition setIsEditMode (v : bool) (st : State) : State :=
  mkState (trips st) (draftRange st) v (isSaving st) (isLoading st)
          (lastServerHash st) (toasts st).
Definition setIsSaving (v : bool) (st : State) : State :=
  mkState (trips st) (draftRange st) (isEditMode st) v (isLoading st)
          (lastServerHash st) (toasts st).
Definition setIsLoading (v : bool) (st : State) : State :=
  mkState (trips st) (draftRange st) (isEditMode st) (isSaving st) v
          (lastServerHash st) (toasts st).
Definition setLastServerHash (v : string) (st : State) : State :=
  mkState (trips st) (draftRange st) (isEditMode st) (isSaving st) (isLoading st)
          v (toasts st).
Definition showToast (m : string) (ty : ToastType) (st : State) : State :=
  mkState (trips st) (draftRange st) (isEditMode st) (isSaving st) (isLoading st)
          (lastServerHash st) (mkToast m ty :: toasts st).

(** [t.id + t.lastUpdated]: a missing marker is appended as "undefined". *)
Definition idAndMarker (t : Trip) : string :=
  (Trip.id t ++ match Trip.lastUpdated t with
                | Some marker => marker
                | None => "undefined"
                end)%string.

(** [JSON.stringify(data.map(t => t.id + t.lastUpdated))] *)
Definition syncHash (data : list Trip) : string :=
  stringifyStrings (map idAndMarker data).

(** [t.id === newId]: the id of a trip is a string, and equal to no [newId]
    that is not one. *)
Definition isId (newId : option string) (t : Trip) : bool :=
  match newId with
  | Some id => String.eqb (Trip.id t) id
  | None => false
  end.

Definition notPropagated : string :=
  "儲存顯示成功但同步失敗，請確認 GAS 是否已『重新部署』(發布新版本)。".

Section Handlers.

Variable API_URL : string.

(** [fetchTrips (silent)]; [reply] is what the remote store answers. *)
Definition fetchTrips (silent : bool) (now : Date) (reply : ListReply) (st : State) : State :=
  if isEmpty API_URL then st
  else
    let st1 := if silent then st else setIsLoading true st in
    let st2 :=
      match getAllTripsFromCloud API_URL now reply with
      | Resolved data =>
          let currentHash := syncHash data in
          if negb (String.eqb currentHash (lastServerHash st1)) then
            let st' := setLastServerHash currentHash (setTrips data st1) in
            if silent && (0 <? Z.of_nat (List.length data))
            then showToast "已同步最新行程" info st'
            else st'
          else st1
      | Rejected e =>
          if negb silent && includes (message e) "找不到試算表"
          then showToast (message e) error st1
          else st1
      end in
    if silent then st2 else setIsLoading false st2.

(** The [catch] clause of [handleSave]: [showToast (e.message || ..., 'error')]. *)
Definition saveFailed (e : Error) (st : State) : State :=
  showToast (if isEmpty (message e) then "儲存失敗" else message e) error st.

(** [handleSave]; [saveReply] and [listReply] are the answers of the remote
    store to the save request and to the list request that follows it. *)
Definition handleSave (now : Date) (saveReply : SaveReply) (listReply : ListReply)
    (st : State) : State :=
  match startDate (draftRange st), endDate (draftRange st) with
  | Some _, Some _ =>
      let st1 := setIsSaving true st in
      let st2 :=
        match saveTripToCloud API_URL (draftRange st) saveReply with
        | Resolved newId =>
            match getAllTripsFromCloud API_URL now listReply with
            | Resolved latestTrips =>
                let isSaved := existsb (isId newId) latestTrips in
                if negb isSaved then saveFailed (newError notPropagated) st1
                else
                  setIsEditMode false
                    (setDraftRange (mkRange None None)
                       (showToast "行程已新增成功" success (setTrips latestTrips st1)))
            | Rejected e => saveFailed e st1
            end
        | Rejected e => saveFailed e st1
        end in
      setIsSaving false st2
  | _, _ => st
  end.

Definition handleResetDraft (st : State) : State :=
  setDraftRange (mkRange None None) st.

(** The button that opens edit mode, and the two that leave it. *)
Definition enterEditMode (st : State) : State :=
  setDraftRange (mkRange None None) (setIsEditMode true st).

Definition cancelEdit (st : State) : State := setIsEditMode false st.

(** A click on a day cell of the calendar, which is rendered with
    [readOnly = !isEditMode] and [onDraftChange = setDraftRange].  The other
    callback, [onDayClick], only shows a toast in browse mode and is left out. *)
Definition clickDay (date : Date) (st : State) : State :=
  match Calendar.draftChange
          (Calendar.handleDateClick (trips st) (draftRange st) (negb (isEditMode st)) date) with
  | Some range => setDraftRange range st
  | None => st
  end.

(** [handleDayClick]: in browse mode a click on a day of a trip tells which
    day of the trip it is.  A number is [None] when it is [NaN], which a trip
    with an Invalid Date gives. *)
Definition addOne (n : option Z) : option Z :=
  match n with Some v => Some (v + 1) | None => None end.

Definition differenceOf (later earlier : option Date) : option Z :=
  match later, earlier with
  | Some l, Some e => Some (DateFns.differenceInDays l e)
  | _, _ => None
  end.

Definition numberText (n : option Z) : string :=
  match n with Some v => numberToString v | None => "NaN" end.

Definition dayOfTripText (date : Date) (days total : option Z) : string :=
  (DateFns.format date DateFns.monthDay ++ " - 旅程第 " ++ numberText days
   ++ "/" ++ numberText total ++ " 天")%string.

Definition handleDayClick (date : Date) (trip : option Trip) (st : State) : State :=
  match trip with
  | Some t =>
      if negb (isEditMode st) then
        let days := addOne (differenceOf (Some date) (Trip.startDate t)) in
        let total := addOne (differenceOf (Trip.endDate t) (Trip.startDate t)) in
        showToast (dayOfTripText date days total) info st
      else st
  | None => st
  end.

(** A click on a day cell with both callbacks: [onDayClick = handleDayClick]
    first, then [onDraftChange = setDraftRange]. *)
Definition cellClick (date : Date) (st : State) : State :=
  let effects :=
    Calendar.handleDateClick (trips st) (draftRange st) (negb (isEditMode st)) date in
  let st1 := handleDayClick (fst (Calendar.dayClick effects))
                            (snd (Calendar.dayClick effects)) st in
  match Calendar.draftChange effects with
  | Some range => setDraftRange range st1
  | None => st1
  end.

(** The component state together with the [isDeleting] cell. *)
Record View := mkView {
  state : State;
  isDeleting : option string
}.

(** [handleDelete]; [confirmed] is the answer to the [confirm] dialog,
    [deleteReply] and [listReply] are the answers of the remote store to the
    delete request and to the silent list request that follows it. *)
Definition handleDelete (id : string) (confirmed : bool) (deleteReply : DeleteReply)
    (now : Date) (listReply : ListReply) (v : View) : View :=
  if negb confirmed then v
  else
    match deleteTripFromCloud API_URL id deleteReply with
    | Resolved _ =>
        mkView (fetchTrips true now listReply (showToast "行程已刪除" info (state v))) None
    | Rejected _ =>
        mkView (showToast "刪除失敗" error (state v)) None
    end.

(** One turn of the polling timer, which runs only outside edit mode. *)
Definition pollTick (now : Date) (reply : ListReply) (st : State) : State :=
  if isEditMode st || isEmpty API_URL then st
  else fetchTrips true now reply st.

(** The states the component can be in. *)
Inductive reachable : State -> Prop :=
| reach_initial : reachable initial
| reach_fetch silent now reply st :
    reachable st -> reachable (fetchTrips silent now reply st)
| reach_save now saveReply listReply st :
    reachable st -> reachable (handleSave now saveReply listReply st)
| reach_reset st : reachable st -> reachable (handleResetDraft st)
| reach_enter st : reachable st -> reachable (enterEditMode st)
| reach_cancel st : reachable st -> reachable (cancelEdit st)
| reach_click date st : reachable st -> reachable (clickDay date st).

End Handlers.

End App.

(** ** Vocabulary of the properties *)

Module Spec.
Import ES JS DateFns.

(** The first day of a month, as a day number. *)
Definition firstOfMonth (y m : Z) : Z :=
  DayFromYear y + monthStart (if isLeap y then 1 else 0) m.

(** The midnights of [n] consecutive days, from day number [k] on. *)
Fixpoint daysFrom (k : Z) (n : nat) : list Date :=
  match n with
  | O => []
  | S n' => k * msPerDay :: daysFrom (k + 1) n'
  end.

(** The grid of [calendarDays], in closed form: the days from the Sunday on or
    before the first of the month to the Saturday on or after its last day.
    The month is that of [currentMonth] in the year the [Date] constructor
    makes of its year. *)
Definition gridFirst (currentMonth : Date) : Z :=
  let ds := firstOfMonth (MakeFullYear (getFullYear currentMonth)) (getMonth currentMonth) in
  ds - WeekDayOfDay ds.

Definition gridLast (currentMonth : Date) : Z :=
  let de := firstOfMonth (MakeFullYear (getFullYear currentMonth))
                         (getMonth currentMonth + 1) - 1 in
  de + 6 - WeekDayOfDay de.

(** The invariant of the draft range: a start that is not after the end, and
    no end without a start. *)
Definition draftInvariant (r : DateRange) : Prop :=
  match startDate r, endDate r with
  | Some s, Some e => s <= e
  | None, Some _ => False
  | _, None => True
  end.

(** A complete draft ends on a later calendar day than it starts. *)
Definition draftSpansDays (r : DateRange) : Prop :=
  match startDate r, endDate r with
  | Some s, Some e => Day s < Day e
  | _, _ => True
  end.

(** [day] is the start or the end of the draft. *)
Definition isDraftBoundary (r : DateRange) (day : Date) : Prop :=
  Calendar.sameDayAs day (startDate r) = true \/ Calendar.sameDayAs day (endDate r) = true.

(** [day] is a day of the trip that is neither its first nor its last. *)
Definition strictlyInside (day : Date) (t : Trip) : Prop :=
  match Trip.startDate t, Trip.endDate t with
  | Some s, Some e => Day s < Day day < Day e
  | _, _ => False
  end.

(** [t] is, among [trips], an upcoming trip with the earliest start. *)
Definition nearestUpcoming (now : Date) (trips : list Trip) (t : Trip) : Prop :=
  In t trips /\ Calendar.upcoming now t = true
  /\ forall u s su, In u trips -> Calendar.upcoming now u = true ->
       Trip.startDate t = Some s -> Trip.startDate u = Some su -> s <= su.

(** The trips come in the order of their start dates. *)
Fixpoint sortedByStart (trips : list Trip) : Prop :=
  match trips with
  | [] => True
  | t :: rest =>
      (forall u s su, In u rest -> Trip.startDate t = Some s ->
         Trip.startDate u = Some su -> s <= su)
      /\ sortedByStart rest
  end.

(** Days of June 2025, for the examples. *)
Definition june (day : Z) : Date := newDate 2025 5 day.

(** 10 August 2025. *)
Definition august10 : Date := newDate 2025 7 10.

(** A trip over the days of June 2025 from [first] to [last]. *)
Definition juneTrip (name : string) (first last : Z) : Trip :=
  Trip.mk name (Some (june first)) (Some (june last)) None.

(** A date string: year, month and day in digits with dashes between them,
    and possibly a time after a "T". *)
Definition dateString (ys ms ds : string) (time : option string) : string :=
  ((ys ++ "-" ++ ms ++ "-" ++ ds)
   ++ match time with Some t => "T" ++ t | None => EmptyString end)%string.

(** The number of days of month [m] (0 = January) of year [y]. *)
Definition daysInMonth (y m : Z) : Z :=
  let leap := if isLeap y then 1 else 0 in
  monthStart leap (m + 1) - monthStart leap m.

Fixpoint allChars (p : ascii -> bool) (s : string) : bool :=
  match s with
  | EmptyString => true
  | String c rest => p c && allChars p rest
  end.

(** Every character, and the two facts about [quoteChar] that make
    [JSON.stringify] readable back: no code is the start of another, and none
    starts with a double quote. *)
Definition allAscii : list ascii := map ascii_of_nat (seq 0 256).

Definition prefixFree (c1 c2 : ascii) : bool :=
  Ascii.eqb c1 c2
  || negb (String.prefix (quoteChar c1) (quoteChar c2)
           || String.prefix (quoteChar c2) (quoteChar c1)).

Definition startsPlain (c : ascii) : bool :=
  match quoteChar c with
  | EmptyString => false
  | String x _ => negb (Ascii.eqb x (ascii_of_N 34))
  end.

(** A key of the holiday table is the text of a day between 17 September 2024
    and 12 October 2025. *)
Definition keyInWindow (key : string) : bool :=
  match Api.parseDateSafe 0 key with
  | Some day => (newDate 2024 8 17 <=? day) && (day <=? newDate 2025 9 12)
  | None => false
  end.

(** 15 June of the year 50, a date whose year the [Date] constructor reads as
    1950. *)
Definition june15of50 : Date := setFullYear 0 50 5 15.

(** The years that lie in the range of [Date] from their first day to their
    last, with the month before and the month after: the range runs from
    20 April -271821 to 13 September 275760. *)
Definition minYear : Z := -271820.
Definition maxYear : Z := 275759.

Definition yearInRange (year : Z) : Prop := minYear <= year <= maxYear.

(** The recorded fingerprint is that of the trip list on display. *)
Definition inSync (st : App.State) : Prop :=
  App.lastServerHash st = App.syncHash (App.trips st).

End Spec.

(** * Properties *)

(** ** The calendar *)

Ltac zdiv := Z.div_mod_to_equations; lia.

(** Evaluates [monthStart] at the literal months of the goal. *)
Ltac month_table :=
  repeat match goal with
         | |- context [ES.monthStart ?l (?k + 1)] =>
             let v := eval compute in (k + 1) in change (k + 1) with v
         | H : context [ES.monthStart ?l (?k + 1)] |- _ =>
             let v := eval compute in (k + 1) in change (k + 1) with v in H
         end;
  cbn [ES.monthStart] in *.

Section CalendarFacts.
Import ES Spec.

Lemma DayFromYear_succ (y : Z) : DayFromYear (y + 1) = DayFromYear y + DaysInYear y.
Proof.
  unfold DayFromYear, DaysInYear, isLeap.
  repeat match goal with
         | |- context [?a =? ?b] => destruct (Z.eqb_spec a b)
         end; cbn [negb]; zdiv.
Qed.

Lemma DaysInYear_pos (y : Z) : 365 <= DaysInYear y <= 366.
Proof. unfold DaysInYear. destruct (isLeap y); lia. Qed.

Lemma DayFromYear_mono (y1 y2 : Z) : y1 <= y2 -> DayFromYear y1 <= DayFromYear y2.
Proof. intros H. unfold DayFromYear. zdiv. Qed.

(** [YearFromDay] is the year whose days include [d]. *)
Lemma YearFromDay_spec (d : Z) :
  DayFromYear (YearFromDay d) <= d < DayFromYear (YearFromDay d + 1).
Proof.
  unfold YearFromDay.
  set (y := 1970 + 400 * d / 146097).
  assert (Hlo : DayFromYear (y - 1) <= d) by (unfold DayFromYear, y; zdiv).
  assert (Hhi : d < DayFromYear (y + 2)) by (unfold DayFromYear, y; zdiv).
  destruct (Z.ltb_spec d (DayFromYear y)).
  - replace (y - 1 + 1) with y by lia. lia.
  - destruct (Z.leb_spec (DayFromYear (y + 1)) d).
    + replace (y + 1 + 1) with (y + 2) by lia. lia.
    + lia.
Qed.

Lemma YearFromDay_unique (y d : Z) :
  DayFromYear y <= d < DayFromYear (y + 1) -> YearFromDay d = y.
Proof.
  intros Hy. pose proof (YearFromDay_spec d) as Hs.
  destruct (Z.lt_trichotomy (YearFromDay d) y) as [Hlt | [Heq | Hgt]]; [ | exact Heq | ].
  - pose proof (DayFromYear_mono (YearFromDay d + 1) y ltac:(lia)). lia.
  - pose proof (DayFromYear_mono (y + 1) (YearFromDay d) ltac:(lia)). lia.
Qed.

Lemma DayWithinYear_range (d : Z) :
  0 <= DayWithinYear d < 365 + InLeapYear d.
Proof.
  unfold DayWithinYear, InLeapYear.
  pose proof (YearFromDay_spec d) as Hs.
  rewrite DayFromYear_succ in Hs. unfold DaysInYear in Hs.
  destruct (isLeap (YearFromDay d)); lia.
Qed.

Lemma monthOfYearDay_range (leap dwy : Z) : 0 <= monthOfYearDay leap dwy <= 11.
Proof.
  unfold monthOfYearDay.
  repeat match goal with
         | |- context [?a <? ?b] => destruct (Z.ltb_spec a b)
         end; lia.
Qed.

(** The table of [MonthFromTime], read as bounds on the day within the year. *)
Lemma monthOfYearDay_bounds (leap dwy : Z) :
  0 <= leap <= 1 -> 0 <= dwy < 365 + leap ->
  monthStart leap (monthOfYearDay leap dwy) <= dwy
    < monthStart leap (monthOfYearDay leap dwy + 1).
Proof.
  intros Hl Hd. unfold monthOfYearDay.
  repeat match goal with
         | |- context [?a <? ?b] => destruct (Z.ltb_spec a b); [month_table; lia | ]
         end.
  month_table. lia.
Qed.

Lemma monthOfYearDay_unique (leap m dwy : Z) :
  0 <= leap <= 1 -> 0 <= m <= 11 ->
  monthStart leap m <= dwy < monthStart leap (m + 1) ->
  monthOfYearDay leap dwy = m.
Proof.
  intros Hl Hm Hd.
  assert (Hcases : m = 0 \/ m = 1 \/ m = 2 \/ m = 3 \/ m = 4 \/ m = 5 \/ m = 6
                   \/ m = 7 \/ m = 8 \/ m = 9 \/ m = 10 \/ m = 11) by lia.
  unfold monthOfYearDay.
  repeat destruct Hcases as [-> | Hcases]; try subst m;
    month_table;
    repeat match goal with
           | |- context [?a <? ?b] => destruct (Z.ltb_spec a b)
           end; lia.
Qed.

Lemma InLeapYear_range (d : Z) : 0 <= InLeapYear d <= 1.
Proof. unfold InLeapYear. destruct (isLeap _); lia. Qed.

Lemma MonthFromDay_range (d : Z) : 0 <= MonthFromDay d <= 11.
Proof. apply monthOfYearDay_range. Qed.

(** Year, month and date of a day give the day back, and a date beyond the
    month counts on into the following days. *)
Lemma MakeDay_of_day (d a : Z) :
  MakeDay (YearFromDay d) (MonthFromDay d) (DateFromDay d + a) = d + a.
Proof.
  unfold MakeDay.
  pose proof (MonthFromDay_range d) as Hm.
  rewrite Z.div_small, Z.mod_small, Z.add_0_r by lia.
  unfold DateFromDay, DayWithinYear, InLeapYear. lia.
Qed.

Lemma MakeDay_in_year (y m date : Z) :
  0 <= m <= 11 -> MakeDay y m date = firstOfMonth y m + date - 1.
Proof.
  intros Hm. unfold MakeDay, firstOfMonth.
  rewrite Z.div_small, Z.mod_small, Z.add_0_r by lia. reflexivity.
Qed.

Lemma MakeDay_next_month (y m : Z) :
  0 <= m <= 11 -> MakeDay y (m + 1) 0 = firstOfMonth y (m + 1) - 1.
Proof.
  intros Hm. destruct (Z.eq_dec m 11) as [-> | Hne].
  - unfold MakeDay, firstOfMonth.
    change (11 + 1) with 12. change (12 / 12) with 1. change (12 mod 12) with 0.
    rewrite DayFromYear_succ. unfold DaysInYear.
    cbn [monthStart]. destruct (isLeap y), (isLeap (y + 1)); lia.
  - rewrite MakeDay_in_year by lia. lia.
Qed.

Lemma monthStart_step (leap m : Z) :
  0 <= leap <= 1 -> 0 <= m <= 11 ->
  monthStart leap m + 28 <= monthStart leap (m + 1) <= 365 + leap.
Proof.
  intros Hl Hm.
  assert (Hcases : m = 0 \/ m = 1 \/ m = 2 \/ m = 3 \/ m = 4 \/ m = 5 \/ m = 6
                   \/ m = 7 \/ m = 8 \/ m = 9 \/ m = 10 \/ m = 11) by lia.
  repeat destruct Hcases as [-> | Hcases]; try subst m; month_table; lia.
Qed.

Lemma monthStart_nonneg (leap m : Z) :
  0 <= leap <= 1 -> 0 <= m <= 11 -> 0 <= monthStart leap m.
Proof.
  intros Hl Hm.
  assert (Hcases : m = 0 \/ m = 1 \/ m = 2 \/ m = 3 \/ m = 4 \/ m = 5 \/ m = 6
                   \/ m = 7 \/ m = 8 \/ m = 9 \/ m = 10 \/ m = 11) by lia.
  repeat destruct Hcases as [-> | Hcases]; try subst m; cbn [monthStart]; lia.
Qed.

(** A day of month [m] of year [y] has that year and that month. *)
Lemma civil_of_day (y m d : Z) :
  0 <= m <= 11 -> firstOfMonth y m <= d < firstOfMonth y (m + 1) ->
  YearFromDay d = y /\ MonthFromDay d = m /\ DateFromDay d = d - firstOfMonth y m + 1.
Proof.
  intros Hm Hd. unfold firstOfMonth in Hd.
  set (leap := if isLeap y then 1 else 0) in *.
  assert (Hl : 0 <= leap <= 1) by (unfold leap; destruct (isLeap y); lia).
  pose proof (monthStart_step leap m Hl Hm) as Hstep.
  pose proof (monthStart_nonneg leap m Hl Hm) as Hnn.
  assert (Hy : YearFromDay d = y).
  { apply YearFromDay_unique. rewrite DayFromYear_succ. unfold DaysInYear.
    fold leap. unfold leap in *. destruct (isLeap y); lia. }
  assert (Hmo : MonthFromDay d = m).
  { unfold MonthFromDay, InLeapYear, DayWithinYear. rewrite Hy. fold leap.
    apply monthOfYearDay_unique; lia. }
  repeat split; try assumption.
  unfold DateFromDay. rewrite Hmo. unfold InLeapYear, DayWithinYear, firstOfMonth.
  rewrite Hy. fold leap. lia.
Qed.

(** Conversely, a day with year [y] and month [m] lies in that month. *)
Lemma day_in_its_month (d : Z) :
  firstOfMonth (YearFromDay d) (MonthFromDay d) <= d
    < firstOfMonth (YearFromDay d) (MonthFromDay d + 1).
Proof.
  unfold firstOfMonth, MonthFromDay.
  pose proof (monthOfYearDay_bounds (InLeapYear d) (DayWithinYear d)
                (InLeapYear_range d) (DayWithinYear_range d)) as Hb.
  unfold InLeapYear, DayWithinYear in *. lia.
Qed.

Lemma Day_MakeDate (day time : Z) :
  0 <= time < msPerDay -> Day (MakeDate day time) = day.
Proof.
  intros Ht. unfold Day, MakeDate, msPerDay in *. zdiv.
Qed.

Lemma TimeWithinDay_MakeDate (day time : Z) :
  0 <= time < msPerDay -> TimeWithinDay (MakeDate day time) = time.
Proof.
  intros Ht. unfold TimeWithinDay, MakeDate, msPerDay in *. zdiv.
Qed.

Lemma MakeDate_Day (t : Z) : MakeDate (Day t) (TimeWithinDay t) = t.
Proof. unfold MakeDate, Day, TimeWithinDay, msPerDay. zdiv. Qed.

Lemma WeekDayOfDay_range (d : Z) : 0 <= WeekDayOfDay d <= 6.
Proof. unfold WeekDayOfDay. zdiv. Qed.

End CalendarFacts.

(** ** The [Date] object and date-fns *)

Section DateFacts.
Import ES JS DateFns Spec.

Lemma MakeTime_midnight : MakeTime 0 0 0 0 = 0.
Proof. reflexivity. Qed.

Lemma startOfDay_eq (t : Date) : startOfDay t = Day t * msPerDay.
Proof. unfold startOfDay, setHours, MakeDate. rewrite MakeTime_midnight. lia. Qed.

Lemma endOfDay_eq (t : Date) : endOfDay t = Day t * msPerDay + (msPerDay - 1).
Proof. reflexivity. Qed.

Lemma Day_midnight (k : Z) : Day (k * msPerDay) = k.
Proof. unfold Day, msPerDay. zdiv. Qed.

Lemma startOfDay_le (t : Date) : startOfDay t <= t < startOfDay t + msPerDay.
Proof. rewrite startOfDay_eq. unfold Day, msPerDay. zdiv. Qed.

Lemma startOfDay_idem (t : Date) : startOfDay (startOfDay t) = startOfDay t.
Proof. rewrite !startOfDay_eq, Day_midnight. reflexivity. Qed.

Lemma Day_mono (a b : Z) : a <= b -> Day a <= Day b.
Proof. intros Hab. unfold Day, msPerDay. zdiv. Qed.

Lemma isSameDay_Day (a b : Date) : isSameDay a b = (Day a =? Day b).
Proof.
  unfold isSameDay. rewrite !startOfDay_eq.
  destruct (Z.eqb_spec (Day a) (Day b)) as [-> | Hne].
  - apply Z.eqb_refl.
  - apply Z.eqb_neq. unfold msPerDay. lia.
Qed.

(** [setDate] with the date moved by [a] moves the time value by [a] days. *)
Lemma setDate_shift (t : Date) (a : Z) :
  setDate t (getDate t + a) = t + a * msPerDay.
Proof.
  unfold setDate, getDate, YearFromTime, MonthFromTime, DateFromTime.
  rewrite MakeDay_of_day.
  pose proof (MakeDate_Day t) as Ht. unfold MakeDate in *. lia.
Qed.

Lemma addDays_shift (t : Date) (a : Z) : addDays t a = t + a * msPerDay.
Proof.
  unfold addDays. destruct (Z.eqb_spec a 0) as [-> | _].
  - lia.
  - apply setDate_shift.
Qed.

Lemma daysFrom_length (k : Z) (n : nat) : List.length (daysFrom k n) = n.
Proof. revert k. induction n as [| n IH]; intros k; simpl; [reflexivity | now rewrite IH]. Qed.

Lemma daysFrom_nth (n : nat) : forall (k : Z) (i : nat),
  (i < n)%nat -> nth_error (daysFrom k n) i = Some ((k + Z.of_nat i) * msPerDay).
Proof.
  induction n as [| n IH]; intros k i Hi; [lia | ].
  destruct i as [| i]; simpl.
  - f_equal. lia.
  - rewrite IH by lia. f_equal. lia.
Qed.

Lemma daysFrom_In (n : nat) : forall (k d : Z),
  k <= d < k + Z.of_nat n -> In (d * msPerDay) (daysFrom k n).
Proof.
  induction n as [| n IH]; intros k d Hd; [lia | ].
  simpl. destruct (Z.eq_dec d k) as [-> | Hne]; [now left | right].
  apply IH. lia.
Qed.

(** The loop of [eachDayOfInterval] leaves by its test, not for lack of fuel:
    with the fuel [eachDayOfInterval] gives it, or more, it lists every day
    up to the day of [endTime]. *)
Lemma eachDayLoop_daysFrom (n : nat) : forall (extra : nat) (k endTime : Z),
  n = Z.to_nat (Day endTime - k + 1) ->
  eachDayLoop (n + extra) (k * msPerDay) endTime = daysFrom k n.
Proof.
  induction n as [| n IH]; intros extra k endTime Hn.
  - destruct extra as [| extra]; [reflexivity | ].
    simpl. destruct (Z.leb_spec (k * msPerDay) endTime) as [Hle | _]; [ | reflexivity].
    exfalso. assert (Day endTime < k) by lia.
    unfold Day, msPerDay in *. zdiv.
  - cbn [Nat.add eachDayLoop daysFrom].
    destruct (Z.leb_spec (k * msPerDay) endTime) as [_ | Hgt].
    + f_equal. rewrite setDate_shift.
      change (setHours ?t 0 0 0 0) with (startOfDay t).
      rewrite startOfDay_eq.
      replace (k * msPerDay + 1 * msPerDay) with ((k + 1) * msPerDay) by lia.
      rewrite Day_midnight. apply IH. lia.
    + exfalso. assert (k <= Day endTime) by lia.
      unfold Day, msPerDay in *. zdiv.
Qed.

Lemma eachDayOfInterval_days (first last time : Z) :
  first <= last -> 0 <= time < msPerDay ->
  eachDayOfInterval (first * msPerDay) (MakeDate last time)
  = daysFrom first (Z.to_nat (last - first + 1)).
Proof.
  intros Hfl Ht. unfold eachDayOfInterval.
  assert (Hrev : (MakeDate last time <? first * msPerDay) = false).
  { apply Z.ltb_ge. unfold MakeDate, msPerDay in *. nia. }
  rewrite Hrev.
  change (setHours ?t 0 0 0 0) with (startOfDay t).
  rewrite startOfDay_eq, Day_midnight.
  unfold eachDayFuel. rewrite Day_midnight, Day_MakeDate by exact Ht.
  rewrite (plus_n_O (Z.to_nat (last - first + 1))) at 1.
  apply eachDayLoop_daysFrom. rewrite Day_MakeDate by exact Ht. reflexivity.
Qed.

Lemma firstOfMonth_step (y m : Z) :
  0 <= m <= 11 -> firstOfMonth y m + 28 <= firstOfMonth y (m + 1).
Proof.
  intros Hm. unfold firstOfMonth.
  assert (Hl : 0 <= (if isLeap y then 1 else 0) <= 1) by (destruct (isLeap y); lia).
  pose proof (monthStart_step _ m Hl Hm). lia.
Qed.

Lemma grid_bounds (currentMonth : Date) :
  gridFirst currentMonth + 28 <= gridLast currentMonth + 1.
Proof.
  unfold gridFirst, gridLast. cbv zeta.
  pose proof (firstOfMonth_step (MakeFullYear (getFullYear currentMonth))
                (getMonth currentMonth) (MonthFromDay_range _)).
  pose proof (WeekDayOfDay_range
                (firstOfMonth (MakeFullYear (getFullYear currentMonth)) (getMonth currentMonth))).
  pose proof (WeekDayOfDay_range
                (firstOfMonth (MakeFullYear (getFullYear currentMonth))
                              (getMonth currentMonth + 1) - 1)).
  lia.
Qed.

Lemma calendarDays_closed_form (currentMonth : Date) :
  Calendar.calendarDays currentMonth
  = daysFrom (gridFirst currentMonth)
             (Z.to_nat (gridLast currentMonth - gridFirst currentMonth + 1)).
Proof.
  pose proof (grid_bounds currentMonth) as Hb.
  unfold Calendar.calendarDays, gridFirst, gridLast in *. cbv zeta in *.
  set (y := MakeFullYear (getFullYear currentMonth)) in *.
  set (m := getMonth currentMonth) in *.
  assert (Hm : 0 <= m <= 11) by apply MonthFromDay_range.
  pose proof (firstOfMonth_step y m Hm) as Hstep.
  set (ds := firstOfMonth y m) in *.
  assert (Hms : newDate (getFullYear currentMonth) m 1 = ds * msPerDay).
  { unfold newDate. fold y. rewrite MakeDay_in_year by exact Hm.
    unfold MakeDate. rewrite MakeTime_midnight. fold ds. lia. }
  rewrite Hms.
  destruct (civil_of_day y m ds Hm ltac:(fold ds; lia)) as (Hy & Hmo & _).
  (* the last moment of the month *)
  assert (Hend : endOfMonth (ds * msPerDay)
                 = MakeDate (firstOfMonth y (m + 1) - 1) (MakeTime 23 59 59 999)).
  { unfold endOfMonth, getMonth, getFullYear, MonthFromTime, YearFromTime.
    rewrite Day_midnight, Hy, Hmo. unfold setFullYear, setHours.
    rewrite Day_MakeDate by (unfold TimeWithinDay, msPerDay; zdiv).
    rewrite MakeDay_next_month by exact Hm. reflexivity. }
  rewrite Hend. set (de := firstOfMonth y (m + 1) - 1) in *.
  assert (Ht : 0 <= MakeTime 23 59 59 999 < msPerDay) by (vm_compute; split; congruence).
  (* the Sunday before and the Saturday after *)
  rewrite addDays_shift. unfold getDay at 1, WeekDay. rewrite Day_midnight.
  replace (ds * msPerDay + - WeekDayOfDay ds * msPerDay)
    with ((ds - WeekDayOfDay ds) * msPerDay) by lia.
  assert (Hweek : endOfWeek (MakeDate de (MakeTime 23 59 59 999))
                  = MakeDate (de + 6 - WeekDayOfDay de) (MakeTime 23 59 59 999)).
  { unfold endOfWeek. cbv zeta. rewrite setDate_shift.
    unfold getDay, WeekDay. rewrite Day_MakeDate by exact Ht.
    pose proof (WeekDayOfDay_range de) as Hw.
    destruct (Z.ltb_spec (WeekDayOfDay de) 0) as [Hneg | _]; [lia | ].
    unfold setHours. f_equal.
    replace (MakeDate de (MakeTime 23 59 59 999) + (0 + 6 - (WeekDayOfDay de - 0)) * msPerDay)
      with (MakeDate (de + 6 - WeekDayOfDay de) (MakeTime 23 59 59 999))
      by (unfold MakeDate; lia).
    apply Day_MakeDate, Ht. }
  rewrite Hweek.
  apply eachDayOfInterval_days; [lia | exact Ht].
Qed.

(** *** The range of [Date] *)

(** A local time value [inRange] passes [TimeClip] as a UTC time value,
    whatever the offset of the time zone. *)
Lemma inRange_TimeClip (t offset : Z) :
  inRange t -> Z.abs offset <= msPerDay -> TimeClip (t - offset) = Some (t - offset).
Proof.
  unfold inRange, TimeClip, maxTime, msPerDay. intros Ht Ho.
  destruct (Z.leb_spec (Z.abs (t - offset)) 8640000000000000); [reflexivity | lia].
Qed.

(** The range holds one hundred million days on either side of the epoch. *)
Lemma inRange_date (day time : Z) :
  -99999999 <= day <= 99999998 -> 0 <= time < msPerDay -> inRange (MakeDate day time).
Proof. unfold inRange, MakeDate, maxTime, msPerDay. lia. Qed.

Lemma inRange_midnight (day : Z) :
  -99999999 <= day <= 99999998 -> inRange (day * msPerDay).
Proof. unfold inRange, maxTime, msPerDay. lia. Qed.

Lemma yearInRange_days (y : Z) :
  yearInRange y ->
  -99999999 + 40 <= DayFromYear y /\ DayFromYear (y + 1) + 40 <= 99999998.
Proof. unfold yearInRange, minYear, maxYear, DayFromYear. intros Hy. zdiv. Qed.

Lemma yearInRange_MakeFullYear (y : Z) : yearInRange y -> yearInRange (MakeFullYear y).
Proof.
  unfold yearInRange, minYear, maxYear, MakeFullYear. intros Hy.
  destruct (Z.leb_spec 0 y); destruct (Z.leb_spec y 99); cbn [andb]; lia.
Qed.

(** The first days of the months of a year lie within the year. *)
Lemma firstOfMonth_in_year (y m : Z) :
  0 <= m <= 11 ->
  DayFromYear y <= firstOfMonth y m /\ firstOfMonth y (m + 1) <= DayFromYear (y + 1).
Proof.
  intros Hm. unfold firstOfMonth. rewrite DayFromYear_succ. unfold DaysInYear.
  assert (Hl : 0 <= (if isLeap y then 1 else 0) <= 1) by (destruct (isLeap y); lia).
  pose proof (monthStart_step _ m Hl Hm). pose proof (monthStart_nonneg _ m Hl Hm).
  destruct (isLeap y); lia.
Qed.

(** For a displayed month of a year in range, the grid lies in the range of
    [Date], up to the midnight after its last cell, on which the loop of
    [eachDayOfInterval] ends. *)
Lemma grid_in_range (currentMonth : Date) :
  yearInRange (getFullYear currentMonth) ->
  -99999999 <= gridFirst currentMonth /\ gridLast currentMonth + 1 <= 99999998.
Proof.
  intros Hyear. apply yearInRange_MakeFullYear, yearInRange_days in Hyear.
  unfold gridFirst, gridLast. cbv zeta.
  pose proof (firstOfMonth_in_year (MakeFullYear (getFullYear currentMonth))
                (getMonth currentMonth) (MonthFromDay_range _)).
  pose proof (WeekDayOfDay_range
                (firstOfMonth (MakeFullYear (getFullYear currentMonth)) (getMonth currentMonth))).
  pose proof (WeekDayOfDay_range
                (firstOfMonth (MakeFullYear (getFullYear currentMonth))
                              (getMonth currentMonth + 1) - 1)).
  lia.
Qed.

End DateFacts.

(** ** The calendar grid *)

Section GridFacts.
Import ES JS DateFns Spec.

Lemma grid_length (currentMonth : Date) :
  Z.of_nat (List.length (Calendar.calendarDays currentMonth))
  = gridLast currentMonth - gridFirst currentMonth + 1.
Proof.
  rewrite calendarDays_closed_form, daysFrom_length.
  pose proof (grid_bounds currentMonth). lia.
Qed.

Lemma gridFirst_weekday (currentMonth : Date) :
  WeekDayOfDay (gridFirst currentMonth) = 0.
Proof. unfold gridFirst, WeekDayOfDay. cbv zeta. zdiv. Qed.

Lemma gridLast_weekday (currentMonth : Date) :
  WeekDayOfDay (gridLast currentMonth) = 6.
Proof. unfold gridLast, WeekDayOfDay. cbv zeta. zdiv. Qed.

Lemma grid_nth (currentMonth : Date) (i : nat) :
  (i < List.length (Calendar.calendarDays currentMonth))%nat ->
  nth_error (Calendar.calendarDays currentMonth) i
  = Some ((gridFirst currentMonth + Z.of_nat i) * msPerDay).
Proof.
  rewrite calendarDays_closed_form, daysFrom_length. apply daysFrom_nth.
Qed.

Lemma daysFrom_midnight (n : nat) : forall (k : Z) (d : Date),
  In d (daysFrom k n) -> startOfDay d = d.
Proof.
  induction n as [| n IH]; intros k d Hd; [contradiction | ].
  destruct Hd as [<- | Hd].
  - rewrite startOfDay_eq, Day_midnight. reflexivity.
  - exact (IH _ _ Hd).
Qed.

(** Every cell of the grid is a local midnight, whatever the month. *)
Lemma calendarDays_midnight (currentMonth d : Date) :
  In d (Calendar.calendarDays currentMonth) -> startOfDay d = d.
Proof. rewrite calendarDays_closed_form. apply daysFrom_midnight. Qed.

(** X1: The shape of the grid, for every displayed month of a year within the
    range of [Date] (from -271820 to 275759): whole weeks, from a Sunday to a
    Saturday, one midnight per day in ascending order, every one of them a
    date of the range. *)
Lemma calendarDays_shape (currentMonth : Date) :
  yearInRange (getFullYear currentMonth) ->
  let grid := Calendar.calendarDays currentMonth in
  (List.length grid mod 7 = 0)%nat
  /\ (exists first, nth_error grid 0 = Some first /\ getDay first = 0)
  /\ (exists last, nth_error grid (List.length grid - 1) = Some last /\ getDay last = 6)
  /\ (forall i d, nth_error grid i = Some d -> startOfDay d = d /\ inRange d)
  /\ (forall i d d', nth_error grid i = Some d -> nth_error grid (S i) = Some d' ->
        d' = addDays d 1 /\ d < d').
Proof.
  intros Hyear. cbv zeta.
  pose proof (grid_in_range currentMonth Hyear) as Hrange.
  pose proof (grid_length currentMonth) as Hlen.
  pose proof (grid_bounds currentMonth) as Hb.
  pose proof (gridFirst_weekday currentMonth) as Hf.
  pose proof (gridLast_weekday currentMonth) as Hl.
  set (grid := Calendar.calendarDays currentMonth) in *.
  assert (Hnth : forall i, (i < List.length grid)%nat ->
            nth_error grid i = Some ((gridFirst currentMonth + Z.of_nat i) * msPerDay))
    by (intros i; apply grid_nth).
  assert (Hpair : forall i d d', nth_error grid i = Some d ->
            nth_error grid (S i) = Some d' ->
            d = (gridFirst currentMonth + Z.of_nat i) * msPerDay
            /\ d' = (gridFirst currentMonth + Z.of_nat (S i)) * msPerDay).
  { intros i d d' Hd Hd'.
    assert (Hi : (i < List.length grid)%nat) by (apply nth_error_Some; congruence).
    assert (Hi' : (S i < List.length grid)%nat) by (apply nth_error_Some; congruence).
    rewrite (Hnth i Hi) in Hd. rewrite (Hnth (S i) Hi') in Hd'.
    split; congruence. }
  split; [ | split; [ | split; [ | split]]].
  - apply Nat2Z.inj. rewrite Nat2Z.inj_mod, Hlen. unfold WeekDayOfDay in *.
    change (Z.of_nat 7) with 7. change (Z.of_nat 0) with 0. zdiv.
  - eexists. split; [apply Hnth; lia | ].
    unfold getDay, WeekDay. rewrite Day_midnight, Z.add_0_r. exact Hf.
  - eexists. split; [apply Hnth; lia | ].
    unfold getDay, WeekDay. rewrite Day_midnight.
    replace (gridFirst currentMonth + Z.of_nat (List.length grid - 1))
      with (gridLast currentMonth) by lia.
    exact Hl.
  - intros i d Hd.
    assert (Hi : (i < List.length grid)%nat) by (apply nth_error_Some; congruence).
    rewrite (Hnth i Hi) in Hd. injection Hd as <-.
    rewrite startOfDay_eq, Day_midnight. split; [reflexivity | ].
    apply inRange_midnight. lia.
  - intros i d d' Hd Hd'. destruct (Hpair i d d' Hd Hd') as [-> ->].
    rewrite addDays_shift. unfold msPerDay. lia.
Qed.

(** X2: When the [Date] constructor takes the year of the displayed month as it
    is, that is outside 0..99, and the year is within the range of [Date],
    the grid holds every day of that month. *)
Lemma calendarDays_covers_month (currentMonth d : Date) :
  yearInRange (getFullYear currentMonth) ->
  ~ (0 <= getFullYear currentMonth <= 99) ->
  isSameMonth d currentMonth = true ->
  In (startOfDay d) (Calendar.calendarDays currentMonth).
Proof.
  intros _ Hyear Hsame.
  apply andb_true_iff in Hsame as [Hy Hm].
  apply Z.eqb_eq in Hy, Hm.
  rewrite calendarDays_closed_form, startOfDay_eq.
  pose proof (grid_bounds currentMonth) as Hb.
  apply daysFrom_In.
  unfold gridFirst, gridLast in *. cbv zeta in *.
  assert (Hfull : MakeFullYear (getFullYear currentMonth) = getFullYear currentMonth).
  { unfold MakeFullYear.
    destruct (Z.leb_spec 0 (getFullYear currentMonth));
      destruct (Z.leb_spec (getFullYear currentMonth) 99); cbn [andb]; lia. }
  rewrite Hfull in *.
  pose proof (day_in_its_month (Day d)) as Hin.
  unfold getFullYear, getMonth, YearFromTime, MonthFromTime in *.
  rewrite Hy, Hm in Hin.
  pose proof (WeekDayOfDay_range
    (firstOfMonth (YearFromDay (Day currentMonth)) (MonthFromDay (Day currentMonth)))).
  pose proof (WeekDayOfDay_range
    (firstOfMonth (YearFromDay (Day currentMonth)) (MonthFromDay (Day currentMonth) + 1) - 1)).
  lia.
Qed.

(** C4 at a failing input: for a displayed month in the year 50 the grid is
    that of June 1950; it holds no day of the displayed month. *)
Theorem calendarDays_two_digit_year :
  getFullYear june15of50 = 50 /\ getMonth june15of50 = 5
  /\ isSameMonth june15of50 june15of50 = true
  /\ ~ In (startOfDay june15of50) (Calendar.calendarDays june15of50)
  /\ Forall (fun day => isSameMonth day june15of50 = false)
            (Calendar.calendarDays june15of50)
  /\ hd_error (Calendar.calendarDays june15of50) = Some (newDate 1950 4 28).
Proof.
  split; [vm_compute; reflexivity | ].
  split; [vm_compute; reflexivity | ].
  split; [vm_compute; reflexivity | ].
  assert (Hall : Forall (fun day => isSameMonth day june15of50 = false)
                        (Calendar.calendarDays june15of50)).
  { apply Forall_forall. intros day Hday.
    assert (Hgrid : forallb (fun day => negb (isSameMonth day june15of50))
                            (Calendar.calendarDays june15of50) = true)
      by (vm_compute; reflexivity).
    rewrite forallb_forall in Hgrid. apply negb_true_iff. exact (Hgrid day Hday). }
  split; [ | split; [exact Hall | vm_compute; reflexivity]].
  intros Hin. rewrite Forall_forall in Hall. specialize (Hall _ Hin). clear Hin.
  vm_compute in Hall. exact (Bool.diff_true_false Hall).
Qed.

End GridFacts.

(** ** The date-range selector *)

Section SelectorFacts.
Import ES JS DateFns Spec.

(** A local midnight is not after any moment of its day. *)
Lemma midnight_first (S D : Date) : startOfDay S = S -> Day D = Day S -> S <= D.
Proof.
  intros HS Hday. pose proof (startOfDay_le D) as HD.
  rewrite startOfDay_eq in HS, HD. rewrite Hday in HD. lia.
Qed.

(** C1: the click transition of the selector, which is [handleDateClick] in
    edit mode ([readOnly = false]; outside edit mode the calendar is
    read-only and a click leaves the draft alone).  For every clicked date
    [D]: from the empty draft the click gives [{start: D}]; from a complete
    draft [{start: S, end: E}] it gives [{start: D}]; from [{start: S}] it
    gives [{start: D}] when [D] is before [S], the empty draft when [D] is
    [S], and [{start: S, end: D}] otherwise.  Dates are calendar days here:
    before, on and after the day of [S].  The start [S] of a draft is a cell
    of the grid, a local midnight, which an earlier click has put there, and
    then the table holds for every moment [D]; for a start that is not a
    midnight it holds unless [D] is an earlier moment of the day of [S], on
    which the click starts again. *)
Theorem click_transition_edit_mode (trips : list Trip) (D : Date) :
  let click := fun draft =>
    Calendar.draftChange (Calendar.handleDateClick trips draft false D) in
  click (mkRange None None) = Some (mkRange (Some D) None)
  /\ (forall S E, click (mkRange (Some S) (Some E)) = Some (mkRange (Some D) None))
  /\ (forall S,
        (Day D < Day S -> click (mkRange (Some S) None) = Some (mkRange (Some D) None))
        /\ (Day D = Day S -> S <= D ->
            click (mkRange (Some S) None) = Some (mkRange None None))
        /\ (Day S < Day D ->
            click (mkRange (Some S) None) = Some (mkRange (Some S) (Some D))))
  /\ (forall S, startOfDay S = S -> Day D = Day S ->
        click (mkRange (Some S) None) = Some (mkRange None None))
  /\ (forall currentMonth S, In S (Calendar.calendarDays currentMonth) -> Day D = Day S ->
        click (mkRange (Some S) None) = Some (mkRange None None))
  /\ (forall draft,
        Calendar.draftChange (Calendar.handleDateClick trips draft true D) = None).
Proof.
  cbv zeta.
  assert (Hsame : forall S, Day D = Day S -> S <= D ->
            Calendar.draftChange
              (Calendar.handleDateClick trips (mkRange (Some S) None) false D)
            = Some (mkRange None None)).
  { intros S Hday Hle. unfold Calendar.handleDateClick, isBefore. cbn.
    rewrite isSameDay_Day, Hday, Z.eqb_refl.
    destruct (Z.ltb_spec D S); [lia | reflexivity]. }
  split; [reflexivity | ]. split; [reflexivity | ].
  split; [ | split; [ | split; [ | reflexivity]]].
  - intros S. split; [ | split].
    + intros Hlt. unfold Calendar.handleDateClick, isBefore. cbn.
      assert (HDS : D < S).
      { destruct (Z.lt_ge_cases D S) as [H | H]; [exact H | ].
        pose proof (Day_mono S D H). lia. }
      apply Z.ltb_lt in HDS. now rewrite HDS.
    + exact (Hsame S).
    + intros Hgt. unfold Calendar.handleDateClick, isBefore. cbn.
      rewrite isSameDay_Day.
      destruct (Z.ltb_spec D S) as [HDS | _].
      * pose proof (Day_mono D S ltac:(lia)). lia.
      * destruct (Z.eqb_spec (Day D) (Day S)); [lia | reflexivity].
  - intros S HS Hday. apply Hsame; [exact Hday | now apply midnight_first].
  - intros currentMonth S Hcell Hday. apply calendarDays_midnight in Hcell.
    apply Hsame; [exact Hday | now apply midnight_first].
Qed.

(** The scenario of the specification: with 5 June as the start, a click on
    20 June completes the range; a click on 1 June starts again; a second
    click on 5 June cancels. *)
Lemma click_transition_edit_mode_witness :
  Calendar.draftChange
    (Calendar.handleDateClick [] (mkRange (Some (june 5)) None) false (june 20))
  = Some (mkRange (Some (june 5)) (Some (june 20)))
  /\ Calendar.draftChange
       (Calendar.handleDateClick [] (mkRange (Some (june 5)) None) false (june 1))
     = Some (mkRange (Some (june 1)) None)
  /\ Calendar.draftChange
       (Calendar.handleDateClick [] (mkRange (Some (june 5)) None) false (june 5))
     = Some (mkRange None None).
Proof.
  split; [ | split].
  - apply (proj2 (proj2 (proj1 (proj2 (proj2 (click_transition_edit_mode [] (june 20))))
                           (june 5)))).
    vm_compute. reflexivity.
  - apply (proj1 (proj1 (proj2 (proj2 (click_transition_edit_mode [] (june 1))))
                    (june 5))).
    vm_compute. reflexivity.
  - apply (proj1 (proj2 (proj2 (proj2 (click_transition_edit_mode [] (june 5)))))
             (june 5)); reflexivity.
Defined.

(** One click keeps the invariant, whatever the mode. *)
Lemma handleDateClick_invariant (trips : list Trip) (draft : DateRange)
    (readOnly : bool) (date : Date) (range : DateRange) :
  draftInvariant draft ->
  Calendar.draftChange (Calendar.handleDateClick trips draft readOnly date) = Some range ->
  draftInvariant range.
Proof.
  unfold Calendar.handleDateClick, draftInvariant. cbn.
  destruct readOnly; [discriminate | ].
  destruct (startDate draft) as [s |], (endDate draft) as [e |]; intros Hinv Hch.
  - injection Hch as <-. exact I.
  - unfold isBefore in Hch. destruct (Z.ltb_spec date s).
    + injection Hch as <-. exact I.
    + destruct (isSameDay date s); injection Hch as <-; cbn; [exact I | lia].
  - discriminate.
  - injection Hch as <-. exact I.
Qed.

Lemma clickDay_invariant (date : Date) (st : App.State) :
  draftInvariant (App.draftRange st) ->
  draftInvariant (App.draftRange (App.clickDay date st)).
Proof.
  intros Hinv. unfold App.clickDay.
  destruct (Calendar.draftChange _) as [range |] eqn:Hch; [ | exact Hinv].
  cbn. eapply handleDateClick_invariant; eassumption.
Qed.

Lemma fetchTrips_draft (url : string) (silent : bool) (now : Date)
    (reply : Api.ListReply) (st : App.State) :
  App.draftRange (App.fetchTrips url silent now reply st) = App.draftRange st.
Proof.
  unfold App.fetchTrips.
  destruct (isEmpty url); [reflexivity | ].
  destruct (Api.getAllTripsFromCloud url now reply) as [data | e];
    destruct silent; cbn;
    repeat match goal with
           | |- context [if ?b then _ else _] => destruct b; cbn
           end; reflexivity.
Qed.

Lemma handleSave_draft (url : string) (now : Date) (saveReply : Api.SaveReply)
    (listReply : Api.ListReply) (st : App.State) :
  App.draftRange (App.handleSave url now saveReply listReply st) = App.draftRange st
  \/ App.draftRange (App.handleSave url now saveReply listReply st) = mkRange None None.
Proof.
  unfold App.handleSave.
  destruct (startDate (App.draftRange st)), (endDate (App.draftRange st)); try (now left).
  destruct (Api.saveTripToCloud url (App.draftRange st) saveReply) as [newId | e];
    [ | now left].
  destruct (Api.getAllTripsFromCloud url now listReply) as [latest | e]; [ | now left].
  destruct (negb _); [now left | now right].
Qed.

(** C7: the draft invariant (a start not after the end; no end without a
    start) holds in the initial state, is kept by every click, in either mode,
    and by the reset, and so holds in every state the application reaches. *)
Theorem draft_invariant_preserved (url : string) :
  draftInvariant (App.draftRange App.initial)
  /\ (forall trips draft readOnly date range,
        draftInvariant draft ->
        Calendar.draftChange (Calendar.handleDateClick trips draft readOnly date) = Some range ->
        draftInvariant range)
  /\ (forall st, draftInvariant (App.draftRange (App.handleResetDraft st)))
  /\ (forall st, App.reachable url st -> draftInvariant (App.draftRange st)).
Proof.
  repeat split.
  - exact handleDateClick_invariant.
  - intros st Hreach. induction Hreach as
      [ | silent now reply st _ IH | now saveReply listReply st _ IH | st _ IH
        | st _ IH | st _ IH | date st _ IH ].
    + exact I.
    + now rewrite fetchTrips_draft.
    + destruct (handleSave_draft url now saveReply listReply st) as [-> | ->];
        [exact IH | exact I].
    + exact I.
    + exact I.
    + exact IH.
    + now apply clickDay_invariant.
Qed.

Lemma draft_invariant_preserved_witness :
  let st := App.clickDay (june 20)
              (App.clickDay (june 5) (App.enterEditMode App.initial)) in
  App.draftRange st = mkRange (Some (june 5)) (Some (june 20))
  /\ draftInvariant (App.draftRange st).
Proof.
  cbv zeta. split; [reflexivity | ].
  apply (proj2 (proj2 (proj2 (draft_invariant_preserved Api.API_URL)))).
  do 2 apply App.reach_click. apply App.reach_enter. apply App.reach_initial.
Defined.

End SelectorFacts.

(** ** The reconciler *)

Section ReconcilerFacts.
Import ES JS DateFns Spec.

(** C3, as stated, fails: with the trip 2025-06-01..2025-06-30 saved and a
    draft that starts on 2025-06-10, the cell of 2025-06-10 is a draft boundary
    strictly inside the trip; it reports [isStart], and it reports [isRange]
    as well. *)
Lemma draft_boundary_counterexample :
  let trips := [juneTrip "T1" 1 30] in
  let draft := mkRange (Some (june 10)) None in
  let cell := Calendar.dayCell trips draft false (june 10) (june 10) in
  isDraftBoundary draft (june 10)
  /\ strictlyInside (june 10) (juneTrip "T1" 1 30)
  /\ Calendar.isStart cell = true
  /\ Calendar.isRange cell = true.
Proof.
  cbv zeta. split; [left; reflexivity | ].
  split; [vm_compute; split; reflexivity | ].
  split; reflexivity.
Qed.

(** C3, amended: a day that is a boundary of the draft reports the draft's
    boundary flag ([isStart] or [isEnd]); a draft boundary does not suppress
    the interior flag of a saved trip: when the day is strictly inside the
    trip that owns it (the first trip of the list that contains it),
    [isRange] is reported too, and only [isSavedTrip] is off. *)
Theorem draft_boundary_flags (trips : list Trip) (draft : DateRange)
    (readOnly : bool) (currentMonth day : Date) (t : Trip) :
  isDraftBoundary draft day ->
  Calendar.getTripForDate trips day = Some t ->
  strictlyInside day t ->
  let cell := Calendar.dayCell trips draft readOnly currentMonth day in
  (Calendar.isStart cell || Calendar.isEnd cell = true)
  /\ Calendar.isRange cell = true
  /\ Calendar.isSavedTrip cell = false.
Proof.
  intros Hb Ht Hin cell. subst cell. unfold Calendar.dayCell. cbn.
  rewrite Ht. unfold strictlyInside in Hin.
  destruct (Trip.startDate t) as [s |]; [ | contradiction].
  destruct (Trip.endDate t) as [e |]; [ | contradiction].
  cbn. rewrite !isSameDay_Day.
  destruct (Z.eqb_spec (Day day) (Day s)); [lia | ].
  destruct (Z.eqb_spec (Day day) (Day e)); [lia | ].
  cbn. repeat split.
  - destruct Hb as [-> | ->]; [reflexivity | apply orb_true_iff; right; reflexivity].
  - destruct (Calendar.isInDraft draft day); reflexivity.
  - destruct Hb as [-> | ->]; [reflexivity | ].
    destruct (Calendar.sameDayAs day (startDate draft)); reflexivity.
Qed.

Lemma draft_boundary_flags_witness :
  let cell := Calendar.dayCell [juneTrip "T1" 1 30] (mkRange (Some (june 5)) (Some (june 10)))
                               false (june 10) (june 10) in
  (Calendar.isStart cell || Calendar.isEnd cell = true)
  /\ Calendar.isRange cell = true
  /\ Calendar.isSavedTrip cell = false.
Proof.
  apply (draft_boundary_flags [juneTrip "T1" 1 30] (mkRange (Some (june 5)) (Some (june 10)))
           false (june 10) (june 10) (juneTrip "T1" 1 30)).
  - right. reflexivity.
  - reflexivity.
  - vm_compute. split; reflexivity.
Defined.

End ReconcilerFacts.

(** ** Auto-navigation *)

Section NavigationFacts.
Import ES JS DateFns Spec.

Lemma find_first {A} (f : A -> bool) (l : list A) (x : A) :
  find f l = Some x ->
  exists before after,
    l = before ++ x :: after /\ f x = true /\ Forall (fun u => f u = false) before.
Proof.
  induction l as [| a l IH]; [discriminate | ].
  cbn. destruct (f a) eqn:Hfa.
  - intros [= ->]. exists [], l. repeat split; [exact Hfa | constructor].
  - intros Hfind. destruct (IH Hfind) as (before & after & -> & Hfx & Hall).
    exists (a :: before), after. repeat split; [exact Hfx | now constructor].
Qed.

Lemma find_none_all {A} (f : A -> bool) (l : list A) :
  find f l = None -> Forall (fun u => f u = false) l.
Proof.
  intros Hnone. apply Forall_forall. intros u Hu.
  destruct (f u) eqn:Hfu; [ | reflexivity].
  pose proof (find_none f l Hnone u Hu). congruence.
Qed.

Lemma sortedByStart_app (before : list Trip) (t : Trip) (after : list Trip) :
  sortedByStart (before ++ t :: after) ->
  forall u s su, In u after -> Trip.startDate t = Some s ->
    Trip.startDate u = Some su -> s <= su.
Proof.
  induction before as [| b before IH]; cbn; intros [Hhead Hrest].
  - exact Hhead.
  - exact (IH Hrest).
Qed.

(** C8 at a failing input: a trip of 10 August entered before a trip of
    12 June, the clock on 1 June and no draft.  The effect navigates to
    August, the first upcoming trip of the list, though the nearest upcoming
    trip is that of June, in another month. *)
Theorem autoNavigate_not_nearest :
  let later := Trip.mk "A" (Some august10) (Some august10) None in
  let sooner := juneTrip "B" 12 14 in
  Calendar.autoNavigate [later; sooner] (mkRange None None) (june 1) = Some (Some august10)
  /\ nearestUpcoming (june 1) [later; sooner] sooner
  /\ ~ nearestUpcoming (june 1) [later; sooner] later
  /\ isSameMonth august10 (june 12) = false.
Proof.
  cbv zeta. split; [vm_compute; reflexivity | ].
  split; [ | split; [ | vm_compute; reflexivity]].
  - split; [right; left; reflexivity | split; [vm_compute; reflexivity | ]].
    intros u s su [<- | [<- | []]] _ [= <-] [= <-]; vm_compute; congruence.
  - intros (_ & _ & Hnear).
    specialize (Hnear (juneTrip "B" 12 14) august10 (june 12)
                  ltac:(right; left; reflexivity) ltac:(vm_compute; reflexivity)
                  eq_refl eq_refl).
    vm_compute in Hnear. now apply Hnear.
Qed.

(** What the effect does on every input: when the draft has a start, the
    displayed month is set to that date; when it has none and there are
    trips, the displayed month is set to the start of the first trip in list
    order whose start is after the current date, or, when no trip is
    upcoming, to the start of the last trip of the list.  The first upcoming
    trip of the list is the nearest one when the list is in the order of the
    start dates. *)
Lemma autoNavigate_first_upcoming (trips : list Trip) (draft : DateRange) (now : Date) :
  (forall start, startDate draft = Some start ->
     Calendar.autoNavigate trips draft now = Some (Some start))
  /\ (startDate draft = None -> trips <> [] ->
      exists t, Calendar.autoNavigate trips draft now = Some (Trip.startDate t)
        /\ ((exists before after,
               trips = before ++ t :: after
               /\ Calendar.upcoming now t = true
               /\ Forall (fun u => Calendar.upcoming now u = false) before
               /\ (sortedByStart trips -> nearestUpcoming now trips t))
            \/ (Forall (fun u => Calendar.upcoming now u = false) trips
                /\ exists before, trips = before ++ [t]))).
Proof.
  split.
  - intros start Hs. unfold Calendar.autoNavigate. now rewrite Hs.
  - intros Hnone Hne. unfold Calendar.autoNavigate. rewrite Hnone.
    destruct trips as [| t0 rest] eqn:Htrips; [contradiction | ]. rewrite <- Htrips in *.
    assert (Hlen : (0 <? Z.of_nat (List.length trips)) = true)
      by (apply Z.ltb_lt; rewrite Htrips; cbn [List.length]; lia).
    rewrite Hlen.
    destruct (find (Calendar.upcoming now) trips) as [t |] eqn:Hfind.
    + exists t. split; [reflexivity | left].
      destruct (find_first _ _ _ Hfind) as (before & after & Heq & Hup & Hbefore).
      exists before, after.
      split; [exact Heq | split; [exact Hup | split; [exact Hbefore | ]]].
      intros Hsorted. split; [rewrite Heq; apply in_elt | split; [exact Hup | ]].
      intros u s su Hu Hupu Hts Hus. rewrite Heq in Hu, Hsorted.
      apply in_app_or in Hu as [Hu | [<- | Hu]].
      * rewrite Forall_forall in Hbefore. rewrite (Hbefore u Hu) in Hupu. discriminate.
      * rewrite Hts in Hus. injection Hus as <-. lia.
      * exact (sortedByStart_app before t after Hsorted u s su Hu Hts Hus).
    + assert (Hlast : exists before t, trips = before ++ [t]).
      { destruct (exists_last (l := trips)) as (before & t & Heq); [congruence | ].
        now exists before, t. }
      destruct Hlast as (before & t & Heq).
      exists t. split.
      * rewrite Heq at 1 2. rewrite length_app. cbn [List.length].
        replace (List.length before + 1 - 1)%nat with (List.length before) by lia.
        rewrite nth_error_app2 by lia. rewrite Nat.sub_diag. reflexivity.
      * right. split; [now apply find_none_all | now exists before].
Qed.

End NavigationFacts.

(** ** The remote store client and the sync loop *)

Section SyncFacts.
Import ES JS DateFns Spec.

Lemma getAll_total (url : string) (now : Date) (reply : Api.ListReply) :
  isEmpty url = false ->
  Api.getAllTripsFromCloud url now reply
  = Resolved match reply with
             | Api.ListTrips entries => map (Api.tripOfJson now) entries
             | _ => []
             end.
Proof.
  intros Hurl. unfold Api.getAllTripsFromCloud. rewrite Hurl.
  destruct reply; reflexivity.
Qed.

Lemma getAll_resolved_url (url : string) (now : Date) (reply : Api.ListReply)
    (data : list Trip) :
  Api.getAllTripsFromCloud url now reply = Resolved data -> isEmpty url = false.
Proof.
  unfold Api.getAllTripsFromCloud. destruct (isEmpty url); [discriminate | reflexivity].
Qed.

(** No trip has an id that is no string. *)
Lemma existsb_isId_None (l : list Trip) : existsb (App.isId None) l = false.
Proof. induction l as [| t l IH]; [reflexivity | exact IH]. Qed.

(** What [fetchTrips] does to the trip list, the fingerprint and the toasts
    once the list request has resolved. *)
Lemma fetchTrips_same_hash (url : string) (silent : bool) (now : Date)
    (reply : Api.ListReply) (st : App.State) (data : list Trip) :
  Api.getAllTripsFromCloud url now reply = Resolved data ->
  App.syncHash data = App.lastServerHash st ->
  let st' := App.fetchTrips url silent now reply st in
  App.trips st' = App.trips st
  /\ App.lastServerHash st' = App.lastServerHash st
  /\ App.toasts st' = App.toasts st.
Proof.
  intros Hget Heq st'. subst st'. unfold App.fetchTrips.
  rewrite (getAll_resolved_url _ _ _ _ Hget), Hget.
  destruct silent;
    [ | change (App.lastServerHash (App.setIsLoading true st)) with (App.lastServerHash st)];
    rewrite Heq, String.eqb_refl; cbn [negb]; repeat split; reflexivity.
Qed.

Lemma fetchTrips_new_hash (url : string) (silent : bool) (now : Date)
    (reply : Api.ListReply) (st : App.State) (data : list Trip) :
  Api.getAllTripsFromCloud url now reply = Resolved data ->
  App.syncHash data <> App.lastServerHash st ->
  let st' := App.fetchTrips url silent now reply st in
  App.trips st' = data /\ App.lastServerHash st' = App.syncHash data.
Proof.
  intros Hget Hne st'. subst st'. unfold App.fetchTrips.
  rewrite (getAll_resolved_url _ _ _ _ Hget), Hget.
  apply String.eqb_neq in Hne.
  destruct silent;
    [ | change (App.lastServerHash (App.setIsLoading true st)) with (App.lastServerHash st)];
    rewrite Hne; cbn [negb andb].
  - destruct (0 <? Z.of_nat (List.length data)); split; reflexivity.
  - split; reflexivity.
Qed.

(** C10: with the endpoint configured, [getAllTripsFromCloud] resolves
    whatever the remote store answers: to the empty list after a transport
    failure, an unparsable body, an error status or a body without a trips
    array, and to the parsed trips otherwise. *)
Theorem getAllTripsFromCloud_resolves (url : string) (now : Date) (reply : Api.ListReply) :
  isEmpty url = false ->
  (forall e, Api.getAllTripsFromCloud url now reply <> Rejected e)
  /\ Api.getAllTripsFromCloud url now reply
     = Resolved match reply with
                | Api.ListTrips entries => map (Api.tripOfJson now) entries
                | _ => []
                end.
Proof.
  intros Hurl. rewrite (getAll_total url now reply Hurl).
  split; [discriminate | reflexivity].
Qed.

Lemma getAllTripsFromCloud_resolves_witness :
  Api.getAllTripsFromCloud Api.API_URL 0 (Api.ListStatusError "quota") = Resolved [].
Proof.
  apply (proj2 (getAllTripsFromCloud_resolves Api.API_URL 0 (Api.ListStatusError "quota")
                  eq_refl)).
Defined.

(** Two lists with the same ids and markers in the same order have the same
    fingerprint. *)
Lemma syncHash_pairs (data previous : list Trip) :
  map (fun t => (Trip.id t, Trip.lastUpdated t)) data
  = map (fun t => (Trip.id t, Trip.lastUpdated t)) previous ->
  App.syncHash data = App.syncHash previous.
Proof.
  intros Hsame. unfold App.syncHash. f_equal.
  revert previous Hsame. induction data as [| t data IH]; intros [| p previous]; cbn;
    try discriminate; [reflexivity | ].
  intros [= Hid Hmark Hrest]. unfold App.idAndMarker at 1 3.
  rewrite Hid, Hmark. f_equal. now apply IH.
Qed.

(** C5 at a failing poll.  The store is empty when the application starts;
    the trip T1 is drafted and saved, and [handleSave] puts the list it has
    fetched on display.  The next poll fetches this very list: its
    fingerprint is that of the list on display, yet the poll takes it for new,
    because the recorded fingerprint is still that of the empty list; it
    replaces the list by itself and shows the toast "synchronised". *)
Theorem poll_after_save_notifies :
  let reply := Api.ListTrips [Api.mkTripJson "T1" "2025-06-05" "2025-06-20" None] in
  let loaded := App.fetchTrips Api.API_URL false 0 (Api.ListTrips []) App.initial in
  let drafted := App.clickDay (june 20) (App.clickDay (june 5) (App.enterEditMode loaded)) in
  let saved := App.handleSave Api.API_URL 0 (Api.SaveOk "T1") reply drafted in
  let polled := App.fetchTrips Api.API_URL true 0 reply saved in
  App.trips saved = [juneTrip "T1" 5 20]
  /\ Api.getAllTripsFromCloud Api.API_URL 0 reply = Resolved (App.trips saved)
  /\ App.lastServerHash saved = "[]"%string
  /\ App.syncHash (App.trips saved) <> "[]"%string
  /\ App.trips polled = App.trips saved
  /\ App.lastServerHash polled = App.syncHash (App.trips saved)
  /\ App.toasts polled = App.mkToast "已同步最新行程" App.info :: App.toasts saved.
Proof.
  cbv zeta. repeat split; try (vm_compute; reflexivity).
  vm_compute. discriminate.
Qed.

(** A fetch keeps the recorded fingerprint and the list on display in step:
    it records the fingerprint of the list it puts on display, and leaves
    both alone otherwise. *)
Lemma fetchTrips_inSync (url : string) (silent : bool) (now : Date)
    (reply : Api.ListReply) (st : App.State) :
  inSync st -> inSync (App.fetchTrips url silent now reply st).
Proof.
  unfold inSync, App.fetchTrips. intros Hsync.
  destruct (isEmpty url); [exact Hsync | ].
  destruct (Api.getAllTripsFromCloud url now reply) as [data | e];
    destruct silent; cbn;
    repeat match goal with
           | |- context [if ?b then _ else _] => destruct b; cbn
           end; (exact Hsync || reflexivity).
Qed.

(** The first fetch brings them in step: no fingerprint is the empty text. *)
Lemma fetchTrips_initial_inSync (url : string) (silent : bool) (now : Date)
    (reply : Api.ListReply) :
  isEmpty url = false -> inSync (App.fetchTrips url silent now reply App.initial).
Proof.
  intros Hurl. unfold inSync.
  destruct (fetchTrips_new_hash url silent now reply App.initial _
              (getAll_total url now reply Hurl)) as [-> ->]; [ | reflexivity].
  unfold App.syncHash, stringifyStrings. cbn. discriminate.
Qed.

(** C6: when the save request answers with a new id and the list fetched
    next has no trip of that id, [handleSave] reports the consistency error
    and leaves the draft, the mode and the trip list as they were; whenever
    [handleSave] changes the draft, the save answered with an id and the
    fetched list holds a trip of that id. *)
Theorem save_not_propagated (url : string) (now : Date) (saveReply : Api.SaveReply)
    (listReply : Api.ListReply) (st : App.State) :
  let st' := App.handleSave url now saveReply listReply st in
  (forall newId latest,
     Api.saveTripToCloud url (App.draftRange st) saveReply = Resolved (Some newId) ->
     Api.getAllTripsFromCloud url now listReply = Resolved latest ->
     existsb (fun t => String.eqb (Trip.id t) newId) latest = false ->
     App.toasts st' = App.mkToast App.notPropagated App.error :: App.toasts st
     /\ App.draftRange st' = App.draftRange st
     /\ App.isEditMode st' = App.isEditMode st
     /\ App.trips st' = App.trips st)
  /\ (App.draftRange st' <> App.draftRange st ->
      exists newId latest,
        Api.saveTripToCloud url (App.draftRange st) saveReply = Resolved (Some newId)
        /\ Api.getAllTripsFromCloud url now listReply = Resolved latest
        /\ existsb (fun t => String.eqb (Trip.id t) newId) latest = true
        /\ App.draftRange st' = mkRange None None
        /\ App.trips st' = latest).
Proof.
  intros st'. subst st'. split.
  - intros newId latest Hsave Hlist Hmissing. unfold App.handleSave.
    change (fun t : Trip => String.eqb (Trip.id t) newId) with (App.isId (Some newId))
      in Hmissing.
    assert (Hcomplete : exists s e, startDate (App.draftRange st) = Some s
                                    /\ endDate (App.draftRange st) = Some e).
    { unfold Api.saveTripToCloud in Hsave. destruct (isEmpty url); [discriminate | ].
      destruct (startDate (App.draftRange st)) as [s |]; [ | discriminate].
      destruct (endDate (App.draftRange st)) as [e |]; [ | discriminate].
      now exists s, e. }
    destruct Hcomplete as (s & e & -> & ->).
    rewrite Hsave, Hlist, Hmissing. cbn. repeat split; reflexivity.
  - unfold App.handleSave.
    destruct (startDate (App.draftRange st)), (endDate (App.draftRange st));
      try (intros Hch; now contradiction Hch).
    destruct (Api.saveTripToCloud url (App.draftRange st) saveReply) as [newId | e];
      [ | intros Hch; now contradiction Hch].
    destruct (Api.getAllTripsFromCloud url now listReply) as [latest | e];
      [ | intros Hch; now contradiction Hch].
    destruct (existsb (App.isId newId) latest) eqn:Hsaved;
      cbn [negb]; [ | intros Hch; now contradiction Hch].
    destruct newId as [newId | ]; [ | now rewrite existsb_isId_None in Hsaved].
    intros _. exists newId, latest.
    split; [reflexivity | split; [reflexivity | split; [exact Hsaved | ]]].
    split; reflexivity.
Qed.

Lemma save_not_propagated_witness :
  let st := App.clickDay (june 20) (App.clickDay (june 5) (App.enterEditMode App.initial)) in
  let st' := App.handleSave Api.API_URL 0 (Api.SaveOk "T1") (Api.ListTrips []) st in
  App.toasts st' = App.mkToast App.notPropagated App.error :: App.toasts st
  /\ App.draftRange st' = mkRange (Some (june 5)) (Some (june 20))
  /\ App.isEditMode st' = true
  /\ App.trips st' = [].
Proof.
  cbv zeta.
  refine (proj1 (save_not_propagated Api.API_URL 0 (Api.SaveOk "T1") (Api.ListTrips []) _)
            "T1"%string [] _ _ _); reflexivity.
Defined.

(** C2 at a failing poll: with the trip T1 on display and its fingerprint
    recorded, a poll whose request fails at transport level empties the trip
    list and shows "no trips", although nothing was fetched. *)
Theorem failed_fetch_overwrites_trips :
  let shown := [juneTrip "T1" 5 20] in
  let st := App.fetchTrips Api.API_URL true 0
              (Api.ListTrips [Api.mkTripJson "T1" "2025-06-05" "2025-06-20" None])
              App.initial in
  let st' := App.fetchTrips Api.API_URL true 0
               (Api.ListFetchFailed (mkError "TypeError" "Failed to fetch")) st in
  App.trips st = shown /\ App.trips st' = [] /\ App.lastServerHash st' = "[]"%string.
Proof. cbv zeta. repeat split; reflexivity. Qed.

(** X19: A failed list request empties the list on display.  With the endpoint
    set, after a transport failure, an unparsable body, an error status or a
    body without trips, loud or silent, [fetchTrips] leaves the trip list
    empty whenever the recorded fingerprint is not that of the empty list. *)
Lemma failed_fetch_empties (url : string) (silent : bool) (now : Date)
    (reply : Api.ListReply) (st : App.State) :
  isEmpty url = false ->
  (forall entries, reply <> Api.ListTrips entries) ->
  App.lastServerHash st <> "[]"%string ->
  App.trips (App.fetchTrips url silent now reply st) = [].
Proof.
  intros Hurl Hfail Hhash.
  assert (Hempty : Api.getAllTripsFromCloud url now reply = Resolved []).
  { rewrite (getAll_total url now reply Hurl).
    destruct reply; try reflexivity. now contradiction (Hfail trips). }
  apply (fetchTrips_new_hash url silent now reply st [] Hempty).
  cbn. congruence.
Qed.

End SyncFacts.

(** ** The date parser *)

Section ParserFacts.
Import ES JS DateFns Spec.
Local Open Scope string_scope.

Lemma append_empty_r (s : string) : s ++ "" = s.
Proof. induction s as [| c s IH]; cbn; [reflexivity | now rewrite IH]. Qed.

Lemma append_assoc3 (a b c : string) : (a ++ b) ++ c = a ++ (b ++ c).
Proof. induction a as [| x a IH]; cbn; [reflexivity | now rewrite IH]. Qed.

Lemma allChars_app (p : ascii -> bool) (a b : string) :
  allChars p (a ++ b) = allChars p a && allChars p b.
Proof.
  induction a as [| c a IH]; cbn; [reflexivity | ].
  rewrite IH. apply andb_assoc.
Qed.

(** A piece without separator is read through to the next separator. *)
Lemma splitAcc_piece (isSep : ascii -> bool) (s : string) :
  forall piece rest,
    allChars (fun c => negb (isSep c)) s = true ->
    splitAcc isSep (s ++ rest) piece = splitAcc isSep rest (piece ++ s).
Proof.
  induction s as [| c s IH]; intros piece rest Hs; cbn in *.
  - now rewrite append_empty_r.
  - apply andb_true_iff in Hs as [Hc Hs].
    apply negb_true_iff in Hc. rewrite Hc, IH by exact Hs.
    now rewrite append_assoc3.
Qed.

Lemma split_last_piece (isSep : ascii -> bool) (s : string) :
  allChars (fun c => negb (isSep c)) s = true -> split isSep s = [s].
Proof.
  intros Hs. unfold split.
  rewrite <- (append_empty_r s) at 1. now rewrite splitAcc_piece.
Qed.

Lemma split_first_piece (isSep : ascii -> bool) (s : string) (c : ascii) (rest : string) :
  allChars (fun c => negb (isSep c)) s = true -> isSep c = true ->
  split isSep (s ++ String c rest) = s :: split isSep rest.
Proof.
  intros Hs Hc. unfold split. rewrite splitAcc_piece by exact Hs.
  cbn. now rewrite Hc.
Qed.

(** A string with a [Number] in this model holds digits only: none of the
    separators "T", "-" and "/". *)
Lemma digits_no_separator (p : ascii -> bool) (s : string) :
  (forall c w, digitValue c = Some w -> p c = true) ->
  forall acc v, digitsValue acc s = Some v -> allChars p s = true.
Proof.
  intros Hp. induction s as [| c s IH]; intros acc v Hv; cbn in *; [reflexivity | ].
  destruct (digitValue c) as [w |] eqn:Hc; [ | discriminate].
  rewrite (Hp c w Hc). cbn. exact (IH _ _ Hv).
Qed.

Lemma digit_not (sep : ascii) :
  digitValue sep = None ->
  forall c w, digitValue c = Some w -> negb (Ascii.eqb c sep) = true.
Proof.
  intros Hsep c w Hc. apply negb_true_iff, Ascii.eqb_neq. intros ->. congruence.
Qed.

(** On a date string, [parseDateSafe] drops the time and builds the date from
    the three numbers. *)
Lemma parseDateSafe_dateString (now : Date) (ys ms ds : string) (time : option string)
    (y m d : Z) :
  Number ys = Some y -> Number ms = Some m -> Number ds = Some d ->
  Api.parseDateSafe now (dateString ys ms ds time) = Some (newDate y (m - 1) d).
Proof.
  intros Hy Hm Hd. unfold Api.parseDateSafe.
  assert (HnotT : forall s v, Number s = Some v ->
            allChars (fun c => negb (Ascii.eqb "T" c)) s = true).
  { intros s v Hv. apply (digits_no_separator _ s) with (acc := 0%Z) (v := v); [ | exact Hv].
    intros c w Hc. rewrite Ascii.eqb_sym. now apply (digit_not "T" eq_refl c w). }
  assert (HnotDash : forall s v, Number s = Some v ->
            allChars (fun c => negb (Ascii.eqb c "-" || Ascii.eqb c "/")) s = true).
  { intros s v Hv. apply (digits_no_separator _ s) with (acc := 0%Z) (v := v); [ | exact Hv].
    intros c w Hc. rewrite negb_orb.
    rewrite (digit_not "-" eq_refl c w Hc).
    apply (digit_not "/" eq_refl c w Hc). }
  assert (Hnonempty : isEmpty (dateString ys ms ds time) = false).
  { unfold dateString. destruct ys; reflexivity. }
  rewrite Hnonempty.
  assert (Hbody : allChars (fun c => negb (Ascii.eqb "T" c)) (ys ++ "-" ++ ms ++ "-" ++ ds)
                  = true).
  { rewrite !allChars_app, (HnotT ys y Hy), (HnotT ms m Hm), (HnotT ds d Hd). reflexivity. }
  assert (Hclean : hd "" (split (Ascii.eqb "T") (dateString ys ms ds time))
                   = ys ++ "-" ++ ms ++ "-" ++ ds).
  { unfold dateString. destruct time as [t |].
    - change ("T" ++ t) with (String "T" t).
      rewrite split_first_piece; [reflexivity | exact Hbody | reflexivity].
    - rewrite append_empty_r, split_last_piece; [reflexivity | exact Hbody]. }
  rewrite Hclean.
  change ("-" ++ ms ++ "-" ++ ds) with (String "-" (ms ++ "-" ++ ds)).
  rewrite split_first_piece; [ | exact (HnotDash ys y Hy) | reflexivity].
  change ("-" ++ ds) with (String "-" ds).
  rewrite split_first_piece; [ | exact (HnotDash ms m Hm) | reflexivity].
  rewrite split_last_piece by exact (HnotDash ds d Hd).
  cbn [map]. now rewrite Hy, Hm, Hd.
Qed.

Local Close Scope string_scope.

Lemma newDate_day (y m d : Z) :
  ~ (0 <= y <= 99) -> 0 <= m <= 11 ->
  newDate y m d = (firstOfMonth y m + d - 1) * msPerDay.
Proof.
  intros Hy Hm. unfold newDate, MakeFullYear.
  destruct (Z.leb_spec 0 y); destruct (Z.leb_spec y 99); cbn [andb]; try lia;
    rewrite MakeDay_in_year by exact Hm; unfold MakeDate; rewrite MakeTime_midnight; lia.
Qed.

(** A date built from a year outside 0..99 and a day that exists has exactly
    those components, at local midnight. *)
Lemma newDate_components (y m d : Z) :
  ~ (0 <= y <= 99) -> 0 <= m <= 11 -> 1 <= d <= daysInMonth y m ->
  getFullYear (newDate y m d) = y
  /\ getMonth (newDate y m d) = m
  /\ getDate (newDate y m d) = d
  /\ startOfDay (newDate y m d) = newDate y m d.
Proof.
  intros Hy Hm Hd.
  assert (Hfull : MakeFullYear y = y).
  { unfold MakeFullYear.
    destruct (Z.leb_spec 0 y); destruct (Z.leb_spec y 99); cbn [andb]; lia. }
  assert (Hnew : newDate y m d = (firstOfMonth y m + d - 1) * msPerDay).
  { unfold newDate. rewrite Hfull, MakeDay_in_year by exact Hm.
    unfold MakeDate. rewrite MakeTime_midnight. lia. }
  unfold daysInMonth in Hd. cbv zeta in Hd.
  assert (Hin : firstOfMonth y m <= firstOfMonth y m + d - 1 < firstOfMonth y (m + 1))
    by (unfold firstOfMonth; lia).
  destruct (civil_of_day y m (firstOfMonth y m + d - 1) Hm Hin) as (Hyear & Hmonth & Hdate).
  unfold getFullYear, getMonth, getDate, YearFromTime, MonthFromTime, DateFromTime.
  rewrite startOfDay_eq, Hnew, Day_midnight, Hyear, Hmonth, Hdate.
  repeat split; lia.
Qed.

(** X13: For every date string of a day that exists in a year from 100 to 275759,
    with or without a time, [parseDateSafe] gives the local date with exactly
    the year, month and day written, a date within the range of [Date]. *)
Lemma parseDateSafe_exact (now : Date) (ys ms ds : string) (time : option string)
    (y m d : Z) :
  Number ys = Some y -> Number ms = Some m -> Number ds = Some d ->
  100 <= y <= maxYear -> 1 <= m <= 12 -> 1 <= d <= daysInMonth y (m - 1) ->
  exists date,
    Api.parseDateSafe now (dateString ys ms ds time) = Some date
    /\ getFullYear date = y /\ getMonth date + 1 = m /\ getDate date = d
    /\ startOfDay date = date
    /\ inRange date.
Proof.
  intros Hys Hms Hds Hy Hm Hd.
  exists (newDate y (m - 1) d).
  split; [now apply parseDateSafe_dateString | ].
  destruct (newDate_components y (m - 1) d) as (H1 & H2 & H3 & H4); try lia.
  repeat split; try lia.
  rewrite newDate_day by lia. apply inRange_midnight.
  assert (Hyr : yearInRange y) by (unfold yearInRange, minYear, maxYear in *; lia).
  pose proof (yearInRange_days y Hyr).
  pose proof (firstOfMonth_in_year y (m - 1) ltac:(lia)).
  unfold daysInMonth in Hd. cbv zeta in Hd. unfold firstOfMonth in *. lia.
Qed.

(** C9 at a failing input: the string "0050-06-15", a day of the year 50, is
    parsed to 15 June 1950; the year is not the one written. *)
Theorem parseDateSafe_two_digit_year (now : Date) :
  exists date,
    Api.parseDateSafe now "0050-06-15" = Some date
    /\ getFullYear date = 1950 /\ getMonth date = 5 /\ getDate date = 15.
Proof.
  exists (newDate 50 5 15).
  split; [vm_compute; reflexivity | ].
  split; [vm_compute; reflexivity | ].
  split; vm_compute; reflexivity.
Qed.

End ParserFacts.

(** ** Month navigation and the size of the grid *)

Section NavigationGridFacts.
Import ES JS DateFns Spec.

Lemma TimeWithinDay_range (t : Z) : 0 <= TimeWithinDay t < msPerDay.
Proof. unfold TimeWithinDay, msPerDay. zdiv. Qed.

Lemma daysInMonth_range (y m : Z) : 0 <= m <= 11 -> 28 <= daysInMonth y m <= 31.
Proof.
  intros Hm. unfold daysInMonth. cbv zeta.
  assert (Hl : 0 <= (if isLeap y then 1 else 0) <= 1) by (destruct (isLeap y); lia).
  revert Hl. generalize (if isLeap y then 1 else 0). intros leap Hl.
  assert (Hcases : m = 0 \/ m = 1 \/ m = 2 \/ m = 3 \/ m = 4 \/ m = 5 \/ m = 6
                   \/ m = 7 \/ m = 8 \/ m = 9 \/ m = 10 \/ m = 11) by lia.
  repeat destruct Hcases as [-> | Hcases]; try subst m; month_table; lia.
Qed.

(** The components of a time value given by a day of a month and a time. *)
Lemma components_of_day (y m date time : Z) :
  0 <= m <= 11 -> 1 <= date <= daysInMonth y m -> 0 <= time < msPerDay ->
  let t := MakeDate (firstOfMonth y m + date - 1) time in
  getFullYear t = y /\ getMonth t = m /\ getDate t = date /\ TimeWithinDay t = time.
Proof.
  intros Hm Hd Ht t. subst t.
  unfold getFullYear, getMonth, getDate, YearFromTime, MonthFromTime, DateFromTime.
  rewrite Day_MakeDate, TimeWithinDay_MakeDate by exact Ht.
  unfold daysInMonth in Hd. cbv zeta in Hd.
  assert (Hin : firstOfMonth y m <= firstOfMonth y m + date - 1 < firstOfMonth y (m + 1))
    by (unfold firstOfMonth; lia).
  destruct (civil_of_day y m _ Hm Hin) as (-> & -> & ->).
  repeat split; lia.
Qed.

Lemma getDate_range (t : Date) :
  1 <= getDate t <= daysInMonth (getFullYear t) (getMonth t).
Proof.
  unfold getDate, getFullYear, getMonth, DateFromTime, YearFromTime, MonthFromTime.
  pose proof (day_in_its_month (Day t)) as Hin.
  unfold daysInMonth, DateFromDay, firstOfMonth, MonthFromDay, InLeapYear, DayWithinYear in *.
  cbv zeta. lia.
Qed.

Lemma Day_of_components (t : Date) :
  Day t = firstOfMonth (getFullYear t) (getMonth t) + getDate t - 1.
Proof.
  unfold getDate, getFullYear, getMonth, DateFromTime, YearFromTime, MonthFromTime.
  unfold DateFromDay, firstOfMonth, MonthFromDay, InLeapYear, DayWithinYear. lia.
Qed.

Lemma date_of_components (t : Date) :
  t = MakeDate (firstOfMonth (getFullYear t) (getMonth t) + getDate t - 1) (TimeWithinDay t).
Proof.
  rewrite <- (MakeDate_Day t) at 1. f_equal.
  unfold getDate, getFullYear, getMonth, DateFromTime, YearFromTime, MonthFromTime.
  unfold DateFromDay, firstOfMonth, MonthFromDay, InLeapYear, DayWithinYear. lia.
Qed.

(** Day 0 of the month after [m] is the last day of month [m], for a month
    index of any size and sign. *)
Lemma MakeDay_month_end (y m : Z) :
  MakeDay y (m + 1) 0
  = firstOfMonth (y + m / 12) (m mod 12)
    + daysInMonth (y + m / 12) (m mod 12) - 1.
Proof.
  unfold daysInMonth. cbv zeta.
  replace (firstOfMonth (y + m / 12) (m mod 12)
           + (monthStart (if isLeap (y + m / 12) then 1 else 0) (m mod 12 + 1)
              - monthStart (if isLeap (y + m / 12) then 1 else 0) (m mod 12)) - 1)
    with (firstOfMonth (y + m / 12) (m mod 12 + 1) - 1) by (unfold firstOfMonth; lia).
  assert (Hr : 0 <= m mod 12 < 12) by zdiv.
  destruct (Z.eq_dec (m mod 12) 11) as [H11 | Hne].
  - assert (Hq : (m + 1) / 12 = m / 12 + 1) by zdiv.
    assert (Hm : (m + 1) mod 12 = 0) by zdiv.
    unfold MakeDay, firstOfMonth. rewrite Hq, Hm, H11.
    replace (y + (m / 12 + 1)) with (y + m / 12 + 1) by lia.
    rewrite DayFromYear_succ. unfold DaysInYear. change (11 + 1) with 12.
    cbn [monthStart]. destruct (isLeap (y + m / 12)), (isLeap (y + m / 12 + 1)); lia.
  - assert (Hq : (m + 1) / 12 = m / 12) by zdiv.
    assert (Hm : (m + 1) mod 12 = m mod 12 + 1) by zdiv.
    unfold MakeDay, firstOfMonth. rewrite Hq, Hm. lia.
Qed.

Lemma MakeDay_normal (y m date : Z) :
  MakeDay y m date = firstOfMonth (y + m / 12) (m mod 12) + date - 1.
Proof. reflexivity. Qed.

(** [addMonths]: the month moves by [amount], carrying into the year; the day
    of the month is kept, or cut down to the length of the month reached; the
    time of day is kept. *)
Lemma addMonths_parts (date : Date) (amount : Z) :
  let year := getFullYear date + (getMonth date + amount) / 12 in
  let month := (getMonth date + amount) mod 12 in
  let result := addMonths date amount in
  getFullYear result = year
  /\ getMonth result = month
  /\ getDate result = Z.min (getDate date) (daysInMonth year month)
  /\ TimeWithinDay result = TimeWithinDay date.
Proof.
  cbv zeta.
  assert (HM : 0 <= getMonth date <= 11) by apply MonthFromDay_range.
  pose proof (getDate_range date) as HD.
  pose proof (TimeWithinDay_range date) as HT.
  unfold addMonths. destruct (Z.eqb_spec amount 0) as [-> | Hne].
  - rewrite Z.add_0_r, Z.div_small, Z.mod_small, Z.add_0_r by lia.
    repeat split; lia.
  - set (year := getFullYear date + (getMonth date + amount) / 12).
    set (month := (getMonth date + amount) mod 12).
    assert (Hmonth : 0 <= month <= 11) by (unfold month; zdiv).
    pose proof (daysInMonth_range year month Hmonth) as Hlen.
    assert (Hend : setMonth date (getMonth date + amount + 1) 0
                   = MakeDate (firstOfMonth year month + daysInMonth year month - 1)
                              (TimeWithinDay date)).
    { unfold setMonth. fold (getFullYear date). now rewrite MakeDay_month_end. }
    rewrite Hend.
    destruct (components_of_day year month (daysInMonth year month) (TimeWithinDay date)
                Hmonth ltac:(lia) HT) as (Hy & Hm & Hd & Ht).
    rewrite Hy, Hm, Hd.
    destruct (Z.leb_spec (daysInMonth year month) (getDate date)) as [Hle | Hgt].
    + rewrite Hy, Hm, Hd, Ht. repeat split; lia.
    + unfold setFullYear. rewrite MakeDay_normal.
      rewrite Z.div_small, Z.mod_small, Z.add_0_r by lia.
      destruct (components_of_day year month (getDate date) (TimeWithinDay date)
                  Hmonth ltac:(lia) HT) as (Hy' & Hm' & Hd' & Ht').
      rewrite Hy', Hm', Hd', Ht'. repeat split; lia.
Qed.

(** Two steps of month navigation show the month that one step by the sum
    shows. *)
Lemma addMonths_compose_month (date : Date) (a b : Z) :
  isSameMonth (addMonths (addMonths date a) b) (addMonths date (a + b)) = true.
Proof.
  unfold isSameMonth.
  destruct (addMonths_parts (addMonths date a) b) as (Hy2 & Hm2 & _).
  destruct (addMonths_parts date a) as (Hy1 & Hm1 & _).
  destruct (addMonths_parts date (a + b)) as (Hy & Hm & _).
  rewrite Hy2, Hm2, Hy1, Hm1, Hy, Hm.
  assert (HM : 0 <= getMonth date <= 11) by apply MonthFromDay_range.
  apply andb_true_iff. split; apply Z.eqb_eq; zdiv.
Qed.

Lemma calendarDays_by_components (a b : Date) :
  getFullYear a = getFullYear b -> getMonth a = getMonth b ->
  Calendar.calendarDays a = Calendar.calendarDays b.
Proof.
  intros Hy Hm. rewrite !calendarDays_closed_form. unfold gridFirst, gridLast.
  now rewrite Hy, Hm.
Qed.

(** X5: The grid is a function of the displayed month alone: two dates of the
    same month of the same year give the same cells. *)
Theorem calendarDays_same_month (a b : Date) :
  isSameMonth a b = true -> Calendar.calendarDays a = Calendar.calendarDays b.
Proof.
  unfold isSameMonth. intros Hsame.
  apply andb_true_iff in Hsame as [Hy Hm].
  apply calendarDays_by_components; now apply Z.eqb_eq.
Qed.

Lemma calendarDays_same_month_witness :
  Calendar.calendarDays (june 10) = Calendar.calendarDays (june 28 + 5000).
Proof. apply calendarDays_same_month. vm_compute. reflexivity. Defined.

(** A date of a year in range, and the dates of the month before and of the
    month after, are within the range of [Date]. *)
Lemma near_year_inRange (y : Z) (t : Date) :
  yearInRange y ->
  (getFullYear t = y
   \/ (getFullYear t = y - 1 /\ getMonth t = 11)
   \/ (getFullYear t = y + 1 /\ getMonth t = 0)) ->
  inRange t.
Proof.
  intros Hy Hnear. pose proof (yearInRange_days y Hy) as Hdays.
  pose proof (DayFromYear_mono y (y + 1) ltac:(lia)) as Hmono.
  rewrite <- (MakeDate_Day t). apply inRange_date; [ | apply TimeWithinDay_range].
  rewrite (Day_of_components t).
  pose proof (getDate_range t) as Hdate.
  pose proof (MonthFromDay_range (Day t)) as Hm.
  fold (MonthFromTime t) in Hm. fold (getMonth t) in Hm.
  pose proof (daysInMonth_range (getFullYear t) (getMonth t) Hm) as Hlen.
  pose proof (firstOfMonth_in_year (getFullYear t) (getMonth t) Hm) as Hin.
  unfold daysInMonth in Hdate, Hlen. cbv zeta in Hdate, Hlen.
  destruct Hnear as [Hsame | [[Hprev H11] | [Hnext H0]]].
  - rewrite Hsame in *. unfold firstOfMonth in *. lia.
  - rewrite Hprev, H11 in *.
    pose proof (DayFromYear_succ (y - 1)) as Hsucc.
    replace (y - 1 + 1) with y in * by lia. unfold DaysInYear in Hsucc.
    unfold firstOfMonth in *. change (11 + 1) with 12 in *. cbn [monthStart] in *.
    destruct (isLeap (y - 1)); lia.
  - rewrite Hnext, H0 in *.
    unfold firstOfMonth in *. change (0 + 1) with 1 in *. cbn [monthStart] in *.
    destruct (isLeap (y + 1)); lia.
Qed.

(** X6: For a displayed month of a year within the range of [Date], [nextMonth]
    and [prevMonth] move the displayed month by one, December going to
    January of the next year and January to December of the year before; the
    day of the month is kept, or cut down to the length of the month reached,
    and the time of day is kept; both are dates of the range. *)
Theorem month_navigation (currentMonth : Date) :
  yearInRange (getFullYear currentMonth) ->
  let year := getFullYear currentMonth in
  let month := getMonth currentMonth in
  let next := Calendar.nextMonth currentMonth in
  let prev := Calendar.prevMonth currentMonth in
  (getFullYear next, getMonth next)
    = (if month =? 11 then (year + 1, 0) else (year, month + 1))
  /\ (getFullYear prev, getMonth prev)
    = (if month =? 0 then (year - 1, 11) else (year, month - 1))
  /\ getDate next
     = Z.min (getDate currentMonth) (daysInMonth (getFullYear next) (getMonth next))
  /\ getDate prev
     = Z.min (getDate currentMonth) (daysInMonth (getFullYear prev) (getMonth prev))
  /\ TimeWithinDay next = TimeWithinDay currentMonth
  /\ TimeWithinDay prev = TimeWithinDay currentMonth
  /\ inRange next /\ inRange prev.
Proof.
  intros Hyear. cbv zeta. unfold Calendar.nextMonth, Calendar.prevMonth.
  destruct (addMonths_parts currentMonth 1) as (Hy1 & Hm1 & Hd1 & Ht1).
  destruct (addMonths_parts currentMonth (-1)) as (Hy2 & Hm2 & Hd2 & Ht2).
  assert (HM : 0 <= getMonth currentMonth <= 11) by apply MonthFromDay_range.
  assert (Hnext : inRange (addMonths currentMonth 1)).
  { apply (near_year_inRange (getFullYear currentMonth)); [exact Hyear | ].
    rewrite Hy1, Hm1. destruct (Z.eq_dec (getMonth currentMonth) 11) as [H11 | H11].
    - right. right. rewrite H11. split; reflexivity || (cbn; lia).
    - left. zdiv. }
  assert (Hprev : inRange (addMonths currentMonth (-1))).
  { apply (near_year_inRange (getFullYear currentMonth)); [exact Hyear | ].
    rewrite Hy2, Hm2. destruct (Z.eq_dec (getMonth currentMonth) 0) as [H0 | H0].
    - right. left. rewrite H0. split; reflexivity || (cbn; lia).
    - left. zdiv. }
  rewrite Hd1, Hd2, Ht1, Ht2, Hy1, Hm1, Hy2, Hm2.
  split; [ | split; [ | repeat split; assumption]].
  - destruct (Z.eqb_spec (getMonth currentMonth) 11); f_equal; zdiv.
  - destruct (Z.eqb_spec (getMonth currentMonth) 0); f_equal; zdiv.
Qed.

Lemma month_navigation_witness :
  Calendar.nextMonth (newDate 2025 11 15) = newDate 2026 0 15
  /\ inRange (Calendar.nextMonth (newDate 2025 11 15)).
Proof.
  split; [vm_compute; reflexivity | ].
  apply (month_navigation (newDate 2025 11 15)). vm_compute. split; congruence.
Defined.

(** X7: Forward and back, for a displayed month of a year within the range of
    [Date]: [prevMonth] after [nextMonth], and [nextMonth] after [prevMonth],
    show the month and the grid one started from, though the day of the month
    may have been cut down on the way. *)
Theorem prev_next_month (currentMonth : Date) :
  yearInRange (getFullYear currentMonth) ->
  isSameMonth (Calendar.prevMonth (Calendar.nextMonth currentMonth)) currentMonth = true
  /\ isSameMonth (Calendar.nextMonth (Calendar.prevMonth currentMonth)) currentMonth = true
  /\ Calendar.calendarDays (Calendar.prevMonth (Calendar.nextMonth currentMonth))
     = Calendar.calendarDays currentMonth
  /\ Calendar.calendarDays (Calendar.nextMonth (Calendar.prevMonth currentMonth))
     = Calendar.calendarDays currentMonth.
Proof.
  intros _.
  assert (Hback : forall a,
            getFullYear (addMonths (addMonths currentMonth a) (- a))
              = getFullYear currentMonth
            /\ getMonth (addMonths (addMonths currentMonth a) (- a))
               = getMonth currentMonth).
  { intros a.
    destruct (addMonths_parts (addMonths currentMonth a) (- a)) as (Hy2 & Hm2 & _).
    destruct (addMonths_parts currentMonth a) as (Hy1 & Hm1 & _).
    rewrite Hy2, Hm2, Hy1, Hm1.
    assert (HM : 0 <= getMonth currentMonth <= 11) by apply MonthFromDay_range.
    split; zdiv. }
  unfold Calendar.prevMonth, Calendar.nextMonth, isSameMonth.
  destruct (Hback 1) as [Hy1 Hm1]. destruct (Hback (-1)) as [Hy2 Hm2].
  change (- (1)) with (-1) in Hy1, Hm1. change (- (-1)) with 1 in Hy2, Hm2.
  rewrite Hy1, Hm1, Hy2, Hm2, !Z.eqb_refl.
  repeat split; now apply calendarDays_by_components.
Qed.

Lemma prev_next_month_witness :
  Calendar.calendarDays (Calendar.prevMonth (Calendar.nextMonth (newDate 2025 0 31)))
  = Calendar.calendarDays (newDate 2025 0 31).
Proof.
  apply (prev_next_month (newDate 2025 0 31)). vm_compute. split; congruence.
Defined.

(** X3: For a displayed month of a year within the range of [Date], the grid
    has four, five or six weeks. *)
Theorem calendarDays_weeks (currentMonth : Date) :
  yearInRange (getFullYear currentMonth) ->
  let cells := List.length (Calendar.calendarDays currentMonth) in
  cells = 28%nat \/ cells = 35%nat \/ cells = 42%nat.
Proof.
  intros _. cbv zeta.
  pose proof (grid_length currentMonth) as Hlen.
  pose proof (gridFirst_weekday currentMonth) as Hf.
  pose proof (gridLast_weekday currentMonth) as Hl.
  unfold gridFirst, gridLast in *. cbv zeta in *.
  set (y := MakeFullYear (getFullYear currentMonth)) in *.
  set (m := getMonth currentMonth) in *.
  assert (Hm : 0 <= m <= 11) by apply MonthFromDay_range.
  pose proof (daysInMonth_range y m Hm) as Hdays.
  assert (Hnext : firstOfMonth y (m + 1) = firstOfMonth y m + daysInMonth y m)
    by (unfold daysInMonth, firstOfMonth; cbv zeta; lia).
  rewrite Hnext in *.
  pose proof (WeekDayOfDay_range (firstOfMonth y m)).
  pose proof (WeekDayOfDay_range (firstOfMonth y m + daysInMonth y m - 1)).
  unfold WeekDayOfDay in *.
  assert (Hz : Z.of_nat (List.length (Calendar.calendarDays currentMonth)) = 28
               \/ Z.of_nat (List.length (Calendar.calendarDays currentMonth)) = 35
               \/ Z.of_nat (List.length (Calendar.calendarDays currentMonth)) = 42)
    by zdiv.
  lia.
Qed.

Lemma calendarDays_weeks_witness :
  List.length (Calendar.calendarDays (newDate 2026 1 10)) = 28%nat.
Proof.
  destruct (calendarDays_weeks (newDate 2026 1 10)
              ltac:(vm_compute; split; congruence)) as [H | [H | H]];
    [exact H | | ]; vm_compute in H; discriminate H.
Defined.

(** X4: Which cells belong to the displayed month (year outside 0..99 and
    within the range of [Date]).  The
    cells before the first of the month are as many as its weekday number,
    then come the days of the month, one cell each, then at most six cells of
    the next month: cell [i] is in the displayed month exactly when
    [lead <= i < lead + days].  The cells outside are the ones the grid
    disables. *)
Theorem grid_padding (currentMonth : Date) (i : nat) :
  yearInRange (getFullYear currentMonth) ->
  ~ (0 <= getFullYear currentMonth <= 99) ->
  (i < List.length (Calendar.calendarDays currentMonth))%nat ->
  let lead := getDay (newDate (getFullYear currentMonth) (getMonth currentMonth) 1) in
  let days := daysInMonth (getFullYear currentMonth) (getMonth currentMonth) in
  let cells := Z.of_nat (List.length (Calendar.calendarDays currentMonth)) in
  (exists cell,
     nth_error (Calendar.calendarDays currentMonth) i = Some cell
     /\ isSameMonth cell currentMonth
        = (lead <=? Z.of_nat i) && (Z.of_nat i <? lead + days))
  /\ 0 <= lead <= 6
  /\ 0 <= cells - (lead + days) <= 6.
Proof.
  intros _ Hyear Hi. cbv zeta.
  pose proof (grid_length currentMonth) as Hlen.
  rewrite (grid_nth currentMonth i Hi).
  assert (Hfull : MakeFullYear (getFullYear currentMonth) = getFullYear currentMonth).
  { unfold MakeFullYear.
    destruct (Z.leb_spec 0 (getFullYear currentMonth));
      destruct (Z.leb_spec (getFullYear currentMonth) 99); cbn [andb]; lia. }
  unfold gridFirst, gridLast in *. cbv zeta in *. rewrite Hfull in *.
  set (y := getFullYear currentMonth) in *. set (m := getMonth currentMonth) in *.
  assert (Hm : 0 <= m <= 11) by apply MonthFromDay_range.
  assert (Hfirst : newDate y m 1 = firstOfMonth y m * msPerDay).
  { unfold newDate. fold y in Hfull. rewrite Hfull, MakeDay_in_year by exact Hm.
    unfold MakeDate. rewrite MakeTime_midnight. lia. }
  rewrite Hfirst. unfold getDay, WeekDay. rewrite Day_midnight.
  assert (Hnext : firstOfMonth y (m + 1) = firstOfMonth y m + daysInMonth y m)
    by (unfold daysInMonth, firstOfMonth; cbv zeta; lia).
  rewrite Hnext in *.
  pose proof (WeekDayOfDay_range (firstOfMonth y m)) as Hlead.
  pose proof (WeekDayOfDay_range (firstOfMonth y m + daysInMonth y m - 1)) as Htrail.
  split; [ | split; lia].
  eexists. split; [reflexivity | ].
  set (day := firstOfMonth y m - WeekDayOfDay (firstOfMonth y m) + Z.of_nat i).
  unfold isSameMonth, getFullYear, getMonth, YearFromTime, MonthFromTime.
  rewrite Day_midnight. fold (YearFromTime currentMonth) (MonthFromTime currentMonth).
  fold (getFullYear currentMonth) (getMonth currentMonth). fold y m.
  destruct (Z.leb_spec (WeekDayOfDay (firstOfMonth y m)) (Z.of_nat i)) as [Hlo | Hlo];
    destruct (Z.ltb_spec (Z.of_nat i) (WeekDayOfDay (firstOfMonth y m) + daysInMonth y m))
      as [Hhi | Hhi]; cbn [andb].
  - destruct (civil_of_day y m day Hm ltac:(unfold day; lia)) as (-> & -> & _).
    now rewrite !Z.eqb_refl.
  - pose proof (day_in_its_month day) as Hin.
    destruct (Z.eqb_spec (YearFromDay day) y) as [Hy | _]; [ | reflexivity].
    destruct (Z.eqb_spec (MonthFromDay day) m) as [Hmo | _]; [ | reflexivity].
    rewrite Hy, Hmo, Hnext in Hin. unfold day in Hin. lia.
  - pose proof (day_in_its_month day) as Hin.
    destruct (Z.eqb_spec (YearFromDay day) y) as [Hy | _]; [ | reflexivity].
    destruct (Z.eqb_spec (MonthFromDay day) m) as [Hmo | _]; [ | reflexivity].
    rewrite Hy, Hmo, Hnext in Hin. unfold day in Hin. lia.
  - pose proof (day_in_its_month day) as Hin.
    destruct (Z.eqb_spec (YearFromDay day) y) as [Hy | _]; [ | reflexivity].
    destruct (Z.eqb_spec (MonthFromDay day) m) as [Hmo | _]; [ | reflexivity].
    rewrite Hy, Hmo, Hnext in Hin. unfold day in Hin. lia.
Qed.

Lemma grid_padding_witness :
  exists cell,
    nth_error (Calendar.calendarDays (newDate 2025 6 15)) 1 = Some cell
    /\ isSameMonth cell (newDate 2025 6 15) = false.
Proof.
  destruct (grid_padding (newDate 2025 6 15) 1
              ltac:(vm_compute; split; congruence)
              ltac:(vm_compute; intros [_ H]; now apply H)
              ltac:(vm_compute; repeat constructor))
    as ((cell & Hcell & Hsame) & _).
  exists cell. split; [exact Hcell | ]. rewrite Hsame. vm_compute. reflexivity.
Defined.

Lemma calendarDays_shape_witness :
  startOfDay (june 1) = june 1 /\ inRange (june 1).
Proof.
  apply (proj1 (proj2 (proj2 (proj2 (calendarDays_shape (june 10)
                                       ltac:(vm_compute; split; congruence)))))
           0%nat (june 1)).
  vm_compute. reflexivity.
Defined.

Lemma calendarDays_covers_month_witness :
  In (startOfDay (june 30 + 1000)) (Calendar.calendarDays (june 10)).
Proof.
  apply calendarDays_covers_month.
  - vm_compute. split; congruence.
  - vm_compute. intros [_ H]. now apply H.
  - vm_compute. reflexivity.
Defined.

End NavigationGridFacts.

(** ** More on the selector and the reconciler *)

Section CellFacts.
Import ES JS DateFns Spec.

Lemma handleDateClick_spans (trips : list Trip) (draft : DateRange)
    (readOnly : bool) (date : Date) (range : DateRange) :
  draftSpansDays draft ->
  Calendar.draftChange (Calendar.handleDateClick trips draft readOnly date) = Some range ->
  draftSpansDays range.
Proof.
  unfold Calendar.handleDateClick, draftSpansDays. cbn.
  destruct readOnly; [discriminate | ].
  destruct (startDate draft) as [s |], (endDate draft) as [e |]; intros Hinv Hch.
  - injection Hch as <-. exact I.
  - unfold isBefore in Hch. destruct (Z.ltb_spec date s).
    + injection Hch as <-. exact I.
    + rewrite isSameDay_Day in Hch.
      destruct (Z.eqb_spec (Day date) (Day s)); injection Hch as <-; cbn; [exact I | ].
      pose proof (Day_mono s date ltac:(lia)). lia.
  - discriminate.
  - injection Hch as <-. exact I.
Qed.

(** X8: Whatever is clicked, fetched, saved or reset, a complete draft never
    starts and ends on the same calendar day: the second click on the start
    day cancels the selection instead, so a range of one day cannot be
    selected. *)
Theorem complete_draft_spans_days (url : string) (st : App.State) :
  App.reachable url st -> draftSpansDays (App.draftRange st).
Proof.
  intros Hreach. induction Hreach as
    [ | silent now reply st _ IH | now saveReply listReply st _ IH | st _ IH
      | st _ IH | st _ IH | date st _ IH ].
  - exact I.
  - now rewrite fetchTrips_draft.
  - destruct (handleSave_draft url now saveReply listReply st) as [-> | ->];
      [exact IH | exact I].
  - exact I.
  - exact I.
  - exact IH.
  - unfold App.clickDay.
    destruct (Calendar.draftChange _) as [range |] eqn:Hch; [ | exact IH].
    cbn. eapply handleDateClick_spans; eassumption.
Qed.

Lemma complete_draft_spans_days_witness :
  draftSpansDays
    (App.draftRange
       (App.clickDay (june 20 + 1000)
          (App.clickDay (june 5) (App.enterEditMode App.initial)))).
Proof.
  apply (complete_draft_spans_days Api.API_URL).
  do 2 apply App.reach_click. apply App.reach_enter. apply App.reach_initial.
Defined.

Lemma within_days (date s e : Date) :
  Day s <= Day e ->
  isWithinInterval date (startOfDay s) (endOfDay e)
  = (Day s <=? Day date) && (Day date <=? Day e).
Proof.
  intros Hse. unfold isWithinInterval. rewrite startOfDay_eq, endOfDay_eq.
  assert (Hle : Day s * msPerDay <= Day e * msPerDay + (msPerDay - 1))
    by (unfold msPerDay; lia).
  rewrite Z.min_l, Z.max_r by exact Hle.
  assert (Hd : Day date * msPerDay <= date < Day date * msPerDay + msPerDay).
  { pose proof (startOfDay_le date) as H. now rewrite startOfDay_eq in H. }
  unfold msPerDay in *.
  destruct (Z.leb_spec (Day s) (Day date)), (Z.leb_spec (Day date) (Day e));
    cbn [andb];
    destruct (Z.leb_spec (Day s * 86400000) date),
             (Z.leb_spec date (Day e * 86400000 + (86400000 - 1)));
    cbn [andb]; try reflexivity; lia.
Qed.



(** X11: What a cell shows while nothing is being drafted.  With the empty draft,
    a day owned by a trip (the first trip of the list that holds it) whose
    start is not after its end is flagged as start on the trip's first day,
    as end on its last day and as range on the days strictly between, and it
    is a saved-trip cell; a day no trip owns has none of the flags. *)
Theorem cell_without_draft (trips : list Trip) (readOnly : bool)
    (currentMonth day : Date) :
  let cell := Calendar.dayCell trips (mkRange None None) readOnly currentMonth day in
  (forall t s e,
     Calendar.getTripForDate trips day = Some t ->
     Trip.startDate t = Some s -> Trip.endDate t = Some e -> Day s <= Day e ->
     Calendar.isStart cell = (Day day =? Day s)
     /\ Calendar.isEnd cell = (Day day =? Day e)
     /\ Calendar.isRange cell = (Day s <? Day day) && (Day day <? Day e)
     /\ Calendar.isSavedTrip cell = true)
  /\ (Calendar.getTripForDate trips day = None ->
      Calendar.isStart cell = false /\ Calendar.isEnd cell = false
      /\ Calendar.isRange cell = false /\ Calendar.isSavedTrip cell = false).
Proof.
  cbv zeta. unfold Calendar.dayCell. cbn. split.
  - intros t s e Hown Hs He Hse. rewrite Hown, Hs, He. cbn.
    rewrite !isSameDay_Day.
    assert (Hin : Calendar.tripContains day t = true).
    { unfold Calendar.getTripForDate in Hown. now apply find_some in Hown. }
    unfold Calendar.tripContains in Hin. rewrite Hs, He, within_days in Hin by exact Hse.
    apply andb_true_iff in Hin as [H1 H2]. apply Z.leb_le in H1, H2.
    destruct (Z.eqb_spec (Day day) (Day s)), (Z.eqb_spec (Day day) (Day e)),
             (Z.ltb_spec (Day s) (Day day)), (Z.ltb_spec (Day day) (Day e));
      cbn; repeat split; try reflexivity; lia.
  - intros ->. repeat split.
Qed.

Lemma cell_without_draft_witness :
  let cell := Calendar.dayCell [juneTrip "T1" 5 20] (mkRange None None) true
                               (june 1) (june 12) in
  Calendar.isStart cell = false /\ Calendar.isEnd cell = false
  /\ Calendar.isRange cell = true /\ Calendar.isSavedTrip cell = true.
Proof.
  cbv zeta.
  destruct (proj1 (cell_without_draft [juneTrip "T1" 5 20] true (june 1) (june 12))
              (juneTrip "T1" 5 20) (june 5) (june 20) eq_refl eq_refl eq_refl
              ltac:(vm_compute; congruence)) as (H1 & H2 & H3 & H4).
  rewrite H1, H2, H3, H4. vm_compute. repeat split.
Defined.

(** X9: The cells of a complete draft.  For a draft from [s] to [e] and a day of
    the grid, all three local midnights with [s] before [e], the cell is the
    draft's start on [s], its end on [e] and in its range strictly between
    them: the three flags exclude one another, and together they mark the days
    from [s] to [e]. *)
Theorem draft_cells (trips : list Trip) (readOnly : bool) (currentMonth day s e : Date) :
  startOfDay day = day -> startOfDay s = s -> startOfDay e = e -> s < e ->
  let cell := Calendar.dayCell trips (mkRange (Some s) (Some e)) readOnly currentMonth day in
  Calendar.isDraftStart cell = (day =? s)
  /\ Calendar.isDraftEnd cell = (day =? e)
  /\ Calendar.isDraftRange cell = (s <? day) && (day <? e)
  /\ Calendar.isStart cell = (day =? s)
  /\ Calendar.isEnd cell = (day =? e)
  /\ (Calendar.isDraftStart cell || Calendar.isDraftRange cell || Calendar.isDraftEnd cell
      = (s <=? day) && (day <=? e)).
Proof.
  intros Hday Hs He Hse. cbv zeta. unfold Calendar.dayCell. cbn.
  unfold isSameDay, Calendar.isInDraft, isAfter, isBefore. cbn. rewrite Hday, Hs, He.
  destruct (Z.eqb_spec day s), (Z.eqb_spec day e), (Z.ltb_spec s day), (Z.ltb_spec day e),
           (Z.leb_spec s day), (Z.leb_spec day e);
    cbn; repeat split; try reflexivity; lia.
Qed.

Lemma draft_cells_witness :
  Calendar.isDraftRange
    (Calendar.dayCell [] (mkRange (Some (june 5)) (Some (june 20))) false (june 1) (june 12))
  = true.
Proof.
  destruct (draft_cells [] false (june 1) (june 12) (june 5) (june 20)
              eq_refl eq_refl eq_refl ltac:(vm_compute; congruence)) as (_ & _ & H & _).
  rewrite H. vm_compute. reflexivity.
Defined.

(** X12: In browse mode the interactive cells are exactly the days a saved trip
    owns; in edit mode every cell is interactive. *)
Theorem interactive_cells (trips : list Trip) (draft : DateRange)
    (currentMonth day : Date) :
  Calendar.isInteractive (Calendar.dayCell trips draft true currentMonth day)
    = Calendar.isSome (Calendar.getTripForDate trips day)
  /\ Calendar.isInteractive (Calendar.dayCell trips draft false currentMonth day) = true.
Proof.
  unfold Calendar.dayCell. cbn. split; [ | reflexivity].
  destruct (Calendar.getTripForDate trips day) as [t |]; cbn; [ | reflexivity].
  destruct (Calendar.sameDayAs day (Trip.startDate t)),
           (Calendar.sameDayAs day (Trip.endDate t)); reflexivity.
Qed.

End CellFacts.

(** ** The fingerprint *)

Section FingerprintFacts.
Import ES JS DateFns Spec.
Local Open Scope string_scope.

Lemma allAscii_complete (c : ascii) : In c allAscii.
Proof.
  unfold allAscii. rewrite <- (ascii_nat_embedding c).
  apply in_map, in_seq. pose proof (nat_ascii_bounded c). lia.
Qed.

Lemma quoteChar_prefixFree : forall c1 c2, prefixFree c1 c2 = true.
Proof.
  assert (Hall : forallb (fun c1 => forallb (prefixFree c1) allAscii) allAscii = true)
    by (vm_compute; reflexivity).
  intros c1 c2. rewrite forallb_forall in Hall.
  pose proof (Hall c1 (allAscii_complete c1)) as Hc1.
  rewrite forallb_forall in Hc1. exact (Hc1 c2 (allAscii_complete c2)).
Qed.

Lemma quoteChar_startsPlain : forall c, startsPlain c = true.
Proof.
  assert (Hall : forallb startsPlain allAscii = true) by (vm_compute; reflexivity).
  intros c. rewrite forallb_forall in Hall. exact (Hall c (allAscii_complete c)).
Qed.

Lemma append_prefix (a b r1 r2 : string) :
  a ++ r1 = b ++ r2 -> String.prefix a b = true \/ String.prefix b a = true.
Proof.
  revert b. induction a as [| x a IH]; intros b Heq; [left; destruct b; reflexivity | ].
  destruct b as [| y b]; [right; reflexivity | ].
  cbn in Heq. injection Heq as -> Heq. cbn.
  destruct (Ascii.ascii_dec y y) as [_ | Hne]; [ | contradiction].
  exact (IH b Heq).
Qed.

Lemma append_cancel (a r1 r2 : string) : a ++ r1 = a ++ r2 -> r1 = r2.
Proof.
  induction a as [| x a IH]; cbn; intros Heq; [exact Heq | ].
  injection Heq as Heq. exact (IH Heq).
Qed.

(** One quoted character can be read back from the front of a text. *)
Lemma quoteChar_inj (c1 c2 : ascii) (r1 r2 : string) :
  quoteChar c1 ++ r1 = quoteChar c2 ++ r2 -> c1 = c2 /\ r1 = r2.
Proof.
  intros Heq. pose proof (quoteChar_prefixFree c1 c2) as Hfree.
  unfold prefixFree in Hfree.
  destruct (Ascii.eqb_spec c1 c2) as [-> | Hne].
  - split; [reflexivity | exact (append_cancel _ _ _ Heq)].
  - cbn in Hfree. apply negb_true_iff, orb_false_iff in Hfree as [H1 H2].
    destruct (append_prefix _ _ _ _ Heq); congruence.
Qed.

Lemma quoteBody_inj (s1 : string) : forall s2 r1 r2,
  quoteBody s1 ++ String (ascii_of_N 34) r1 = quoteBody s2 ++ String (ascii_of_N 34) r2 ->
  s1 = s2 /\ r1 = r2.
Proof.
  assert (Hstart : forall c rest r,
            String (ascii_of_N 34) r <> quoteChar c ++ rest).
  { intros c rest r Heq. pose proof (quoteChar_startsPlain c) as Hp.
    unfold startsPlain in Hp. destruct (quoteChar c) as [| x q]; [discriminate | ].
    cbn in Heq. injection Heq as Hx _. subst x.
    rewrite Ascii.eqb_refl in Hp. discriminate. }
  induction s1 as [| c1 s1 IH]; intros [| c2 s2] r1 r2 Heq; cbn in Heq.
  - injection Heq as ->. now split.
  - rewrite append_assoc3 in Heq. now apply Hstart in Heq.
  - rewrite append_assoc3 in Heq. symmetry in Heq. now apply Hstart in Heq.
  - rewrite !append_assoc3 in Heq.
    apply quoteChar_inj in Heq as [-> Heq].
    destruct (IH _ _ _ Heq) as [-> ->]. now split.
Qed.

Lemma QuoteJSONString_inj (s1 s2 r1 r2 : string) :
  QuoteJSONString s1 ++ r1 = QuoteJSONString s2 ++ r2 -> s1 = s2 /\ r1 = r2.
Proof.
  unfold QuoteJSONString, dquote. cbn. rewrite !append_assoc3. cbn.
  intros Heq. injection Heq as Heq. exact (quoteBody_inj _ _ _ _ Heq).
Qed.

Lemma concat_cons (x : string) (l : list string) (close : string) :
  String.concat "," (map QuoteJSONString (x :: l)) ++ close
  = QuoteJSONString x
    ++ match l with
       | [] => close
       | _ :: _ => String "," (String.concat "," (map QuoteJSONString l) ++ close)
       end.
Proof.
  destruct l as [| y l]; [reflexivity | ].
  cbn [map String.concat]. now rewrite append_assoc3.
Qed.

Lemma QuoteJSONString_start (s : string) :
  exists rest, QuoteJSONString s = String (ascii_of_N 34) rest.
Proof. unfold QuoteJSONString, dquote. cbn. eauto. Qed.

Lemma concat_quoted_inj (l1 : list string) : forall l2,
  String.concat "," (map QuoteJSONString l1) ++ "]"
  = String.concat "," (map QuoteJSONString l2) ++ "]" ->
  l1 = l2.
Proof.
  induction l1 as [| x l1 IH]; intros [| y l2] Heq.
  - reflexivity.
  - rewrite concat_cons in Heq. destruct (QuoteJSONString_start y) as [rest Hy].
    rewrite Hy in Heq. discriminate.
  - rewrite concat_cons in Heq. destruct (QuoteJSONString_start x) as [rest Hx].
    rewrite Hx in Heq. discriminate.
  - rewrite !concat_cons in Heq.
    apply QuoteJSONString_inj in Heq as [-> Heq].
    destruct l1 as [| x1 l1], l2 as [| y1 l2]; try discriminate; [reflexivity | ].
    f_equal. apply IH. congruence.
Qed.

(** [JSON.stringify] tells any two arrays of strings apart. *)
Lemma stringifyStrings_inj (l1 l2 : list string) :
  stringifyStrings l1 = stringifyStrings l2 -> l1 = l2.
Proof.
  unfold stringifyStrings. cbn. intros Heq. injection Heq as Heq.
  exact (concat_quoted_inj _ _ Heq).
Qed.

Local Close Scope string_scope.

(** X17: The fingerprint is exact on what it reads: two trip lists have the same
    fingerprint if and only if they have, trip by trip, the same text
    [id + lastUpdated].  The quoting of [JSON.stringify] keeps the trips
    apart, whatever characters the ids hold. *)
Theorem syncHash_exact (a b : list Trip) :
  App.syncHash a = App.syncHash b <-> map App.idAndMarker a = map App.idAndMarker b.
Proof.
  unfold App.syncHash. split.
  - apply stringifyStrings_inj.
  - now intros ->.
Qed.

(** X18: Which polls change the list.  When the recorded fingerprint is that of the
    list [previous], a poll that fetches [data] replaces the trip list if and
    only if the texts [id + lastUpdated] of [data] differ from those of
    [previous]; a change of the dates alone, or an id and a marker that join
    to the same text, goes unnoticed. *)
Theorem poll_replaces_iff (url : string) (silent : bool) (now : Date)
    (reply : Api.ListReply) (st : App.State) (previous data : list Trip) :
  App.lastServerHash st = App.syncHash previous ->
  Api.getAllTripsFromCloud url now reply = Resolved data ->
  let st' := App.fetchTrips url silent now reply st in
  (map App.idAndMarker data <> map App.idAndMarker previous ->
     App.trips st' = data /\ App.lastServerHash st' = App.syncHash data)
  /\ (map App.idAndMarker data = map App.idAndMarker previous ->
      App.trips st' = App.trips st /\ App.toasts st' = App.toasts st).
Proof.
  intros Hlast Hget st'. subst st'. split.
  - intros Hdiff. apply fetchTrips_new_hash; [exact Hget | ].
    rewrite Hlast. intros Heq. apply Hdiff.
    now apply stringifyStrings_inj.
  - intros Hsame.
    destruct (fetchTrips_same_hash url silent now reply st data Hget) as (Ht & _ & Hto).
    + rewrite Hlast. unfold App.syncHash. now rewrite Hsame.
    + now split.
Qed.

Lemma poll_replaces_iff_witness :
  let shown := Trip.mk "T1" (Some (june 5)) (Some (june 20)) None in
  let st := App.setLastServerHash (App.syncHash [shown]) (App.setTrips [shown] App.initial) in
  let st' := App.fetchTrips Api.API_URL true 0
               (Api.ListTrips [Api.mkTripJson "T1" "2025-06-06" "2025-06-21" None]) st in
  App.trips st' = [shown] /\ App.toasts st' = [].
Proof.
  cbv zeta.
  apply (proj2 (poll_replaces_iff Api.API_URL true 0
                  (Api.ListTrips [Api.mkTripJson "T1" "2025-06-06" "2025-06-21" None])
                  (App.setLastServerHash
                     (App.syncHash [Trip.mk "T1" (Some (june 5)) (Some (june 20)) None])
                     (App.setTrips [Trip.mk "T1" (Some (june 5)) (Some (june 20)) None]
                                   App.initial))
                  [Trip.mk "T1" (Some (june 5)) (Some (june 20)) None]
                  [juneTrip "T1" 6 21] eq_refl ltac:(vm_compute; reflexivity))).
  reflexivity.
Defined.

End FingerprintFacts.

(** ** Dates as text: [format] and [parseDateSafe] *)

Section FormatFacts.
Import ES JS DateFns Spec.
Local Open Scope string_scope.

Lemma digitsValue_app (s t : string) : forall acc,
  digitsValue acc (s ++ t)
  = match digitsValue acc s with
    | Some v => digitsValue v t
    | None => None
    end.
Proof.
  induction s as [| c s IH]; intros acc; cbn; [reflexivity | ].
  destruct (digitValue c); [apply IH | reflexivity].
Qed.

Lemma digitValue_digitChar (k : Z) :
  0 <= k <= 9 -> digitValue (digitChar k) = Some k.
Proof.
  intros Hk.
  assert (Hcases : k = 0 \/ k = 1 \/ k = 2 \/ k = 3 \/ k = 4 \/ k = 5 \/ k = 6
                   \/ k = 7 \/ k = 8 \/ k = 9) by lia.
  repeat destruct Hcases as [-> | Hcases]; try subst k; reflexivity.
Qed.

Lemma decimalDigits_acc (fuel : nat) : forall n acc,
  decimalDigits fuel n acc = decimalDigits fuel n "" ++ acc.
Proof.
  induction fuel as [| fuel IH]; intros n acc; cbn; [reflexivity | ].
  destruct (n <? 10)%Z; [reflexivity | ].
  rewrite IH, (IH _ (String _ "")), append_assoc3. reflexivity.
Qed.

(** Printing a number and reading it back. *)
Lemma digitsValue_decimalDigits (fuel : nat) : forall n,
  0 <= n < Z.of_nat fuel ->
  digitsValue 0 (decimalDigits fuel n "") = Some n.
Proof.
  induction fuel as [| fuel IH]; intros n Hn; [lia | ].
  cbn [decimalDigits]. destruct (Z.ltb_spec n 10) as [Hsmall | Hbig].
  - cbn [digitsValue]. rewrite Z.mod_small, digitValue_digitChar by lia. f_equal; lia.
  - assert (Hn' : 0 <= n < Z.of_nat fuel + 1) by lia. clear Hn.
    rewrite decimalDigits_acc, digitsValue_app, IH by zdiv.
    cbn [digitsValue]. rewrite digitValue_digitChar by zdiv. f_equal; zdiv.
Qed.

Lemma Number_numberToString (n : Z) : 0 <= n -> Number (numberToString n) = Some n.
Proof.
  intros Hn. unfold Number, numberToString.
  destruct (Z.ltb_spec n 0); [lia | ].
  apply digitsValue_decimalDigits. lia.
Qed.

Lemma Number_padZeros (k : nat) (s : string) : Number (padZeros k s) = Number s.
Proof. induction k as [| k IH]; [reflexivity | exact IH]. Qed.

Lemma Number_addLeadingZeros (n : Z) (k : nat) :
  0 <= n -> Number (addLeadingZeros n k) = Some n.
Proof.
  intros Hn. unfold addLeadingZeros, padStart.
  destruct (Z.ltb_spec n 0); [lia | ].
  rewrite Number_padZeros, Z.abs_eq by exact Hn. now apply Number_numberToString.
Qed.

Lemma format_isoDate (date : Date) :
  format date isoDate
  = dateString (formatToken date Token.yyyy) (formatToken date Token.MM)
               (formatToken date Token.dd) None.
Proof.
  unfold format, isoDate, dateString. cbn [map String.concat formatToken].
  now rewrite !append_assoc3, append_empty_r.
Qed.

Local Close Scope string_scope.

(** The text [format] writes for a date of the common era is parsed to the
    date the constructor makes of the year, month and day written. *)
Lemma parse_format_components (now date : Date) :
  1 <= getFullYear date ->
  Api.parseDateSafe now (format date isoDate)
  = Some (newDate (getFullYear date) (getMonth date) (getDate date)).
Proof.
  intros Hyear. rewrite format_isoDate.
  pose proof (MonthFromDay_range (Day date)) as Hm. fold (MonthFromTime date) in Hm.
  fold (getMonth date) in Hm.
  pose proof (getDate_range date) as Hd.
  rewrite (parseDateSafe_dateString now _ _ _ None
             (getFullYear date) (getMonth date + 1) (getDate date)).
  - now replace (getMonth date + 1 - 1) with (getMonth date) by lia.
  - cbn [formatToken]. destruct (Z.ltb_spec 0 (getFullYear date)); [ | lia].
    apply Number_addLeadingZeros. lia.
  - cbn [formatToken]. apply Number_addLeadingZeros. lia.
  - cbn [formatToken]. apply Number_addLeadingZeros. lia.
Qed.

(** From the year 100 on the constructor takes the year as it is, and the
    date made of the components of a date is the midnight of that date. *)
Lemma newDate_of_components (date : Date) :
  100 <= getFullYear date ->
  newDate (getFullYear date) (getMonth date) (getDate date) = startOfDay date.
Proof.
  intros Hyear. unfold newDate, MakeFullYear.
  pose proof (MonthFromDay_range (Day date)) as Hm. fold (MonthFromTime date) in Hm.
  fold (getMonth date) in Hm.
  destruct (Z.leb_spec 0 (getFullYear date)); destruct (Z.leb_spec (getFullYear date) 99);
    cbn [andb]; try lia.
  rewrite MakeDay_in_year by lia. rewrite MakeTime_midnight.
  rewrite startOfDay_eq, (Day_of_components date). unfold MakeDate. lia.
Qed.

(** X15: Round trip of a date through its text: for every date from the year 100
    on, [parseDateSafe] reads the ['yyyy-MM-dd'] text that [format] writes for
    it back to the local midnight of the same day, so a calendar day survives
    being saved and loaded. *)
Theorem parse_format_roundtrip (now date : Date) :
  100 <= getFullYear date ->
  Api.parseDateSafe now (format date isoDate) = Some (startOfDay date).
Proof.
  intros Hyear.
  rewrite parse_format_components by lia.
  now rewrite newDate_of_components.
Qed.

Lemma parse_format_roundtrip_witness :
  Api.parseDateSafe 0 (format (june 10 + 123456) isoDate) = Some (june 10).
Proof.
  rewrite (parse_format_roundtrip 0 (june 10 + 123456)); vm_compute; congruence.
Defined.

Lemma parseDateSafe_exact_witness :
  exists date,
    Api.parseDateSafe 0 (dateString "2025" "12" "05" (Some "16:00:00.000Z"%string))
    = Some date
    /\ getFullYear date = 2025 /\ getMonth date + 1 = 12 /\ getDate date = 5
    /\ startOfDay date = date
    /\ inRange date.
Proof.
  apply (parseDateSafe_exact 0 "2025" "12" "05" (Some "16:00:00.000Z"%string) 2025 12 5);
    vm_compute; (reflexivity || (split; congruence) || congruence).
Defined.

(** X14: Whatever follows the first "T" is ignored: a text without "T" is parsed
    alike with a time, or any other text, attached after a "T".  The empty
    text is the current date. *)
Theorem parseDateSafe_ignores_time (now : Date) (text rest : string) :
  allChars (fun c => negb (Ascii.eqb "T" c)) text = true ->
  isEmpty text = false ->
  Api.parseDateSafe now (text ++ String "T" rest) = Api.parseDateSafe now text
  /\ Api.parseDateSafe now EmptyString = Some now.
Proof.
  intros Hplain Hfull. split; [ | reflexivity].
  unfold Api.parseDateSafe. rewrite Hfull.
  assert (Hfull' : isEmpty (text ++ String "T" rest) = false)
    by (destruct text; [discriminate | reflexivity]).
  rewrite Hfull'.
  rewrite (split_first_piece (Ascii.eqb "T") text "T" rest Hplain eq_refl).
  rewrite (split_last_piece (Ascii.eqb "T") text Hplain). reflexivity.
Qed.

Lemma parseDateSafe_ignores_time_witness :
  Api.parseDateSafe 0 "2025/12/05T23:59:59+08:00" = Api.parseDateSafe 0 "2025/12/05".
Proof.
  apply (proj1 (parseDateSafe_ignores_time 0 "2025/12/05" "23:59:59+08:00"
                  eq_refl eq_refl)).
Defined.

(** X16: Round trip of a trip through the remote store.  When the store gives back
    the two date texts of the save request of a complete draft, with some id
    and marker, the trip the client builds from them runs from the day of the
    draft's start to the day of its end (years from 100 on); for a draft made
    of local midnights, as the selector makes them, these are the draft's own
    dates. *)
Theorem saved_trip_roundtrip (range : DateRange) (s e now : Date)
    (id : string) (marker : option string) (payload : Api.SavePayload) :
  startDate range = Some s -> endDate range = Some e ->
  100 <= getFullYear s -> 100 <= getFullYear e ->
  Api.savePayload range None = Some payload ->
  let trip := Api.tripOfJson now
                (Api.mkTripJson id (Api.payload_startDate payload)
                                (Api.payload_endDate payload) marker) in
  trip = Trip.mk id (Some (startOfDay s)) (Some (startOfDay e)) marker
  /\ (startOfDay s = s -> startOfDay e = e -> trip = Trip.mk id (Some s) (Some e) marker).
Proof.
  intros Hs He Hys Hye Hpay trip. subst trip.
  unfold Api.savePayload in Hpay. rewrite Hs, He in Hpay. injection Hpay as <-.
  unfold Api.tripOfJson.
  cbn [Api.json_id Api.json_startDate Api.json_endDate Api.json_lastUpdated
       Api.payload_startDate Api.payload_endDate].
  rewrite !parse_format_components by lia.
  rewrite !newDate_of_components by assumption.
  split; [reflexivity | ]. now intros -> ->.
Qed.

Lemma saved_trip_roundtrip_witness :
  Api.tripOfJson 0
    (Api.mkTripJson "T1" (format (june 5) isoDate) (format (june 20) isoDate) None)
  = juneTrip "T1" 5 20.
Proof.
  refine (proj1 (saved_trip_roundtrip (mkRange (Some (june 5)) (Some (june 20)))
                   (june 5) (june 20) 0 "T1" None
                   (Api.mkSavePayload "save" None (format (june 5) isoDate)
                                      (format (june 20) isoDate))
                   eq_refl eq_refl _ _ eq_refl)); vm_compute; congruence.
Defined.

End FormatFacts.

(** ** Saving, deleting and polling *)

Section HandlerFacts.
Import ES JS DateFns Spec.

(** X20: A save is all or nothing.  With a complete draft, [handleSave] either
    finds the new id in the list fetched after the save, and then shows that
    list, clears the draft and leaves edit mode with a success toast; or it
    shows one error toast and leaves the trip list, the draft and the mode as
    they were.  Either way [isSaving] is off again and the recorded fingerprint
    is untouched.  With an incomplete draft it does nothing at all. *)
Theorem handleSave_outcomes (url : string) (now : Date) (saveReply : Api.SaveReply)
    (listReply : Api.ListReply) (st : App.State) :
  let st' := App.handleSave url now saveReply listReply st in
  (startDate (App.draftRange st) = None \/ endDate (App.draftRange st) = None -> st' = st)
  /\ (forall s e,
        startDate (App.draftRange st) = Some s -> endDate (App.draftRange st) = Some e ->
        App.isSaving st' = false
        /\ App.lastServerHash st' = App.lastServerHash st
        /\ ((exists newId latest,
               Api.saveTripToCloud url (App.draftRange st) saveReply = Resolved (Some newId)
               /\ Api.getAllTripsFromCloud url now listReply = Resolved latest
               /\ In newId (map Trip.id latest)
               /\ App.trips st' = latest
               /\ App.draftRange st' = mkRange None None
               /\ App.isEditMode st' = false
               /\ App.toasts st' = App.mkToast "行程已新增成功" App.success :: App.toasts st)
            \/ (exists message,
                  App.toasts st' = App.mkToast message App.error :: App.toasts st
                  /\ App.trips st' = App.trips st
                  /\ App.draftRange st' = App.draftRange st
                  /\ App.isEditMode st' = App.isEditMode st))).
Proof.
  cbv zeta. unfold App.handleSave. split.
  - intros [-> | ->]; [reflexivity | ]. now destruct (startDate (App.draftRange st)).
  - intros s e -> ->.
    destruct (Api.saveTripToCloud url (App.draftRange st) saveReply) as [newId | err].
    + destruct (Api.getAllTripsFromCloud url now listReply) as [latest | err].
      * destruct (existsb (App.isId newId) latest) eqn:Hsaved; cbn [negb].
        -- destruct newId as [newId | ]; [ | now rewrite existsb_isId_None in Hsaved].
           split; [reflexivity | split; [reflexivity | left]].
           exists newId, latest. repeat split.
           apply existsb_exists in Hsaved as (t & Ht & Hid).
           apply String.eqb_eq in Hid. subst newId. now apply in_map.
        -- split; [reflexivity | split; [reflexivity | right]].
           eexists. repeat split.
      * split; [reflexivity | split; [reflexivity | right]]. eexists. repeat split.
    + split; [reflexivity | split; [reflexivity | right]]. eexists. repeat split.
Qed.

Lemma handleSave_outcomes_witness :
  let st := App.clickDay (june 20) (App.clickDay (june 5) (App.enterEditMode App.initial)) in
  let st' := App.handleSave Api.API_URL 0 (Api.SaveStatusError "quota") Api.ListNoTrips st in
  App.isSaving st' = false /\ App.lastServerHash st' = App.lastServerHash st.
Proof.
  cbv zeta.
  destruct (proj2 (handleSave_outcomes Api.API_URL 0 (Api.SaveStatusError "quota")
                     Api.ListNoTrips
                     (App.clickDay (june 20)
                        (App.clickDay (june 5) (App.enterEditMode App.initial))))
              (june 5) (june 20) eq_refl eq_refl) as (H1 & H2 & _).
  split; [exact H1 | exact H2].
Defined.

(** X21: A save leaves the fingerprint stale.  Take a state in which the recorded
    fingerprint is that of the list on display, as the first fetch makes it
    and every later fetch keeps it, and a successful save whose fetched list differs from the list on display in
    some text [id + lastUpdated].  The save puts the fetched list on display
    under the old fingerprint; the next poll that fetches the very same list
    takes it for new, records its fingerprint, replaces the list by itself
    and shows the "synchronised" toast. *)
Theorem save_then_poll (url : string) (now now' : Date) (saveReply : Api.SaveReply)
    (listReply reply' : Api.ListReply) (st : App.State) (newId : string)
    (latest : list Trip) :
  inSync st ->
  Api.saveTripToCloud url (App.draftRange st) saveReply = Resolved (Some newId) ->
  Api.getAllTripsFromCloud url now listReply = Resolved latest ->
  In newId (map Trip.id latest) ->
  map App.idAndMarker latest <> map App.idAndMarker (App.trips st) ->
  Api.getAllTripsFromCloud url now' reply' = Resolved latest ->
  let saved := App.handleSave url now saveReply listReply st in
  let polled := App.fetchTrips url true now' reply' saved in
  App.trips saved = latest
  /\ ~ inSync saved
  /\ App.trips polled = latest
  /\ inSync polled
  /\ App.toasts polled = App.mkToast "已同步最新行程" App.info :: App.toasts saved.
Proof.
  intros Hsync Hsave Hlist Hin Hdiff Hpoll. cbv zeta.
  assert (Hstale : App.syncHash latest <> App.lastServerHash st).
  { rewrite Hsync. intros Heq. apply Hdiff. now apply stringifyStrings_inj. }
  assert (Hsaved : existsb (App.isId (Some newId)) latest = true).
  { apply in_map_iff in Hin as (t & Hid & Ht). apply existsb_exists.
    exists t. split; [exact Ht | now apply String.eqb_eq]. }
  assert (Hcomplete : exists s e, startDate (App.draftRange st) = Some s
                                  /\ endDate (App.draftRange st) = Some e).
  { unfold Api.saveTripToCloud in Hsave. destruct (isEmpty url); [discriminate | ].
    destruct (startDate (App.draftRange st)) as [s |]; [ | discriminate].
    destruct (endDate (App.draftRange st)) as [e |]; [ | discriminate].
    now exists s, e. }
  destruct Hcomplete as (s & e & Hs & He).
  assert (Hstate : App.handleSave url now saveReply listReply st
                   = App.setIsSaving false
                       (App.setIsEditMode false
                          (App.setDraftRange (mkRange None None)
                             (App.showToast "行程已新增成功" App.success
                                (App.setTrips latest (App.setIsSaving true st)))))).
  { unfold App.handleSave. now rewrite Hs, He, Hsave, Hlist, Hsaved. }
  rewrite Hstate. split; [reflexivity | ].
  split.
  { unfold inSync.
    cbn [App.lastServerHash App.trips App.setIsSaving App.setIsEditMode App.setDraftRange
         App.showToast App.setTrips].
    intros Heq. apply Hstale. now rewrite Heq. }
  unfold App.fetchTrips. rewrite (getAll_resolved_url _ _ _ _ Hpoll), Hpoll.
  cbn [App.lastServerHash App.setIsSaving App.setIsEditMode App.setDraftRange App.showToast
       App.setTrips].
  apply String.eqb_neq in Hstale. rewrite Hstale. cbn [negb andb].
  assert (Hlen : (0 <? Z.of_nat (List.length latest)) = true).
  { apply Z.ltb_lt. destruct latest; [contradiction | cbn [List.length]; lia]. }
  rewrite Hlen. repeat split.
Qed.

Lemma save_then_poll_witness :
  let loaded := App.fetchTrips Api.API_URL false 0 (Api.ListTrips []) App.initial in
  let st := App.clickDay (june 20) (App.clickDay (june 5) (App.enterEditMode loaded)) in
  let reply := Api.ListTrips [Api.mkTripJson "T1" "2025-06-05" "2025-06-20" None] in
  let saved := App.handleSave Api.API_URL 0 (Api.SaveOk "T1") reply st in
  let polled := App.fetchTrips Api.API_URL true 0 reply saved in
  App.trips saved = [juneTrip "T1" 5 20]
  /\ ~ inSync saved
  /\ App.trips polled = [juneTrip "T1" 5 20]
  /\ inSync polled
  /\ App.toasts polled = App.mkToast "已同步最新行程" App.info :: App.toasts saved.
Proof.
  cbv zeta.
  apply (save_then_poll Api.API_URL 0 0 (Api.SaveOk "T1")
           (Api.ListTrips [Api.mkTripJson "T1" "2025-06-05" "2025-06-20" None])
           (Api.ListTrips [Api.mkTripJson "T1" "2025-06-05" "2025-06-20" None])
           (App.clickDay (june 20)
              (App.clickDay (june 5)
                 (App.enterEditMode
                    (App.fetchTrips Api.API_URL false 0 (Api.ListTrips []) App.initial))))
           "T1"%string [juneTrip "T1" 5 20]);
    try (vm_compute; reflexivity).
  - left. reflexivity.
  - vm_compute. discriminate.
Defined.

(** X22: What a delete can do.  Declined at the dialog, [handleDelete] does
    nothing.  Confirmed, it changes the trip list only if the store answered
    the request without error: after a missing endpoint, a transport failure,
    an unparsable body or an error status it shows the one toast "delete
    failed", whatever the message of the error was, and leaves the trips and
    the fingerprint alone.  After an answer without error it shows "deleted"
    and then does what a silent [fetchTrips] does.  [isDeleting] is cleared
    whenever the dialog was confirmed. *)
Theorem handleDelete_outcomes (url id : string) (confirmed : bool)
    (deleteReply : Api.DeleteReply) (now : Date) (listReply : Api.ListReply)
    (v : App.View) :
  let v' := App.handleDelete url id confirmed deleteReply now listReply v in
  (confirmed = false -> v' = v)
  /\ (confirmed = true -> App.isDeleting v' = None)
  /\ (confirmed = true -> isEmpty url = true \/ deleteReply <> Api.DeleteOk ->
      App.state v' = App.showToast "刪除失敗" App.error (App.state v))
  /\ (confirmed = true -> isEmpty url = false -> deleteReply = Api.DeleteOk ->
      App.state v'
      = App.fetchTrips url true now listReply
          (App.showToast "行程已刪除" App.info (App.state v))).
Proof.
  cbv zeta. unfold App.handleDelete, Api.deleteTripFromCloud.
  split; [now intros -> | ]. split; [ | split].
  - intros ->. cbn [negb]. destruct (isEmpty url); [reflexivity | ].
    destruct (Api.deleteTry deleteReply); reflexivity.
  - intros -> [Hurl | Hreply]; cbn [negb].
    + now rewrite Hurl.
    + destruct (isEmpty url); [reflexivity | ].
      destruct deleteReply; try reflexivity. now contradiction Hreply.
  - intros -> Hurl ->. cbn [negb]. now rewrite Hurl.
Qed.

Lemma handleDelete_outcomes_witness :
  let v := App.mkView (App.setTrips [juneTrip "T1" 5 20] App.initial) None in
  App.state (App.handleDelete Api.API_URL "T1" true (Api.DeleteStatusError "locked") 0
               Api.ListNoTrips v)
  = App.showToast "刪除失敗" App.error (App.state v).
Proof.
  cbv zeta.
  apply (proj1 (proj2 (proj2 (handleDelete_outcomes Api.API_URL "T1" true
                                (Api.DeleteStatusError "locked") 0 Api.ListNoTrips _))));
    [reflexivity | right; discriminate].
Defined.

Lemma includes_sheetMissing :
  includes (toString (newError Api.sheetMissing))
           "Cannot read properties of null (reading 'getActiveSheet')" = false
  /\ includes (toString (newError Api.sheetMissing)) "Failed to fetch" = false
  /\ includes (toString (newError Api.connectionFailed))
             "Cannot read properties of null (reading 'getActiveSheet')" = false
  /\ includes (toString (newError Api.connectionFailed)) "Failed to fetch" = false.
Proof. repeat split; vm_compute; reflexivity. Qed.

(** X23: The two write requests.  [saveTripToCloud] resolves exactly when the
    endpoint is set, the range is complete and the answer of the store can be
    read and is no error status: to the id of the answer, and to [undefined]
    when the answer has no id, which it does not check.
    [deleteTripFromCloud] resolves exactly when the endpoint is set and the
    store answers without error.  The errors that [handleApiError] rewords
    are not reworded again: it gives its own results back unchanged. *)
Theorem write_requests (url : string) :
  (forall range reply id,
     Api.saveTripToCloud url range reply = Resolved id
     <-> isEmpty url = false
         /\ startDate range <> None /\ endDate range <> None
         /\ match id with
            | Some i => reply = Api.SaveOk i
            | None => reply = Api.SaveNoId
            end)
  /\ (forall id reply,
        Api.deleteTripFromCloud url id reply = Resolved tt
        <-> isEmpty url = false /\ reply = Api.DeleteOk)
  /\ (forall e, Api.handleApiError (Api.handleApiError e) = Api.handleApiError e).
Proof.
  split; [ | split].
  - intros range reply id. unfold Api.saveTripToCloud. split.
    + destruct (isEmpty url); [discriminate | ].
      destruct (startDate range), (endDate range); try discriminate.
      destruct reply; cbn; try discriminate; intros [= <-];
        repeat split; discriminate.
    + intros (-> & Hs & He & Hreply).
      destruct (startDate range); [ | now contradiction Hs].
      destruct (endDate range); [ | now contradiction He].
      destruct id; subst reply; reflexivity.
  - intros id reply. unfold Api.deleteTripFromCloud. split.
    + destruct (isEmpty url); [discriminate | ].
      destruct reply; cbn; try discriminate. now split.
    + now intros (-> & ->).
  - intros e. destruct includes_sheetMissing as (H1 & H2 & H3 & H4).
    assert (Hcases :
      Api.handleApiError e = newError Api.sheetMissing
      \/ Api.handleApiError e = newError Api.connectionFailed
      \/ (Api.handleApiError e = e
          /\ includes (toString e)
                "Cannot read properties of null (reading 'getActiveSheet')" = false
          /\ includes (toString e) "Failed to fetch" = false)).
    { unfold Api.handleApiError. cbv zeta.
      destruct (includes (toString e) _); [now left | ].
      destruct (includes (toString e) "Failed to fetch"); [now right; left | ].
      right. right. repeat split. }
    destruct Hcases as [-> | [-> | (-> & Ha & Hb)]];
      unfold Api.handleApiError; cbv zeta.
    + rewrite H1, H2. reflexivity.
    + rewrite H3, H4. reflexivity.
    + rewrite Ha, Hb. reflexivity.
Qed.

Lemma write_requests_witness :
  Api.saveTripToCloud Api.API_URL (mkRange (Some (june 5)) (Some (june 20))) Api.SaveNoId
  = Resolved None.
Proof.
  apply (proj1 (write_requests Api.API_URL)).
  repeat split; discriminate.
Defined.

Lemma failed_fetch_empties_witness :
  App.trips
    (App.fetchTrips Api.API_URL false 0 Api.ListBodyUnparsable
       (App.setLastServerHash (App.syncHash [juneTrip "T1" 5 20])
          (App.setTrips [juneTrip "T1" 5 20] App.initial)))
  = [].
Proof.
  apply failed_fetch_empties.
  - reflexivity.
  - discriminate.
  - vm_compute. discriminate.
Defined.

(** X24: Polling and fetching never disturb an edit: [fetchTrips] changes neither
    the draft nor the mode nor [isSaving], a silent one leaves [isLoading]
    alone and a loud one ends with it off; a turn of the polling timer in edit
    mode, or without an endpoint, changes nothing. *)
Theorem polling_frame (url : string) (silent : bool) (now : Date)
    (reply : Api.ListReply) (st : App.State) :
  let st' := App.fetchTrips url silent now reply st in
  App.draftRange st' = App.draftRange st
  /\ App.isEditMode st' = App.isEditMode st
  /\ App.isSaving st' = App.isSaving st
  /\ (isEmpty url = false ->
      App.isLoading st' = if silent then App.isLoading st else false)
  /\ (isEmpty url = true -> st' = st)
  /\ (App.isEditMode st = true -> App.pollTick url now reply st = st).
Proof.
  cbv zeta.
  assert (Hpoll : App.isEditMode st = true -> App.pollTick url now reply st = st)
    by (unfold App.pollTick; intros ->; reflexivity).
  split; [apply fetchTrips_draft | ].
  unfold App.fetchTrips. destruct (isEmpty url) eqn:Hurl.
  - repeat split; (discriminate || assumption || reflexivity).
  - destruct (Api.getAllTripsFromCloud url now reply) as [data | err];
      destruct silent; cbn [negb andb];
      repeat match goal with
             | |- context [if ?b then _ else _] => destruct b
             end;
      repeat split; (discriminate || assumption || reflexivity).
Qed.

Lemma polling_frame_witness :
  let st := App.clickDay (june 5) (App.enterEditMode App.initial) in
  App.pollTick Api.API_URL 0
    (Api.ListTrips [Api.mkTripJson "T1" "2025-06-05" "2025-06-20" None]) st = st.
Proof.
  cbv zeta.
  apply (proj2 (proj2 (proj2 (proj2 (proj2
           (polling_frame Api.API_URL true 0
              (Api.ListTrips [Api.mkTripJson "T1" "2025-06-05" "2025-06-20" None])
              (App.clickDay (june 5) (App.enterEditMode App.initial)))))))).
  reflexivity.
Defined.

(** X25: A click with both callbacks.  The callback that was left out of
    [clickDay] never touches the draft: [cellClick] leaves the same draft as
    [clickDay].  In edit mode it is [clickDay], no toast is shown; in browse
    mode the draft stays, and a toast is shown exactly when a saved trip owns
    the day. *)
Theorem cellClick_effects (date : Date) (st : App.State) :
  App.draftRange (App.cellClick date st) = App.draftRange (App.clickDay date st)
  /\ (App.isEditMode st = true -> App.cellClick date st = App.clickDay date st)
  /\ (App.isEditMode st = false ->
      App.draftRange (App.cellClick date st) = App.draftRange st
      /\ (Calendar.getTripForDate (App.trips st) date = None ->
          App.cellClick date st = st)
      /\ (forall t, Calendar.getTripForDate (App.trips st) date = Some t ->
          exists text,
            App.toasts (App.cellClick date st)
            = App.mkToast text App.info :: App.toasts st)).
Proof.
  unfold App.cellClick, App.clickDay, App.handleDayClick, Calendar.handleDateClick,
    Calendar.getTripForDate.
  cbn [Calendar.dayClick Calendar.draftChange fst snd].
  destruct (App.isEditMode st) eqn:Hmode; cbn [negb].
  - split; [ | split; [ | discriminate]].
    + destruct (find _ (App.trips st));
        destruct (startDate (App.draftRange st)), (endDate (App.draftRange st));
        repeat match goal with
               | |- context [if ?b then _ else _] => destruct b
               end; reflexivity.
    + intros _. destruct (find _ (App.trips st)); reflexivity.
  - split; [ | split; [discriminate | intros _; split; [ | split]]].
    + destruct (find _ (App.trips st)); reflexivity.
    + destruct (find _ (App.trips st)); reflexivity.
    + intros ->. reflexivity.
    + intros t ->. eexists. reflexivity.
Qed.

Lemma cellClick_effects_witness :
  exists text,
    App.toasts (App.cellClick (june 10) (App.setTrips [juneTrip "T1" 5 20] App.initial))
    = [App.mkToast text App.info].
Proof.
  destruct (proj2 (proj2 (proj2 (proj2 (cellClick_effects (june 10)
                      (App.setTrips [juneTrip "T1" 5 20] App.initial))) eq_refl))
              (juneTrip "T1" 5 20) ltac:(vm_compute; reflexivity)) as [text Htext].
  exists text. exact Htext.
Defined.

End HandlerFacts.

(** ** Days of a trip, and holidays *)

Section DayCountFacts.
Import ES JS DateFns Spec.

Lemma monthStart_mono (leap m : Z) (k : nat) :
  0 <= leap <= 1 -> 0 <= m -> m + Z.of_nat k <= 12 ->
  monthStart leap m <= monthStart leap (m + Z.of_nat k).
Proof.
  intros Hl Hm. induction k as [| k IH]; intros Hk.
  - rewrite Z.add_0_r. lia.
  - pose proof (monthStart_step leap (m + Z.of_nat k) Hl ltac:(lia)) as Hstep.
    replace (m + Z.of_nat (S k)) with (m + Z.of_nat k + 1) by lia.
    specialize (IH ltac:(lia)). lia.
Qed.

(** A month that comes before another ends before the other starts. *)
Lemma month_order (ya ma yb mb : Z) :
  0 <= ma <= 11 -> 0 <= mb <= 11 ->
  ya < yb \/ (ya = yb /\ ma < mb) ->
  firstOfMonth ya (ma + 1) <= firstOfMonth yb mb.
Proof.
  intros Ha Hb Hlt. unfold firstOfMonth.
  assert (Hla : 0 <= (if isLeap ya then 1 else 0) <= 1) by (destruct (isLeap ya); lia).
  assert (Hlb : 0 <= (if isLeap yb then 1 else 0) <= 1) by (destruct (isLeap yb); lia).
  destruct Hlt as [Hy | [-> Hm]].
  - pose proof (monthStart_step _ ma Hla Ha) as Hstep.
    pose proof (monthStart_nonneg _ mb Hlb Hb) as Hnn.
    pose proof (DayFromYear_succ ya) as Hsucc. unfold DaysInYear in Hsucc.
    pose proof (DayFromYear_mono (ya + 1) yb ltac:(lia)).
    destruct (isLeap ya); lia.
  - pose proof (monthStart_mono _ (ma + 1) (Z.to_nat (mb - (ma + 1))) Hlb ltac:(lia)
                  ltac:(lia)) as Hmono.
    replace (ma + 1 + Z.of_nat (Z.to_nat (mb - (ma + 1)))) with mb in Hmono by lia.
    lia.
Qed.

Lemma time_of_day_parts (t : Date) :
  TimeWithinDay t
  = 3600000 * getHours t + 60000 * getMinutes t + 1000 * getSeconds t + getMilliseconds t
  /\ 0 <= getHours t < 24 /\ 0 <= getMinutes t < 60
  /\ 0 <= getSeconds t < 60 /\ 0 <= getMilliseconds t < 1000.
Proof.
  unfold TimeWithinDay, getHours, getMinutes, getSeconds, getMilliseconds, msPerDay. zdiv.
Qed.

Lemma earlier_month (a b : Date) :
  getFullYear a < getFullYear b
  \/ (getFullYear a = getFullYear b /\ getMonth a < getMonth b) ->
  a < b.
Proof.
  intros Hlt.
  pose proof (month_order _ _ _ _ (MonthFromDay_range (Day a)) (MonthFromDay_range (Day b))
                Hlt) as Hord.
  pose proof (day_in_its_month (Day a)) as Ha. pose proof (day_in_its_month (Day b)) as Hb.
  unfold getFullYear, getMonth, YearFromTime, MonthFromTime in *.
  assert (Hday : Day a < Day b) by lia.
  unfold Day, msPerDay in *. zdiv.
Qed.

(** [compareLocalAsc] orders dates as their time values are ordered. *)
Lemma compareLocalAsc_order (a b : Date) :
  (a < b -> compareLocalAsc a b = -1)
  /\ (a = b -> compareLocalAsc a b = 0)
  /\ (b < a -> compareLocalAsc a b = 1).
Proof.
  assert (Hkey : forall diff, (diff < 0 -> a < b) -> (0 < diff -> b < a) ->
            (diff = 0 -> a = b) ->
            let r := if diff <? 0 then -1 else if 0 <? diff then 1 else diff in
            (a < b -> r = -1) /\ (a = b -> r = 0) /\ (b < a -> r = 1)).
  { intros diff Hneg Hpos Hzero r. subst r.
    destruct (Z.ltb_spec diff 0); [repeat split; lia | ].
    destruct (Z.ltb_spec 0 diff); repeat split; lia. }
  unfold compareLocalAsc. apply Hkey; unfold orElse.
  all: pose proof (Day_of_components a) as Hda; pose proof (Day_of_components b) as Hdb.
  all: pose proof (MakeDate_Day a) as Ha; pose proof (MakeDate_Day b) as Hb.
  all: unfold MakeDate, msPerDay in Ha, Hb.
  all: destruct (time_of_day_parts a) as (Hta & ? & ? & ? & ?).
  all: destruct (time_of_day_parts b) as (Htb & ? & ? & ? & ?).
  all: destruct (Z.eqb_spec (getFullYear a - getFullYear b) 0) as [Hy | Hy];
    [ | pose proof (earlier_month a b); pose proof (earlier_month b a); lia].
  all: destruct (Z.eqb_spec (getMonth a - getMonth b) 0) as [Hm | Hm];
    [ | pose proof (earlier_month a b); pose proof (earlier_month b a); lia].
  all: assert (Hym : firstOfMonth (getFullYear a) (getMonth a)
                     = firstOfMonth (getFullYear b) (getMonth b))
    by (f_equal; lia).
  all: repeat match goal with
              | |- context [if ?x =? 0 then _ else _] => destruct (Z.eqb_spec x 0)
              end; lia.
Qed.

Lemma differenceInCalendarDays_eq (a b : Date) :
  differenceInCalendarDays a b = Day a - Day b.
Proof.
  unfold differenceInCalendarDays. rewrite !startOfDay_eq. unfold msPerDay. zdiv.
Qed.

(** [differenceInDays] counts the full days between two dates: the quotient of
    the difference of the time values by the length of a day, rounded towards
    zero. *)
Lemma differenceInDays_quot (a b : Date) :
  differenceInDays a b = Z.quot (a - b) msPerDay.
Proof.
  unfold differenceInDays. cbv zeta. rewrite differenceInCalendarDays_eq.
  set (sign := compareLocalAsc a b).
  set (difference := Z.abs (Day a - Day b)).
  replace (getDate a - sign * difference) with (getDate a + - (sign * difference)) by lia.
  rewrite setDate_shift.
  destruct (compareLocalAsc_order a b) as (Hlt & Heq & Hgt).
  destruct (compareLocalAsc_order (a + - (sign * difference) * msPerDay) b)
    as (Hlt' & Heq' & Hgt').
  pose proof (MakeDate_Day a) as Ha. pose proof (MakeDate_Day b) as Hb.
  pose proof (TimeWithinDay_range a) as Hta. pose proof (TimeWithinDay_range b) as Htb.
  unfold MakeDate, msPerDay in *. fold sign in Hlt, Heq, Hgt.
  destruct (Z.lt_trichotomy a b) as [Hab | [Hab | Hab]].
  - pose proof (Day_mono a b ltac:(lia)) as Hd.
    assert (Hs : sign = -1) by auto. rewrite Hs in *.
    assert (Hdiff : difference = Day b - Day a) by (unfold difference; lia).
    rewrite Hdiff in *.
    destruct (Z.lt_trichotomy (a + - (-1 * (Day b - Day a)) * 86400000) b)
      as [H' | [H' | H']];
      [rewrite (Hlt' H') | rewrite (Heq' H') | rewrite (Hgt' H')];
      match goal with
      | |- context [Z.eqb ?x ?y] => destruct (Z.eqb_spec x y); try lia
      end;
      Z.to_euclidean_division_equations; lia.
  - assert (Hs : sign = 0) by auto. rewrite Hs. subst b.
    rewrite Z.sub_diag. reflexivity.
  - pose proof (Day_mono b a ltac:(lia)) as Hd.
    assert (Hs : sign = 1) by auto. rewrite Hs in *.
    assert (Hdiff : difference = Day a - Day b) by (unfold difference; lia).
    rewrite Hdiff in *.
    destruct (Z.lt_trichotomy (a + - (1 * (Day a - Day b)) * 86400000) b)
      as [H' | [H' | H']];
      [rewrite (Hlt' H') | rewrite (Heq' H') | rewrite (Hgt' H')];
      match goal with
      | |- context [Z.eqb ?x ?y] => destruct (Z.eqb_spec x y); try lia
      end;
      Z.to_euclidean_division_equations; lia.
Qed.

Lemma midnight_eq (t : Date) : startOfDay t = t -> t = Day t * msPerDay.
Proof. intros H. now rewrite startOfDay_eq in H. Qed.

(** X26: The toast of a day of a trip.  In browse mode, a click on a day of the
    grid that a saved trip owns shows "day k of n" with k the number of the
    day within the trip and n the number of days of the trip, both counted
    from 1, so that k runs from 1 to n (the day and the two ends of the trip
    are local midnights, as the grid and the parser make them). *)
Theorem day_of_trip_toast (st : App.State) (day s e : Date) (t : Trip) :
  App.isEditMode st = false ->
  Calendar.getTripForDate (App.trips st) day = Some t ->
  Trip.startDate t = Some s -> Trip.endDate t = Some e ->
  startOfDay day = day -> startOfDay s = s -> startOfDay e = e -> s <= e ->
  let k := Day day - Day s + 1 in
  let n := Day e - Day s + 1 in
  App.toasts (App.cellClick day st)
    = App.mkToast (App.dayOfTripText day (Some k) (Some n)) App.info :: App.toasts st
  /\ 1 <= k <= n.
Proof.
  intros Hmode Hown Hs He Hday Hsm Hem Hse k n. subst k n.
  assert (Hin : Calendar.tripContains day t = true).
  { unfold Calendar.getTripForDate in Hown. now apply find_some in Hown. }
  pose proof (Day_mono s e Hse) as Hdse.
  unfold Calendar.tripContains in Hin. rewrite Hs, He, within_days in Hin by exact Hdse.
  apply andb_true_iff in Hin as [H1 H2]. apply Z.leb_le in H1, H2.
  split; [ | lia].
  unfold App.cellClick, App.handleDayClick, Calendar.handleDateClick.
  cbn [Calendar.dayClick Calendar.draftChange fst snd].
  unfold Calendar.getTripForDate in Hown. rewrite Hown, Hmode. cbn [negb].
  rewrite Hs, He. cbn [App.differenceOf App.addOne].
  rewrite !differenceInDays_quot.
  rewrite (midnight_eq day Hday), (midnight_eq s Hsm), (midnight_eq e Hem), !Day_midnight.
  replace (Day day * msPerDay - Day s * msPerDay) with ((Day day - Day s) * msPerDay) by lia.
  replace (Day e * msPerDay - Day s * msPerDay) with ((Day e - Day s) * msPerDay) by lia.
  rewrite !Z.quot_mul by (unfold msPerDay; lia). reflexivity.
Qed.

Lemma day_of_trip_toast_witness :
  App.toasts (App.cellClick (june 10) (App.setTrips [juneTrip "T1" 5 20] App.initial))
  = [App.mkToast (App.dayOfTripText (june 10) (Some 6) (Some 16)) App.info].
Proof.
  refine (proj1 (day_of_trip_toast (App.setTrips [juneTrip "T1" 5 20] App.initial)
                   (june 10) (june 5) (june 20) (juneTrip "T1" 5 20)
                   eq_refl _ eq_refl eq_refl _ _ _ _)); vm_compute; congruence.
Defined.

Lemma lookup_key (key : string) (properties : list (string * Holiday.HolidayInfo)) :
  Holiday.lookup key properties <> None -> In key (map fst properties).
Proof.
  induction properties as [| [k v] rest IH]; [intros H; now contradiction H | ].
  cbn. destruct (Holiday.lookup key rest) as [later |].
  - intros _. right. apply IH. discriminate.
  - destruct (String.eqb_spec k key) as [-> | _]; [now left | intros H; now contradiction H].
Qed.

(** X27: The holiday table covers 17 September 2024 to 12 October 2025: on every
    day (of a year from 100 on) outside these dates a cell has no holiday
    information, and so is marked neither as a holiday nor as a make-up
    workday. *)
Theorem holiday_window (day : Date) (info : Holiday.HolidayInfo) :
  100 <= getFullYear day ->
  Calendar.holidayInfo day = Some info ->
  newDate 2024 8 17 <= startOfDay day <= newDate 2025 9 12.
Proof.
  intros Hyear Hinfo. unfold Calendar.holidayInfo, Holiday.getHoliday in Hinfo.
  assert (Hkey : In (format day isoDate) (map fst Holiday.holidayMap))
    by (apply lookup_key; congruence).
  clear Hinfo. rename Hkey into Hinfo.
  assert (Hkeys : forallb keyInWindow (map fst Holiday.holidayMap) = true)
    by (vm_compute; reflexivity).
  rewrite forallb_forall in Hkeys. specialize (Hkeys _ Hinfo). clear Hinfo.
  unfold keyInWindow in Hkeys.
  rewrite (parse_format_components 0 day ltac:(lia)), (newDate_of_components day Hyear)
    in Hkeys.
  apply andb_true_iff in Hkeys as [H1 H2]. apply Z.leb_le in H1, H2.
  split; assumption.
Qed.

Lemma holiday_window_witness :
  newDate 2024 8 17 <= startOfDay (newDate 2025 9 10) <= newDate 2025 9 12.
Proof.
  refine (holiday_window (newDate 2025 9 10)
            (Holiday.mkInfo "國慶(台)" Holiday.holiday Holiday.TW) _ _).
  - vm_compute. congruence.
  - vm_compute. reflexivity.
Defined.

End DayCountFacts.

(** ** Scenarios *)

Section Scenarios.
Import ES JS DateFns Spec.

(** Clicks on 10 June, 5 June and 20 June in edit mode: the earlier date
    restarts the range and the later one completes it. *)
Example selector_scenario :
  let s0 := App.enterEditMode App.initial in
  let s1 := App.clickDay (june 10) s0 in
  let s2 := App.clickDay (june 5) s1 in
  let s3 := App.clickDay (june 20) s2 in
  App.draftRange s1 = mkRange (Some (june 10)) None
  /\ App.draftRange s2 = mkRange (Some (june 5)) None
  /\ App.draftRange s3 = mkRange (Some (june 5)) (Some (june 20)).
Proof. cbv zeta. repeat split; vm_compute; reflexivity. Qed.

(** The same date twice cancels the selection. *)
Example selector_cancel :
  App.draftRange
    (App.clickDay (june 10) (App.clickDay (june 10) (App.enterEditMode App.initial)))
  = mkRange None None.
Proof. vm_compute. reflexivity. Qed.

Example parse_date_only :
  Api.parseDateSafe 0 "2025-12-05" = Some (newDate 2025 11 5)
  /\ Api.parseDateSafe 0 "2025-12-05T16:00:00.000Z" = Some (newDate 2025 11 5)
  /\ Api.parseDateSafe 0 "2025/12/05" = Some (newDate 2025 11 5)
  /\ Api.parseDateSafe 0 "2025-12" = None.
Proof. repeat split; vm_compute; reflexivity. Qed.

(** June 2025 starts on a Sunday and ends on a Monday: five weeks, from
    1 June to 5 July. *)
Example grid_june_2025 :
  List.length (Calendar.calendarDays (june 10)) = 35%nat
  /\ hd_error (Calendar.calendarDays (june 10)) = Some (june 1)
  /\ nth_error (Calendar.calendarDays (june 10)) 34 = Some (newDate 2025 6 5).
Proof. repeat split; vm_compute; reflexivity. Qed.

Example sync_hash_example :
  App.syncHash [juneTrip "T1" 5 20; Trip.mk "T2" None None (Some "42"%string)]
  = ("[" ++ dquote ++ "T1undefined" ++ dquote ++ "," ++ dquote ++ "T242" ++ dquote ++ "]")%string.
Proof. vm_compute. reflexivity. Qed.

(** A save whose answer carries an id that the next list holds clears the
    draft and leaves edit mode. *)
Example save_scenario :
  let st := App.clickDay (june 20) (App.clickDay (june 5) (App.enterEditMode App.initial)) in
  let st' := App.handleSave Api.API_URL 0 (Api.SaveOk "T1")
               (Api.ListTrips [Api.mkTripJson "T1" "2025-06-05" "2025-06-20" None]) st in
  App.draftRange st' = mkRange None None
  /\ App.isEditMode st' = false
  /\ App.trips st' = [juneTrip "T1" 5 20].
Proof. cbv zeta. repeat split; vm_compute; reflexivity. Qed.

(** The text of a date, and a step from the end of January. *)
Example format_examples :
  format (june 5) isoDate = "2025-06-05"%string
  /\ format (newDate 2025 11 5) monthDay = "12/5"%string
  /\ Calendar.nextMonth (newDate 2025 0 31) = newDate 2025 1 28
  /\ Calendar.prevMonth (newDate 2025 0 31) = newDate 2024 11 31.
Proof. repeat split; vm_compute; reflexivity. Qed.

(** A click in browse mode on the sixth day of a trip of sixteen days. *)
Example day_click_example :
  App.toasts (App.cellClick (june 10) (App.setTrips [juneTrip "T1" 5 20] App.initial))
  = [App.mkToast "6/10 - 旅程第 6/16 天" App.info].
Proof. vm_compute. reflexivity. Qed.

End Scenarios.
